(** * The RTWire Go client: envelope codec, resource operations,
      transaction lifecycle and webhook parser

    A shallow embedding of [client/client.go] and the properties of its
    protocol layer.  The file has four parts:

    - [Go]: the few pieces of the Go runtime the client relies on
      (error values and their identity, run-time panics);
    - [json]: the part of [encoding/json] the client calls, on JSON syntax
      trees;
    - [http]: requests, responses and the transport of [net/http];
    - [client]: the package itself, function by function. *)

From Stdlib Require Import ZArith Ascii String.
From stdpp Require Import gmap strings list sorting.

Local Open Scope string_scope.
Local Open Scope Z_scope.

(* ===================================================================== *)
(** * Go runtime *)
(* ===================================================================== *)

Module Go.

(** Where an error value lives.  [errors.New] returns a pointer, and Go
    compares error values of this kind by pointer: a package-level
    variable initialised with [errors.New] is one fixed allocation, named
    here after the variable, while every [errors.New] or [fmt.Errorf]
    executed during a call allocates afresh.  The embedding only ever
    compares a value with a package-level variable, so all fresh
    allocations share the one tag [heap]. *)
Inductive addr : Type :=
| static (var : string)
| heap.

(** Values of the interface type [error]. *)
Inductive error : Type :=
| errorString (p : addr) (s : string)
    (* *errors.errorString: errors.New, and fmt.Errorf without %w *)
| SyntaxError (msg : string)
    (* *json.SyntaxError *)
| UnmarshalTypeError (Value GoType : string)
    (* *json.UnmarshalTypeError *)
| otherError (dynamicType msg : string).
    (* any other dynamic type: *url.Error, *net.OpError, ... *)

(** The method [Error()]. *)
Definition Error (e : error) : string :=
  match e with
  | errorString _ s => s
  | SyntaxError msg => msg
  | UnmarshalTypeError v t =>
      "json: cannot unmarshal " +:+ v +:+ " into Go value of type " +:+ t
  | otherError _ msg => msg
  end.

(** [errors.New(s)], executed during a call. *)
Definition errors_New (s : string) : error := errorString heap s.

(** [io.EOF]. *)
Definition io_EOF : error := errorString (static "io.EOF") "EOF".

(** Run-time panics. *)
Inductive runtimeError : Type :=
| IndexOutOfRange (index len : nat)
    (* "index out of range [index] with length len" *)
| MakesliceLenOutOfRange
    (* "makeslice: len out of range" *)
| MakesliceCapOutOfRange
    (* "makeslice: cap out of range" *)
| NilDereference.
    (* "invalid memory address or nil pointer dereference" *)

(** What a call of a Go function with results [(T, error)] produces when
    it hands back the zero [T] with every non-nil error: a value, an
    error, or a panic that unwinds the caller. *)
Inductive result (A : Type) : Type :=
| Ok (a : A)
| Err (e : error)
| Panic (p : runtimeError).
Global Arguments Ok {A} a.
Global Arguments Err {A} e.
Global Arguments Panic {A} p.

Global Instance result_ret : MRet result := @Ok.
Global Instance result_bind : MBind result := λ A B f m,
  match m with
  | Ok a => f a
  | Err e => Err e
  | Panic p => Panic p
  end.

(** What a call produces when its results are not of that shape. *)
Inductive outcome (A : Type) : Type :=
| Return (a : A)
| Panics (p : runtimeError).
Global Arguments Return {A} a.
Global Arguments Panics {A} p.

Definition is_Ok {A} (r : result A) : bool :=
  match r with Ok _ => true | _ => false end.

(** [s[i]] on a slice. *)
Definition index {A} (s : list A) (i : nat) : result A :=
  match s !! i with
  | Some a => Ok a
  | None => Panic (IndexOutOfRange i (length s))
  end.

(** [s[i] = x] on a slice. *)
Definition assign {A} (s : list A) (i : nat) (x : A) : result (list A) :=
  if decide (i < length s)%nat then Ok (<[i := x]> s)
  else Panic (IndexOutOfRange i (length s)).

(** The platform of the embedding is a 64-bit one with 48 bits of heap
    address, such as linux/amd64: [int] is [int64], a pointer takes eight
    bytes, and the largest allocation of the runtime, [maxAlloc], is
    [1 << 48] bytes. *)
Definition maxAlloc : Z := 281474976710656.

(** [make([]T, len, cap)] with elements [zero], as [runtime.makeslice]
    has it; [size] is the size of [T] in bytes and Go's [int] is [Z].  A
    capacity that is negative, below the length, or of more bytes than
    [maxAlloc] panics, and so does such a length: the length is blamed
    when it is out of range by itself, the capacity otherwise.  A product
    above [maxAlloc] stands for the overflow of [uintptr] as well.  The
    capacity has no part in the value.  Below [maxAlloc] the heap is
    taken to grant the memory: a process out of memory dies of a fatal
    error, which is no result of the function. *)
Definition make {A} (size : Z) (zero : A) (len cap : Z) : result (list A) :=
  if decide (cap < 0 ∨ maxAlloc < size * cap ∨ len < 0 ∨ cap < len) then
    if decide (len < 0 ∨ maxAlloc < size * len)
    then Panic MakesliceLenOutOfRange
    else Panic MakesliceCapOutOfRange
  else Ok (replicate (Z.to_nat len) zero).

(** [%d] of [fmt] and [strconv.Itoa]: decimal digits, most significant
    first. *)
Fixpoint digits_fuel (fuel : nat) (n : N) (acc : string) : string :=
  match fuel with
  | O => acc
  | S fuel' =>
      let d := Ascii.ascii_of_N (48 + n mod 10)%N in
      let acc' := String d acc in
      if (n / 10 =? 0)%N then acc' else digits_fuel fuel' (n / 10)%N acc'
  end.

Definition Itoa (z : Z) : string :=
  let n := Z.to_N (Z.abs z) in
  let ds := digits_fuel (S (N.to_nat (N.log2 n))) n "" in
  if decide (z < 0) then String "-" ds else ds.

End Go.

Import Go.

(* ===================================================================== *)
(** * encoding/json *)
(* ===================================================================== *)

Module json.

(** JSON texts as the scanner of [encoding/json] delivers them: the
    syntax tree, string literals unquoted, number literals as written,
    object members in the order of the text (duplicates included). *)
#[warnings="-register-all"] Inductive value : Type :=
| Null
| Bool (b : bool)
| Number (lit : string)
| Str (s : string)
| Array (elems : list value)
| Object (members : list (string * value)).

(** A byte slice handed to [json.Unmarshal], seen through the scanner:
    either it is rejected (with the message of the [*SyntaxError]), or it
    is the text of a JSON value. *)
Inductive data : Type :=
| Malformed (msg : string)
| Valid (v : value).

(** [json.RawMessage]: the bytes of one JSON value copied out of a larger
    text that the scanner has accepted, or [nil]. *)
Definition RawMessage : Type := option value.

Definition RawMessage_data (m : RawMessage) : data :=
  match m with
  | None => Malformed "unexpected end of JSON input"
  | Some v => Valid v
  end.

(** The [Value] field of an [UnmarshalTypeError]. *)
Definition kind (v : value) : string :=
  match v with
  | Null => "null"
  | Bool _ => "bool"
  | Number _ => "number"
  | Str _ => "string"
  | Array _ => "array"
  | Object _ => "object"
  end.

(** ** Outcome of storing a JSON value into a Go value

    The decoder writes into the target in place.  A value of the wrong
    JSON kind is skipped and the first such [UnmarshalTypeError] is saved
    ([d.saveError]); an error of an [UnmarshalJSON] method stops the
    decoder at once.  In both cases the target keeps what had been
    written before. *)
Inductive decoded (T : Type) : Type :=
| Stored (t : T) (saved : option error)
| Aborted (t : T) (e : error).
Global Arguments Stored {T} t saved.
Global Arguments Aborted {T} t e.

Definition into (T : Type) : Type := value → T → decoded T.

(** [d.saveError]: the earliest error is kept. *)
Definition saveError (saved new : option error) : option error :=
  match saved with
  | Some e => Some e
  | None => new
  end.

(** ** Scalars *)

Definition digit (c : ascii) : option Z :=
  let n := Z.of_nat (nat_of_ascii c) in
  if decide (48 ≤ n ≤ 57)%Z then Some (n - 48) else None.

Fixpoint digits_value (s : string) (acc : Z) : option Z :=
  match s with
  | EmptyString => Some acc
  | String c s' => d ← digit c; digits_value s' (10 * acc + d)
  end.

(** [strconv.ParseInt(s, 10, 64)]. *)
Definition ParseInt64 (s : string) : option Z :=
  let '(neg, ds) :=
    match s with
    | String "-" r => (true, r)
    | String "+" r => (false, r)
    | _ => (false, s)
    end in
  match ds with
  | EmptyString => None
  | _ =>
      n ← digits_value ds 0;
      let z := if neg : bool then - n else n in
      if decide (- 2 ^ 63 ≤ z < 2 ^ 63)%Z then Some z else None
  end.

(** Target of kind [int64]. *)
Definition int64 : into Z := λ v t,
  match v with
  | Null => Stored t None
  | Number lit =>
      match ParseInt64 lit with
      | Some n => Stored n None
      | None =>
          Stored t (Some (UnmarshalTypeError ("number " +:+ lit) "int64"))
      end
  | _ => Stored t (Some (UnmarshalTypeError (kind v) "int64"))
  end.

(** Target of kind [string]. *)
Definition string_ : into string := λ v t,
  match v with
  | Null => Stored t None
  | Str s => Stored s None
  | _ => Stored t (Some (UnmarshalTypeError (kind v) "string"))
  end.

(** Target of type [json.RawMessage]: its [UnmarshalJSON] copies the
    bytes of the value, whatever its kind, [null] included. *)
Definition rawMessage : into RawMessage := λ v _, Stored (Some v) None.

(** ** Slices

    A JSON array resets the slice to length zero and decodes the
    elements one after the other into fresh elements; [null] sets the
    slice to [nil]; any other kind is a type error. *)
Section slice.
Context {E : Type} (elem : into E) (zero : E).

Fixpoint array (elems : list value) : decoded (list E) :=
  match elems with
  | [] => Stored [] None
  | v :: rest =>
      match elem v zero with
      | Aborted e err => Aborted [e] err
      | Stored e err =>
          match array rest with
          | Stored l err' => Stored (e :: l) (saveError err err')
          | Aborted l err' => Aborted (e :: l) err'
          end
      end
  end.

Definition slice (type : string) : into (list E) := λ v t,
  match v with
  | Null => Stored [] None
  | Array elems => array elems
  | _ => Stored t (Some (UnmarshalTypeError (kind v) type))
  end.
End slice.

(** ** Structs

    A struct is described by its fields: the JSON name (the tag, or the
    Go name when there is none) and how a value is stored into it. *)
Record field (T : Type) : Type := Field {
  name : string;
  store : value → T → decoded T
}.
Global Arguments Field {T} name store.
Global Arguments name {T} f.
Global Arguments store {T} f.

(** A field of type [F] seen through its getter and setter. *)
Definition fieldOf {T F} (name : string) (get : T → F) (set : F → T → T)
    (dec : into F) : field T :=
  Field name (λ v t,
    match dec v (get t) with
    | Stored x e => Stored (set x t) e
    | Aborted x e => Aborted (set x t) e
    end).

Definition upper (c : ascii) : ascii :=
  let n := nat_of_ascii c in
  if decide (97 ≤ n ≤ 122)%nat then ascii_of_nat (n - 32) else c.

(** Key folding: ASCII letters to upper case, and the two runes whose
    simple case folding is an ASCII letter, U+017F (bytes C5 BF) to [S]
    and U+212A (bytes E2 84 AA) to [K].  The field names of the client
    are ASCII, and on the question whether a key matches an ASCII name
    this function agrees with [foldName] of [encoding/json]. *)
Fixpoint foldName (s : string) : string :=
  match s with
  | EmptyString => EmptyString
  | String c s1 =>
      match s1 with
      | String c2 s2 =>
          if decide (nat_of_ascii c = 197 ∧ nat_of_ascii c2 = 191)%nat
          then String "S" (foldName s2)
          else
            match s2 with
            | String c3 s3 =>
                if decide (nat_of_ascii c = 226 ∧ nat_of_ascii c2 = 132
                           ∧ nat_of_ascii c3 = 170)%nat
                then String "K" (foldName s3)
                else String (upper c) (foldName s1)
            | EmptyString => String (upper c) (foldName s1)
            end
      | EmptyString => String (upper c) EmptyString
      end
  end.

(** The field a key selects: the one with exactly that name, otherwise
    the first whose folded name is the folded key. *)
Definition lookupField {T} (fields : list (field T)) (key : string)
    : option (field T) :=
  match find (λ f, String.eqb (name f) key) fields with
  | Some f => Some f
  | None =>
      find (λ f, String.eqb (foldName (name f)) (foldName key)) fields
  end.

Section struct.
Context {T : Type} (fields : list (field T)).

Fixpoint members (m : list (string * value)) (t : T)
    (saved : option error) : decoded T :=
  match m with
  | [] => Stored t saved
  | (key, v) :: rest =>
      match lookupField fields key with
      | None => members rest t saved
      | Some f =>
          match store f v t with
          | Stored t' e => members rest t' (saveError saved e)
          | Aborted t' e => Aborted t' e
          end
      end
  end.

Definition struct (type : string) : into T := λ v t,
  match v with
  | Null => Stored t None
  | Object m => members m t None
  | _ => Stored t (Some (UnmarshalTypeError (kind v) type))
  end.
End struct.

(** ** [json.Unmarshal(data, &t)]

    The text is checked first and the target left alone when it is
    malformed.  The result is the target after the call and the error
    returned. *)
Definition Unmarshal {T} (dec : into T) (d : data) (t : T)
    : T * option error :=
  match d with
  | Malformed msg => (t, Some (SyntaxError msg))
  | Valid v =>
      match dec v t with
      | Stored t' saved => (t', saved)
      | Aborted t' e => (t', Some e)
      end
  end.

(** ** [json.NewDecoder(r).Decode(&t)]

    A reader seen through the decoder: the decoder either fails to obtain
    a JSON value from it (a read error, [io.EOF] on an empty stream,
    [io.ErrUnexpectedEOF] or a [*SyntaxError]), or it obtains the first
    JSON value of the stream. *)
Inductive stream : Type :=
| Broken (e : error)
| Holds (v : value).

Definition Decode {T} (dec : into T) (r : stream) (t : T)
    : T * option error :=
  match r with
  | Broken e => (t, Some e)
  | Holds v => Unmarshal dec (Valid v) t
  end.

End json.

(* ===================================================================== *)
(** * time, net/url, net/http *)
(* ===================================================================== *)

(** [time.Time]: seconds and nanoseconds since January 1 of year 1,
    00:00:00 UTC, and the offset of the zone; the zero value is that
    instant in UTC. *)
Record Time : Type := {
  sec : Z;
  nsec : Z;
  offset : Z
}.

Definition zeroTime : Time := {| sec := 0; nsec := 0; offset := 0 |}.

(** Two functions of the standard library are taken as they are, without
    a model of their own:

    - [url_Parse s] is [url.Parse(s)] followed, when it succeeds, by
      [String()] on the URL obtained;
    - [Time_UnmarshalJSON] is the method [UnmarshalJSON] of [time.Time],
      which checks RFC 3339 on a string literal, leaves the time alone on
      [null] and stops the decoder with its error on anything else. *)
Class Library : Type := {
  url_Parse : string → result string;
  Time_UnmarshalJSON : json.into Time
}.

Module http.

(** [*http.Request], for the requests the client sends and for the one a
    web hook receives.  [URL] is the text of [req.URL]; [BasicAuth] is what
    [SetBasicAuth] has put into the [Authorization] header; [Body] is
    [None] for a [nil] body. *)
Record Request : Type := {
  Method : string;
  URL : string;
  Header : gmap string (list string);
  BasicAuth : option (string * string);
  Body : option json.stream
}.

(** What [ioutil.ReadAll] returns for the body of a response: the bytes,
    together with what the scanner of [encoding/json] makes of them.  The
    empty text is not the text of a JSON value. *)
Record bytes : Type := {
  raw : string;
  scan : json.data
}.

Definition len (b : bytes) : Z := Z.of_nat (String.length (raw b)).

(** [*http.Response]; [ReadAll] is the outcome of reading [resp.Body] to
    its end. *)
Record Response : Type := {
  StatusCode : Z;
  ReadAll : result bytes
}.

(** [*http.Client]: one exchange. *)
Record Client : Type := {
  Do : Request → result Response
}.

(** [h.Get(key)] and [h.Set(key, value)], for keys in canonical form
    ([Accept], [Content-Type]); a server stores the header of an incoming
    request under canonical keys. *)
Definition Header_Get (h : gmap string (list string)) (key : string)
    : string :=
  match h !! key with
  | Some (v :: _) => v
  | _ => ""
  end.

Definition Header_Set (r : Request) (key v : string) : Request :=
  {| Method := Method r; URL := URL r;
     Header := <[key := [v]]> (Header r);
     BasicAuth := BasicAuth r; Body := Body r |}.

Definition SetBasicAuth (r : Request) (username password : string)
    : Request :=
  {| Method := Method r; URL := URL r; Header := Header r;
     BasicAuth := Some (username, password); Body := Body r |}.

(** [http.NewRequest(method, urlStr, body)] for the methods the client
    uses, all valid: it fails exactly when the URL does not parse. *)
Definition NewRequest {lib : Library} (method urlStr : string)
    (body : option json.stream) : result Request :=
  u ← url_Parse urlStr;
  Ok {| Method := method; URL := u; Header := ∅;
        BasicAuth := None; Body := body |}.

End http.

(* ===================================================================== *)
(** * encoding/base64 *)
(* ===================================================================== *)

Module base64.

(** The alphabet of [base64.URLEncoding]. *)
Definition encodeURL : string :=
  "ABCDEFGHIJKLMNOPQRSTUVWXYZabcdefghijklmnopqrstuvwxyz0123456789-_".

(** [enc.encode[i]]; the index is masked with [0x3F] wherever the encoder
    uses it, so that the array of 64 bytes is never left. *)
Definition encode (i : N) : ascii :=
  match String.get (N.to_nat i) encodeURL with
  | Some c => c
  | None => "000"%char
  end.

Definition StdPadding : ascii := "="%char.

(** [base64.URLEncoding.EncodeToString(src)]: three bytes make four
    letters; a last block of one or two bytes is filled up with the
    padding. *)
Fixpoint EncodeToString (src : string) : string :=
  match src with
  | EmptyString => EmptyString
  | String a EmptyString =>
      let val := N.shiftl (N_of_ascii a) 16 in
      String (encode (N.land (N.shiftr val 18) 63))
        (String (encode (N.land (N.shiftr val 12) 63))
           (String StdPadding (String StdPadding EmptyString)))
  | String a (String b EmptyString) =>
      let val :=
        N.lor (N.shiftl (N_of_ascii a) 16) (N.shiftl (N_of_ascii b) 8) in
      String (encode (N.land (N.shiftr val 18) 63))
        (String (encode (N.land (N.shiftr val 12) 63))
           (String (encode (N.land (N.shiftr val 6) 63))
              (String StdPadding EmptyString)))
  | String a (String b (String c rest)) =>
      let val :=
        N.lor (N.lor (N.shiftl (N_of_ascii a) 16)
                 (N.shiftl (N_of_ascii b) 8))
          (N_of_ascii c) in
      String (encode (N.land (N.shiftr val 18) 63))
        (String (encode (N.land (N.shiftr val 12) 63))
           (String (encode (N.land (N.shiftr val 6) 63))
              (String (encode (N.land val 63)) (EncodeToString rest))))
  end.

(** [enc.decodeMap[c]]: the place of a letter in the alphabet; [None]
    stands for [0xFF], the entry of every byte outside the alphabet. *)
Fixpoint indexOf (c : ascii) (s : string) (i : N) : option N :=
  match s with
  | EmptyString => None
  | String d s' => if Ascii.eqb c d then Some i else indexOf c s' (N.succ i)
  end.

Definition decodeMap (c : ascii) : option N := indexOf c encodeURL 0.

End base64.

(* ===================================================================== *)
(** * net/url: URLs with a query *)
(* ===================================================================== *)

Module neturl.

(** [*url.URL], as far as the client looks into it: the query, and what
    [String()] prints before and after it (scheme, authority and path
    before, the fragment after). *)
Record URL : Type := {
  beforeQuery : string;
  ForceQuery : bool;
  RawQuery : string;
  afterQuery : string
}.

(** [u.RawQuery = q]. *)
Definition withRawQuery (q : string) (u : URL) : URL :=
  {| beforeQuery := beforeQuery u; ForceQuery := ForceQuery u;
     RawQuery := q; afterQuery := afterQuery u |}.

(** [u.String()]. *)
Definition String_ (u : URL) : string :=
  beforeQuery u
  +:+ (if decide (ForceQuery u = true ∨ RawQuery u ≠ "")
       then "?" +:+ RawQuery u else "")
  +:+ afterQuery u.

(** [url.Values]. *)
Abbreviation Values := (gmap string (list string)).

(** [v.Set(key, value)]. *)
Definition Set_ (v : Values) (key value : string) : Values :=
  <[key := [value]]> v.

(** *** The text of a query

    [QueryEscape], [QueryUnescape], [Values.Encode] and [ParseQuery] as
    the library of Go 1.17 and later has them, on strings of bytes. *)

(** [ishex], [unhex] and the digits of [upperhex]. *)
Definition ishex (c : ascii) : bool :=
  let n := N_of_ascii c in
  bool_decide ((48 ≤ n ≤ 57) ∨ (97 ≤ n ≤ 102) ∨ (65 ≤ n ≤ 70))%N.

Definition unhex (c : ascii) : N :=
  let n := N_of_ascii c in
  if decide (48 ≤ n ≤ 57)%N then n - 48
  else if decide (97 ≤ n ≤ 102)%N then n - 97 + 10
  else if decide (65 ≤ n ≤ 70)%N then n - 65 + 10
  else 0.

Definition upperhex (n : N) : ascii :=
  if decide (n < 10)%N then ascii_of_N (48 + n)
  else ascii_of_N (65 + (n - 10)).

(** [shouldEscape(c, encodeQueryComponent)]: letters, digits and the four
    marks [-_.~] stay, every other byte is escaped. *)
Definition shouldEscape (c : ascii) : bool :=
  let n := N_of_ascii c in
  if bool_decide ((97 ≤ n ≤ 122) ∨ (65 ≤ n ≤ 90) ∨ (48 ≤ n ≤ 57))%N
  then false
  else if bool_decide (c = "-" ∨ c = "_" ∨ c = "." ∨ c = "~")%char
  then false
  else true.

(** [QueryEscape(s)]: a blank becomes a plus sign, a byte to escape a
    percent sign and its two hexadecimal digits in upper case. *)
Fixpoint QueryEscape (s : string) : string :=
  match s with
  | EmptyString => EmptyString
  | String c rest =>
      if decide (c = " "%char) then String "+" (QueryEscape rest)
      else if shouldEscape c then
        String "%" (String (upperhex (N_of_ascii c / 16))
                      (String (upperhex (N_of_ascii c mod 16))
                         (QueryEscape rest)))
      else String c (QueryEscape rest)
  end.

(** [strings.Cut(s, sep)] without its flag, and [strings.Contains(s, c)],
    for a separator of one byte. *)
Fixpoint Cut (s : string) (sep : ascii) : string * string :=
  match s with
  | EmptyString => (EmptyString, EmptyString)
  | String c rest =>
      if decide (c = sep) then (EmptyString, rest)
      else let '(before, after) := Cut rest sep in (String c before, after)
  end.

Fixpoint Contains (s : string) (c : ascii) : bool :=
  match s with
  | EmptyString => false
  | String c' rest => bool_decide (c' = c) || Contains rest c
  end.

(** The keys that the loop of [parseQuery] cuts off the query one after
    the other, [for query != "" { key, query, _ = strings.Cut(query, "&")
    ... }]: the texts between the ampersands, without a last empty one. *)
Fixpoint segments (query : string) : list string :=
  match query with
  | EmptyString => []
  | String c rest =>
      if decide (c = "&"%char) then EmptyString :: segments rest
      else
        match segments rest with
        | [] => [String c EmptyString]
        | key :: keys => String c key :: keys
        end
  end.

Section query.

(** [strconv.Quote], which words the text of an [EscapeError], is taken
    as it is. *)
Variable Quote : string → string.

Definition EscapeError (s : string) : error :=
  otherError "url.EscapeError" ("invalid URL escape " +:+ Quote s).

(** [QueryUnescape(s)]: the text and a nil error, or the empty text and
    the error of the first percent sign without two hexadecimal digits,
    which holds the three bytes from the sign on, or fewer at the end. *)
Fixpoint QueryUnescape (s : string) : string * option error :=
  match s with
  | EmptyString => (EmptyString, None)
  | String c rest =>
      if decide (c = "%"%char) then
        match rest with
        | String a (String b rest') =>
            if ishex a && ishex b then
              match QueryUnescape rest' with
              | (t, None) =>
                  (String (ascii_of_N (unhex a * 16 + unhex b)) t, None)
              | (_, Some err) => (EmptyString, Some err)
              end
            else
              (EmptyString,
               Some (EscapeError
                       (String c (String a (String b EmptyString)))))
        | _ => (EmptyString, Some (EscapeError s))
        end
      else
        match QueryUnescape rest with
        | (t, None) =>
            (String (if decide (c = "+"%char) then " "%char else c) t, None)
        | (_, Some err) => (EmptyString, Some err)
        end
  end.

(** One turn of the loop of [parseQuery] on the values [m] and the error
    [err] kept so far: a semicolon sets the error, whatever it was; an
    empty key is passed over; an escape that does not parse sets the
    error when there is none yet; and a pair is appended to the values of
    its key. *)
Definition parseSegment (st : Values * option error) (key : string)
    : Values * option error :=
  let '(m, err) := st in
  if Contains key ";" then
    (m, Some (errors_New "invalid semicolon separator in query"))
  else if decide (key = "") then (m, err)
  else
    let '(key, value) := Cut key "=" in
    match QueryUnescape key with
    | (_, Some err1) => (m, if err is None then Some err1 else err)
    | (key, None) =>
        match QueryUnescape value with
        | (_, Some err1) => (m, if err is None then Some err1 else err)
        | (value, None) =>
            (<[key := (default [] (m !! key) ++ [value])%list]> m, err)
        end
    end.

(** [ParseQuery(query)]: the values read, and the error. *)
Definition ParseQuery (query : string) : Values * option error :=
  foldl parseSegment (∅, None) (segments query).

End query.

(** The order of the keys in [Encode]: [sort.Strings], byte by byte. *)
Definition keyLe (a b : string * list string) : Prop :=
  String.leb a.1 b.1 = true.

Global Instance keyLe_dec a b : Decision (keyLe a b) :=
  decide (String.leb a.1 b.1 = true).

(** [v.Encode()]: the keys in order, every value of a key after its key
    and an equals sign, an ampersand before each pair but the first. *)
Definition Encode (v : Values) : string :=
  foldl (λ buf (kvs : string * list string),
           let keyEscaped := QueryEscape kvs.1 in
           foldl (λ buf x,
                    (if decide (buf = "") then buf else buf +:+ "&")
                    +:+ (keyEscaped +:+ ("=" +:+ QueryEscape x)))
             buf kvs.2)
    "" (merge_sort keyLe (map_to_list v)).

End neturl.

(** Three more functions of the standard library taken as they are:
    [url.Parse], up to the URL it returns; [url.ParseQuery], which hands
    back the values read together with the first error; and the method
    [Encode] of [url.Values]. *)
Class NetURL : Type := {
  url_ParseURL : string → result neturl.URL;
  url_ParseQuery : string → neturl.Values * option error;
  Values_Encode : neturl.Values → string
}.

(* ===================================================================== *)
(** * Package client *)
(* ===================================================================== *)

Module client.

Import json.

(** ** Package constants and variables *)

Definition MainNetURL : string := "https://api.rtwire.com/v1/mainnet".

Definition TestNet3URL : string := "https://api/rtwire.com/v1/testnet3".

Definition ErrTxIDUsed : error :=
  errorString (static "ErrTxIDUsed") "TxID used".

Definition ErrInsufficientFunds : error :=
  errorString (static "ErrInsufficientFunds") "insufficient funds".

Definition ErrHookExists : error :=
  errorString (static "ErrHookExists") "hook exists".

(** [fmt.Errorf] with a format that has no [%w]: the formatted text in a
    fresh error value. *)
Definition fmt_Errorf (text : string) : error := errors_New text.

(** ** Types *)

Record client : Type := {
  client_ : http.Client;
  url : string;
  user : string;
  pass : string
}.

Record Account : Type := {
  Account_ID : Z;
  Account_Balance : Z
}.

Record Transaction : Type := {
  ID : Z;
  Type_ : string;
  FromAccountID : Z;
  ToAccountID : Z;
  FromAccountBalance : Z;
  ToAccountBalance : Z;
  FromAccountTxID : Z;
  ToAccountTxID : Z;
  Value : Z;
  Created : Time;
  TxHashes : list string;
  TxOutIndex : Z
}.

Record address : Type := {
  Address : string
}.

Record object : Type := {
  object_Type : string;
  Next : string;
  Payload : RawMessage
}.

(** The element type of [payload] in [doError]. *)
Record message : Type := {
  Message : string
}.

Record TransactionEvent : Type := {
  Transaction_ : Transaction;
  Status : string
}.

(** Zero values. *)
Definition Account_zero : Account :=
  {| Account_ID := 0; Account_Balance := 0 |}.

Definition Transaction_zero : Transaction :=
  {| ID := 0; Type_ := ""; FromAccountID := 0; ToAccountID := 0;
     FromAccountBalance := 0; ToAccountBalance := 0;
     FromAccountTxID := 0; ToAccountTxID := 0; Value := 0;
     Created := zeroTime; TxHashes := []; TxOutIndex := 0 |}.

(** [unsafe.Sizeof] of a [Transaction] and of an [int64] on the platform
    of the embedding: nine [int64] of eight bytes, a string of two words,
    a [time.Time] of three and a slice of three. *)
Definition Transaction_size : Z := 136.

Definition int64_size : Z := 8.

Definition address_zero : address := {| Address := "" |}.

Definition object_zero : object :=
  {| object_Type := ""; Next := ""; Payload := None |}.

Definition message_zero : message := {| Message := "" |}.

Definition TransactionEvent_zero : TransactionEvent :=
  {| Transaction_ := Transaction_zero; Status := "" |}.

(** ** How [encoding/json] sees the types: field names from the struct
    tags, or the Go name of the field where there is no tag. *)

Definition Account_json : into Account :=
  struct
    [ fieldOf "id" Account_ID
        (λ x a, {| Account_ID := x; Account_Balance := Account_Balance a |})
        int64;
      fieldOf "balance" Account_Balance
        (λ x a, {| Account_ID := Account_ID a; Account_Balance := x |})
        int64 ]
    "client.Account".

Definition address_json : into address :=
  struct [ fieldOf "Address" Address (λ x _, {| Address := x |}) string_ ]
    "client.address".

Definition object_json : into object :=
  struct
    [ fieldOf "Type" object_Type
        (λ x o, {| object_Type := x; Next := Next o; Payload := Payload o |})
        string_;
      fieldOf "Next" Next
        (λ x o,
           {| object_Type := object_Type o; Next := x; Payload := Payload o |})
        string_;
      fieldOf "Payload" Payload
        (λ x o,
           {| object_Type := object_Type o; Next := Next o; Payload := x |})
        rawMessage ]
    "client.object".

Definition message_json : into message :=
  struct [ fieldOf "Message" Message (λ x _, {| Message := x |}) string_ ]
    "struct { Message string }".

(** The setters of [Transaction], one per field. *)
Definition with_ID (x : Z) (t : Transaction) : Transaction :=
  {| ID := x; Type_ := Type_ t; FromAccountID := FromAccountID t;
     ToAccountID := ToAccountID t;
     FromAccountBalance := FromAccountBalance t;
     ToAccountBalance := ToAccountBalance t;
     FromAccountTxID := FromAccountTxID t;
     ToAccountTxID := ToAccountTxID t; Value := Value t;
     Created := Created t; TxHashes := TxHashes t;
     TxOutIndex := TxOutIndex t |}.

Definition with_Type (x : string) (t : Transaction) : Transaction :=
  {| ID := ID t; Type_ := x; FromAccountID := FromAccountID t;
     ToAccountID := ToAccountID t;
     FromAccountBalance := FromAccountBalance t;
     ToAccountBalance := ToAccountBalance t;
     FromAccountTxID := FromAccountTxID t;
     ToAccountTxID := ToAccountTxID t; Value := Value t;
     Created := Created t; TxHashes := TxHashes t;
     TxOutIndex := TxOutIndex t |}.

Definition with_FromAccountID (x : Z) (t : Transaction) : Transaction :=
  {| ID := ID t; Type_ := Type_ t; FromAccountID := x;
     ToAccountID := ToAccountID t;
     FromAccountBalance := FromAccountBalance t;
     ToAccountBalance := ToAccountBalance t;
     FromAccountTxID := FromAccountTxID t;
     ToAccountTxID := ToAccountTxID t; Value := Value t;
     Created := Created t; TxHashes := TxHashes t;
     TxOutIndex := TxOutIndex t |}.

Definition with_ToAccountID (x : Z) (t : Transaction) : Transaction :=
  {| ID := ID t; Type_ := Type_ t; FromAccountID := FromAccountID t;
     ToAccountID := x;
     FromAccountBalance := FromAccountBalance t;
     ToAccountBalance := ToAccountBalance t;
     FromAccountTxID := FromAccountTxID t;
     ToAccountTxID := ToAccountTxID t; Value := Value t;
     Created := Created t; TxHashes := TxHashes t;
     TxOutIndex := TxOutIndex t |}.

Definition with_FromAccountBalance (x : Z) (t : Transaction)
    : Transaction :=
  {| ID := ID t; Type_ := Type_ t; FromAccountID := FromAccountID t;
     ToAccountID := ToAccountID t;
     FromAccountBalance := x;
     ToAccountBalance := ToAccountBalance t;
     FromAccountTxID := FromAccountTxID t;
     ToAccountTxID := ToAccountTxID t; Value := Value t;
     Created := Created t; TxHashes := TxHashes t;
     TxOutIndex := TxOutIndex t |}.

Definition with_ToAccountBalance (x : Z) (t : Transaction) : Transaction :=
  {| ID := ID t; Type_ := Type_ t; FromAccountID := FromAccountID t;
     ToAccountID := ToAccountID t;
     FromAccountBalance := FromAccountBalance t;
     ToAccountBalance := x;
     FromAccountTxID := FromAccountTxID t;
     ToAccountTxID := ToAccountTxID t; Value := Value t;
     Created := Created t; TxHashes := TxHashes t;
     TxOutIndex := TxOutIndex t |}.

Definition with_FromAccountTxID (x : Z) (t : Transaction) : Transaction :=
  {| ID := ID t; Type_ := Type_ t; FromAccountID := FromAccountID t;
     ToAccountID := ToAccountID t;
     FromAccountBalance := FromAccountBalance t;
     ToAccountBalance := ToAccountBalance t;
     FromAccountTxID := x;
     ToAccountTxID := ToAccountTxID t; Value := Value t;
     Created := Created t; TxHashes := TxHashes t;
     TxOutIndex := TxOutIndex t |}.

Definition with_ToAccountTxID (x : Z) (t : Transaction) : Transaction :=
  {| ID := ID t; Type_ := Type_ t; FromAccountID := FromAccountID t;
     ToAccountID := ToAccountID t;
     FromAccountBalance := FromAccountBalance t;
     ToAccountBalance := ToAccountBalance t;
     FromAccountTxID := FromAccountTxID t;
     ToAccountTxID := x; Value := Value t;
     Created := Created t; TxHashes := TxHashes t;
     TxOutIndex := TxOutIndex t |}.

Definition with_Value (x : Z) (t : Transaction) : Transaction :=
  {| ID := ID t; Type_ := Type_ t; FromAccountID := FromAccountID t;
     ToAccountID := ToAccountID t;
     FromAccountBalance := FromAccountBalance t;
     ToAccountBalance := ToAccountBalance t;
     FromAccountTxID := FromAccountTxID t;
     ToAccountTxID := ToAccountTxID t; Value := x;
     Created := Created t; TxHashes := TxHashes t;
     TxOutIndex := TxOutIndex t |}.

Definition with_Created (x : Time) (t : Transaction) : Transaction :=
  {| ID := ID t; Type_ := Type_ t; FromAccountID := FromAccountID t;
     ToAccountID := ToAccountID t;
     FromAccountBalance := FromAccountBalance t;
     ToAccountBalance := ToAccountBalance t;
     FromAccountTxID := FromAccountTxID t;
     ToAccountTxID := ToAccountTxID t; Value := Value t;
     Created := x; TxHashes := TxHashes t;
     TxOutIndex := TxOutIndex t |}.

Definition with_TxHashes (x : list string) (t : Transaction)
    : Transaction :=
  {| ID := ID t; Type_ := Type_ t; FromAccountID := FromAccountID t;
     ToAccountID := ToAccountID t;
     FromAccountBalance := FromAccountBalance t;
     ToAccountBalance := ToAccountBalance t;
     FromAccountTxID := FromAccountTxID t;
     ToAccountTxID := ToAccountTxID t; Value := Value t;
     Created := Created t; TxHashes := x;
     TxOutIndex := TxOutIndex t |}.

Definition with_TxOutIndex (x : Z) (t : Transaction) : Transaction :=
  {| ID := ID t; Type_ := Type_ t; FromAccountID := FromAccountID t;
     ToAccountID := ToAccountID t;
     FromAccountBalance := FromAccountBalance t;
     ToAccountBalance := ToAccountBalance t;
     FromAccountTxID := FromAccountTxID t;
     ToAccountTxID := ToAccountTxID t; Value := Value t;
     Created := Created t; TxHashes := TxHashes t;
     TxOutIndex := x |}.

Definition Transaction_fields {lib : Library} : list (field Transaction) :=
  [ fieldOf "id" ID with_ID int64;
    fieldOf "type" Type_ with_Type string_;
    fieldOf "fromAccountID" FromAccountID with_FromAccountID int64;
    fieldOf "toAccountID" ToAccountID with_ToAccountID int64;
    fieldOf "fromAccountBalance" FromAccountBalance
      with_FromAccountBalance int64;
    fieldOf "toAccountBalance" ToAccountBalance with_ToAccountBalance int64;
    fieldOf "fromAccountTxID" FromAccountTxID with_FromAccountTxID int64;
    fieldOf "toAccountTxID" ToAccountTxID with_ToAccountTxID int64;
    fieldOf "value" Value with_Value int64;
    fieldOf "created" Created with_Created Time_UnmarshalJSON;
    fieldOf "txHashes" TxHashes with_TxHashes (slice string_ "" "[]string");
    fieldOf "txOutIndex" TxOutIndex with_TxOutIndex int64 ].

Definition Transaction_json {lib : Library} : into Transaction :=
  struct Transaction_fields "client.Transaction".

(** The fields of the embedded [Transaction] are promoted. *)
Definition promote (f : field Transaction) : field TransactionEvent :=
  Field (name f) (λ v ev,
    match store f v (Transaction_ ev) with
    | Stored t e => Stored {| Transaction_ := t; Status := Status ev |} e
    | Aborted t e => Aborted {| Transaction_ := t; Status := Status ev |} e
    end).

Definition TransactionEvent_json {lib : Library} : into TransactionEvent :=
  struct
    (map promote Transaction_fields ++
     [ fieldOf "status" Status
         (λ x ev, {| Transaction_ := Transaction_ ev; Status := x |})
         string_ ])
    "client.TransactionEvent".

(** ** Fees and hooks *)

Record Fee : Type := {
  FeePerByte : Z;
  BlockHeight : Z
}.

Record Hook : Type := {
  Hook_URL : string
}.

Definition Fee_zero : Fee := {| FeePerByte := 0; BlockHeight := 0 |}.

Definition Hook_zero : Hook := {| Hook_URL := "" |}.

Definition Fee_json : into Fee :=
  struct
    [ fieldOf "feePerByte" FeePerByte
        (λ x f, {| FeePerByte := x; BlockHeight := BlockHeight f |}) int64;
      fieldOf "blockHeight" BlockHeight
        (λ x f, {| FeePerByte := FeePerByte f; BlockHeight := x |}) int64 ]
    "client.Fee".

Definition Hook_json : into Hook :=
  struct [ fieldOf "url" Hook_URL (λ x _, {| Hook_URL := x |}) string_ ]
    "client.Hook".

(** ** Options of the listing methods *)

(** The type [option]: a function that rewrites the URL in place and may
    fail, in which case the URL is as before. *)
Definition option_ : Type := neturl.URL → result neturl.URL.

Definition setQueryValue {net : NetURL} (u : neturl.URL) (key value : string)
    : result neturl.URL :=
  match url_ParseQuery (neturl.RawQuery u) with
  | (_, Some err) => Err err
  | (v, None) =>
      let v := neturl.Set_ v key value in
      Ok (neturl.withRawQuery (Values_Encode v) u)
  end.

Definition Limit {net : NetURL} (limit : Z) : option_ :=
  λ u, setQueryValue u "limit" (Itoa limit).

Definition Next_ {net : NetURL} (next : string) : option_ :=
  λ u, setQueryValue u "next" next.

Definition Pending {net : NetURL} : option_ :=
  λ u, setQueryValue u "status" "pending".

(** The loop [for _, op := range options] of the listing methods. *)
Fixpoint rangeOptions (options : list option_) (u : neturl.URL)
    : result neturl.URL :=
  match options with
  | [] => Ok u
  | op :: rest => u ← op u; rangeOptions rest u
  end.

(** ** The envelope decoder *)

(** [doError]: a function with the single result [error]; [Ok tt] stands
    for a nil error. *)
Definition doError (obj : object) : result unit :=
  let payload : list message := [] in
  match json.Unmarshal (slice message_json message_zero
                     "[]struct { Message string }")
          (RawMessage_data (Payload obj)) payload with
  | (_, Some err) => Err err
  | (payload, None) =>
      m ← index payload 0;
      Err (errors_New (Message m))
  end.

(** [do] reads the body of the response to its end and closes it on every
    path ([defer resp.Body.Close()]); what is left of the exchange is the
    status code and the bytes read. *)
Definition do (c : client) (req : http.Request)
    : result (string * RawMessage) :=
  resp ← http.Do (client_ c) req;
  (* We don't care about the status code. Only if we can decode JSON. *)
  body ← http.ReadAll resp;
  (* Check if no response expected. *)
  if decide (http.len body = 0 ∧ 200 ≤ http.StatusCode resp
             ∧ http.StatusCode resp < 300)
  then Ok ("", None)
  else
    match json.Unmarshal object_json (http.scan body) object_zero with
    | (_, Some _) =>
        Err (fmt_Errorf (http.URL req +:+ ": " +:+ http.raw body))
    | (obj, None) =>
        if decide (object_Type obj = "error")
        then _ ← doError obj; Ok ("", None)
        else Ok (Next obj, Payload obj)
    end.

(** ** Accounts and addresses *)

Definition accountsFromPayload (payload : RawMessage)
    : result (list Account) :=
  let accs : list Account := [] in
  match json.Unmarshal (slice Account_json Account_zero "[]client.Account")
          (RawMessage_data payload) accs with
  | (_, Some err) => Err err
  | (accs, None) => Ok accs
  end.

Definition accountFromPayload (payload : RawMessage) : result Account :=
  accs ← accountsFromPayload payload;
  if decide (length accs ≠ 1%nat)
  then Err (errors_New "expected one account")
  else index accs 0.

Module Client.

Section methods.
Context {lib : Library}.

Definition CreateAccount (c : client) : result client.Account :=
  let urlStr := url c +:+ "/accounts/" in
  req ← http.NewRequest "POST" urlStr None;
  let req := http.SetBasicAuth req (user c) (pass c) in
  let req := http.Header_Set req "Accept" "application/json" in
  '(_, payload) ← do c req;
  accountFromPayload payload.

Definition Account (c : client) (id : Z) : result client.Account :=
  let urlStr := url c +:+ "/accounts/" +:+ Itoa id in
  req ← http.NewRequest "GET" urlStr None;
  let req := http.SetBasicAuth req (user c) (pass c) in
  let req := http.Header_Set req "Accept" "application/json" in
  '(_, payload) ← do c req;
  accountFromPayload payload.

Definition CreateAddress (c : client) (accountID : Z) : result string :=
  let urlStr :=
    url c +:+ "/accounts/" +:+ Itoa accountID +:+ "/addresses/" in
  req ← http.NewRequest "POST" urlStr None;
  let req := http.SetBasicAuth req (user c) (pass c) in
  let req := http.Header_Set req "Accept" "application/json" in
  '(_, payload) ← do c req;
  let addrs : list address := [] in
  match json.Unmarshal (slice address_json address_zero "[]client.address")
          (RawMessage_data payload) addrs with
  | (_, Some err) => Err err
  | (addrs, None) =>
      if decide (length addrs ≠ 1%nat)
      then Err (errors_New "expected one address")
      else a ← index addrs 0; Ok (Address a)
  end.

(** ** Transactions *)

(** An integer as [json.Encoder] writes it. *)
Definition number (n : Z) : value := Number (Itoa n).

(** The loop [for i, tx := range txns { txIDs[i] = tx.ID }], from index
    [i] on. *)
Fixpoint rangeTxns (txns : list client.Transaction) (i : nat) (txIDs : list Z)
    : result (list Z) :=
  match txns with
  | [] => Ok txIDs
  | tx :: rest =>
      txIDs ← assign txIDs i (ID tx);
      rangeTxns rest (S i) txIDs
  end.

(** The encoder cannot fail on a struct of integers and strings, so the
    branch after [Encode] is never taken. *)
Definition CreateTransactionIDs (c : client) (n : Z) : result (list Z) :=
  let urlStr := url c +:+ "/transactions/" in
  let postBody := Holds (Object [("n", number n)]) in
  req ← http.NewRequest "POST" urlStr (Some postBody);
  let req := http.SetBasicAuth req (user c) (pass c) in
  let req := http.Header_Set req "Accept" "application/json" in
  let req := http.Header_Set req "Content-Type" "application/json" in
  '(_, payload) ← do c req;
  txns ← make Transaction_size Transaction_zero 0 n;
  match json.Unmarshal (slice Transaction_json Transaction_zero
                     "[]client.Transaction")
          (RawMessage_data payload) txns with
  | (_, Some err) => Err err
  | (txns, None) =>
      txIDs ← make int64_size 0 n n;
      rangeTxns txns 0 txIDs
  end.

Definition Transaction (c : client) (id : Z) : result client.Transaction :=
  let urlStr := url c +:+ "/transactions/" +:+ Itoa id in
  req ← http.NewRequest "GET" urlStr None;
  let req := http.SetBasicAuth req (user c) (pass c) in
  let req := http.Header_Set req "Accept" "application/json" in
  '(_, payload) ← do c req;
  let txns : list client.Transaction := [] in
  match json.Unmarshal (slice Transaction_json Transaction_zero
                     "[]client.Transaction")
          (RawMessage_data payload) txns with
  | (_, Some err) => Err err
  | (txns, None) => index txns 0
  end.

Definition Transfer (c : client) (txID fromAccountID toAccountID value : Z)
    : result unit :=
  let urlStr := url c +:+ "/transactions/" in
  let transferReq :=
    Object [ ("id", number txID);
             ("fromAccountID", number fromAccountID);
             ("toAccountID", number toAccountID);
             ("value", number value) ] in
  let putBody := Holds transferReq in
  req ← http.NewRequest "PUT" urlStr (Some putBody);
  let req := http.SetBasicAuth req (user c) (pass c) in
  let req := http.Header_Set req "Content-Type" "application/json" in
  match do c req with
  | Ok _ => Ok tt
  | Err err =>
      if decide (Error err = "insufficient funds")
      then Err ErrInsufficientFunds
      else Err err
  | Panic p => Panic p
  end.

Definition Debit (c : client) (txID fromAccountID : Z) (toAddress : string)
    (value : Z) : result unit :=
  let urlStr := url c +:+ "/transactions/" in
  let body :=
    Holds (Object [ ("id", number txID);
                    ("fromAccountID", number fromAccountID);
                    ("toAddress", Str toAddress);
                    ("value", number value) ]) in
  req ← http.NewRequest "PUT" urlStr (Some body);
  let req := http.SetBasicAuth req (user c) (pass c) in
  let req := http.Header_Set req "Content-Type" "application/json" in
  match do c req with
  | Ok _ => Ok tt
  | Err err => Err err
  | Panic p => Panic p
  end.

(** ** Hooks *)

Definition CreateHook (c : client) (url_ : string) : result unit :=
  let urlStr := url c +:+ "/hooks/" in
  let hookReq := Object [("url", Str url_)] in
  let body := Holds hookReq in
  req ← http.NewRequest "POST" urlStr (Some body);
  let req := http.Header_Set req "Content-Type" "application/json" in
  let req := http.SetBasicAuth req (user c) (pass c) in
  match do c req with
  | Ok _ => Ok tt
  | Err err =>
      if decide (Error err = "hook exists")
      then Err ErrHookExists
      else Err err
  | Panic p => Panic p
  end.

(** [Hooks] and [Fees] return the list and the error of the decoder side
    by side, the list being read after the call has filled it (as in
    [Unmarshal] below). *)
Definition Hooks (c : client) : outcome (list Hook * option error) :=
  let urlStr := url c +:+ "/hooks/" in
  match http.NewRequest "GET" urlStr None with
  | Err err => Return ([], Some err)
  | Panic p => Panics p
  | Ok req =>
      let req := http.Header_Set req "Accept" "application/json" in
      let req := http.SetBasicAuth req (user c) (pass c) in
      match do c req with
      | Err err => Return ([], Some err)
      | Panic p => Panics p
      | Ok (_, payload) =>
          let hooks : list Hook := [] in
          Return (json.Unmarshal (slice Hook_json Hook_zero "[]client.Hook")
                    (RawMessage_data payload) hooks)
      end
  end.

Definition DeleteHook (c : client) (url_ : string) : result unit :=
  let encodedURL := base64.EncodeToString url_ in
  let urlStr := url c +:+ "/hooks/" +:+ encodedURL in
  req ← http.NewRequest "DELETE" urlStr None;
  let req := http.SetBasicAuth req (user c) (pass c) in
  match do c req with
  | Ok _ => Ok tt
  | Err err => Err err
  | Panic p => Panic p
  end.

(** ** Fees *)

Definition Fees (c : client) : outcome (list Fee * option error) :=
  match http.NewRequest "GET" (url c +:+ "/fees/") None with
  | Err err => Return ([], Some err)
  | Panic p => Panics p
  | Ok req =>
      let req := http.SetBasicAuth req (user c) (pass c) in
      let req := http.Header_Set req "Accept" "application/json" in
      match do c req with
      | Err err => Return ([], Some err)
      | Panic p => Panics p
      | Ok (_, payload) =>
          let fees : list Fee := [] in
          Return (json.Unmarshal (slice Fee_json Fee_zero "[]client.Fee")
                    (RawMessage_data payload) fees)
      end
  end.

End methods.

(** ** Listings *)

Section listings.
Context {lib : Library} {net : NetURL}.

Definition Accounts (c : client) (options : list option_)
    : result (string * list client.Account) :=
  let urlStr := url c +:+ "/accounts/" in
  url_ ← url_ParseURL urlStr;
  url_ ← rangeOptions options url_;
  req ← http.NewRequest "GET" (neturl.String_ url_) None;
  let req := http.SetBasicAuth req (user c) (pass c) in
  let req := http.Header_Set req "Accept" "application/json" in
  '(next, payload) ← do c req;
  accs ← accountsFromPayload payload;
  Ok (next, accs).

Definition AccountTransactions (c : client) (accountID : Z)
    (options : list option_) : result (string * list client.Transaction) :=
  let urlStr :=
    url c +:+ "/accounts/" +:+ Itoa accountID +:+ "/transactions/" in
  url_ ← url_ParseURL urlStr;
  url_ ← rangeOptions options url_;
  req ← http.NewRequest "GET" (neturl.String_ url_) None;
  let req := http.SetBasicAuth req (user c) (pass c) in
  let req := http.Header_Set req "Accept" "application/json" in
  '(next, payload) ← do c req;
  let txns : list client.Transaction := [] in
  match json.Unmarshal
          (slice Transaction_json Transaction_zero "[]client.Transaction")
          (RawMessage_data payload) txns with
  | (_, Some err) => Err err
  | (txns, None) => Ok (next, txns)
  end.

End listings.

End Client.

(** ** The constructor *)

Definition New (c : http.Client) (url_ user_ pass_ : string) : client :=
  {| client_ := c; url := url_; user := user_; pass := pass_ |}.

(** ** The web hook *)

(** What [Unmarshal] does with the body of the request. *)
Inductive bodyOp : Type :=
| Read
| Close.

(** [Unmarshal]: the operations performed on [r.Body], and the two results
    or the panic.  In [return events, json.Unmarshal(obj.Payload, &events)]
    the variable is read after the call has filled it, as the Go compiler
    orders it and as the test of the hooks relies on. *)
Definition Unmarshal {lib : Library} (r : http.Request)
    : list bodyOp * outcome (list TransactionEvent * option error) :=
  if decide (http.Header_Get (http.Header r) "Content-Type"
             ≠ "application/json")
  then ([], Return ([], Some (errors_New "incorrect content type")))
  else
    match http.Body r with
    | None => ([], Panics NilDereference)
    | Some body =>
        (* defer r.Body.Close() *)
        match Decode object_json body object_zero with
        | (_, Some err) => ([Read; Close], Return ([], Some err))
        | (obj, None) =>
            if decide (object_Type obj = "transactions")
            then
              let events : list TransactionEvent := [] in
              ([Read; Close],
               Return (json.Unmarshal
                         (slice TransactionEvent_json TransactionEvent_zero
                            "[]client.TransactionEvent")
                         (RawMessage_data (Payload obj)) events))
            else
              ([Read; Close],
               Return ([], Some (fmt_Errorf
                                   ("unknown object type " +:+
                                    object_Type obj))))
        end
    end.

End client.

(* ===================================================================== *)
(** * Vocabulary of the statements *)
(* ===================================================================== *)

Module wire.

Import json client.

(** The transport of [c] completes the exchange of [req]: the response has
    status [status] and its body reads as [body]. *)
Definition answers (c : client) (req : http.Request) (status : Z)
    (body : http.bytes) : Prop :=
  http.Do (client_ c) req
  = Ok {| http.StatusCode := status; http.ReadAll := Ok body |}.

(** What [json.Unmarshal] makes of a body as an envelope, and of a payload
    as each of the lists the client expects. *)
Definition envelope (body : http.bytes) : object * option error :=
  json.Unmarshal object_json (http.scan body) object_zero.

Definition messages (payload : RawMessage) : list message * option error :=
  json.Unmarshal
    (slice message_json message_zero "[]struct { Message string }")
    (RawMessage_data payload) [].

Definition accounts (payload : RawMessage) : list Account * option error :=
  json.Unmarshal (slice Account_json Account_zero "[]client.Account")
    (RawMessage_data payload) [].

Definition addresses (payload : RawMessage) : list address * option error :=
  json.Unmarshal (slice address_json address_zero "[]client.address")
    (RawMessage_data payload) [].

Definition transactions {lib : Library} (payload : RawMessage)
    : list Transaction * option error :=
  json.Unmarshal
    (slice Transaction_json Transaction_zero "[]client.Transaction")
    (RawMessage_data payload) [].

Definition events {lib : Library} (payload : RawMessage)
    : list TransactionEvent * option error :=
  json.Unmarshal
    (slice TransactionEvent_json TransactionEvent_zero
       "[]client.TransactionEvent")
    (RawMessage_data payload) [].

(** The target after one element has been decoded into a fresh one. *)
Definition element {T} (dec : into T) (zero : T) (v : value) : T :=
  match dec v zero with
  | Stored t _ => t
  | Aborted t _ => t
  end.

(** The request each method hands to [do], [u] being the text of the URL
    once parsed. *)
Definition request (c : client) (method u : string)
    (header : gmap string (list string)) (body : option value)
    : http.Request :=
  {| http.Method := method; http.URL := u; http.Header := header;
     http.BasicAuth := Some (user c, pass c);
     http.Body := Holds <$> body |}.

Definition accept : gmap string (list string) :=
  <["Accept" := ["application/json"]]> ∅.

Definition contentType : gmap string (list string) :=
  <["Content-Type" := ["application/json"]]> ∅.

Definition CreateAccount_request (c : client) (u : string) : http.Request :=
  request c "POST" u accept None.

Definition Account_request (c : client) (u : string) : http.Request :=
  request c "GET" u accept None.

Definition CreateAddress_request (c : client) (u : string) : http.Request :=
  request c "POST" u accept None.

Definition CreateTransactionIDs_request (c : client) (u : string) (n : Z)
    : http.Request :=
  request c "POST" u
    (<["Content-Type" := ["application/json"]]> accept)
    (Some (Object [("n", Client.number n)])).

Definition Transaction_request (c : client) (u : string) : http.Request :=
  request c "GET" u accept None.

Definition Transfer_request (c : client) (u : string)
    (txID fromAccountID toAccountID value : Z) : http.Request :=
  request c "PUT" u contentType
    (Some (Object [ ("id", Client.number txID);
                    ("fromAccountID", Client.number fromAccountID);
                    ("toAccountID", Client.number toAccountID);
                    ("value", Client.number value) ])).

Definition Debit_request (c : client) (u : string)
    (txID fromAccountID : Z) (toAddress : string) (value : Z)
    : http.Request :=
  request c "PUT" u contentType
    (Some (Object [ ("id", Client.number txID);
                    ("fromAccountID", Client.number fromAccountID);
                    ("toAddress", Str toAddress);
                    ("value", Client.number value) ])).

Definition CreateHook_request (c : client) (u : string) (url_ : string)
    : http.Request :=
  request c "POST" u contentType (Some (Object [("url", Str url_)])).

(** A body that is a well-formed error envelope with first message [msg]:
    a text that is not empty and decodes as an envelope of type error whose
    payload decodes as a list of messages starting with [msg]. *)
Definition errorEnvelope (body : http.bytes) (msg : string) : Prop :=
  http.len body ≠ 0 ∧
  ∃ obj m rest,
    envelope body = (obj, None) ∧ object_Type obj = "error" ∧
    messages (Payload obj) = (m :: rest, None) ∧ Message m = msg.

(** The media type that a Content-Type declares, read as the
    specification reads it: the text before the first semicolon, where
    the parameters begin, without the blanks around it and in lower case,
    type and subtype being insensitive to case. *)
Definition blank (c : ascii) : bool :=
  bool_decide (c = " "%char ∨ c = "009"%char).

Definition lower (c : ascii) : ascii :=
  let n := N_of_ascii c in
  if decide (65 ≤ n ≤ 90)%N then ascii_of_N (n + 32) else c.

Fixpoint beforeSemicolon (s : string) : string :=
  match s with
  | EmptyString => EmptyString
  | String c rest =>
      if decide (c = ";"%char) then EmptyString
      else String c (beforeSemicolon rest)
  end.

Fixpoint trimLeft (s : string) : string :=
  match s with
  | EmptyString => EmptyString
  | String c rest => if blank c then trimLeft rest else s
  end.

Fixpoint trimRight (s : string) : string :=
  match s with
  | EmptyString => EmptyString
  | String c rest =>
      match trimRight rest with
      | EmptyString => if blank c then EmptyString else String c EmptyString
      | t => String c t
      end
  end.

Fixpoint toLower (s : string) : string :=
  match s with
  | EmptyString => EmptyString
  | String c rest => String (lower c) (toLower rest)
  end.

Definition mediaType (contentType : string) : string :=
  toLower (trimRight (trimLeft (beforeSemicolon contentType))).

Definition declaresJSONMediaType (r : http.Request) : Prop :=
  mediaType (http.Header_Get (http.Header r) "Content-Type")
  = "application/json".

(** The specification of the transaction identifiers, read to the letter:
    [n] identifiers come back and the [i]-th of them is the identifier of
    the [i]-th transaction of the payload, for every [i] below [n]. *)
Definition idsInServerOrder (n : Z) (txns : list Transaction)
    (ids : list Z) : Prop :=
  length ids = Z.to_nat n ∧
  ∀ i : nat, (i < Z.to_nat n)%nat →
    ∃ tx, txns !! i = Some tx ∧ ids !! i = Some (ID tx).

(** What [json.Unmarshal] makes of a payload as a list of fees and of
    hooks. *)
Definition fees (payload : RawMessage) : list Fee * option error :=
  json.Unmarshal (slice Fee_json Fee_zero "[]client.Fee")
    (RawMessage_data payload) [].

Definition hooks (payload : RawMessage) : list Hook * option error :=
  json.Unmarshal (slice Hook_json Hook_zero "[]client.Hook")
    (RawMessage_data payload) [].

(** The requests of the remaining methods. *)
Definition Fees_request (c : client) (u : string) : http.Request :=
  request c "GET" u accept None.

Definition Hooks_request (c : client) (u : string) : http.Request :=
  request c "GET" u accept None.

Definition DeleteHook_request (c : client) (u : string) : http.Request :=
  request c "DELETE" u ∅ None.

Definition Accounts_request (c : client) (u : string) : http.Request :=
  request c "GET" u accept None.

Definition AccountTransactions_request (c : client) (u : string)
    : http.Request :=
  request c "GET" u accept None.

(** The range of [int64]. *)
Definition int64_range (z : Z) : Prop := - 2 ^ 63 ≤ z < 2 ^ 63.

(** The JSON objects of the service for an account, a fee, a hook and an
    event without time stamp, members named as the struct tags name
    them. *)
Definition Account_value (a : Account) : value :=
  Object [ ("id", Client.number (Account_ID a));
           ("balance", Client.number (Account_Balance a)) ].

Definition Fee_value (f : Fee) : value :=
  Object [ ("feePerByte", Client.number (FeePerByte f));
           ("blockHeight", Client.number (BlockHeight f)) ].

Definition Hook_value (h : Hook) : value :=
  Object [ ("url", Str (Hook_URL h)) ].

Definition TransactionEvent_value (ev : TransactionEvent) : value :=
  let tx := Transaction_ ev in
  Object [ ("id", Client.number (ID tx));
           ("type", Str (Type_ tx));
           ("fromAccountID", Client.number (FromAccountID tx));
           ("toAccountID", Client.number (ToAccountID tx));
           ("fromAccountBalance", Client.number (FromAccountBalance tx));
           ("toAccountBalance", Client.number (ToAccountBalance tx));
           ("fromAccountTxID", Client.number (FromAccountTxID tx));
           ("toAccountTxID", Client.number (ToAccountTxID tx));
           ("value", Client.number (Value tx));
           ("txHashes", Array (Str <$> TxHashes tx));
           ("txOutIndex", Client.number (TxOutIndex tx));
           ("status", Str (Status ev)) ].

(** Every integer of a transaction lies in the range of [int64]. *)
Definition Transaction_int64 (tx : Transaction) : Prop :=
  int64_range (ID tx) ∧ int64_range (FromAccountID tx)
  ∧ int64_range (ToAccountID tx) ∧ int64_range (FromAccountBalance tx)
  ∧ int64_range (ToAccountBalance tx) ∧ int64_range (FromAccountTxID tx)
  ∧ int64_range (ToAccountTxID tx) ∧ int64_range (Value tx)
  ∧ int64_range (TxOutIndex tx).

(** Values in which every key has a value: [Encode] writes nothing for
    a key without values, so that only these can be read back. *)
Definition nonEmptyValues (v : neturl.Values) : Prop :=
  ∀ k l, v !! k = Some l → l ≠ [].

(** The two facts about the query functions that the options rely on:
    [url.ParseQuery] returns no key without a value, and it reads back
    what [Encode] has written of such values. *)
Definition queryRoundTrip {net : NetURL} : Prop :=
  (∀ q, nonEmptyValues (url_ParseQuery q).1)
  ∧ ∀ v : neturl.Values,
      nonEmptyValues v → url_ParseQuery (Values_Encode v) = (v, None).

(** The text of [Encode] as a row of pairs: how one pair is written
    after the text so far, the text of a pair, the pairs of a row of
    keys with their values, the text of the pairs after the first, what
    [ParseQuery] does with a pair, and the values of a key in a row of
    pairs. *)
Definition write (buf seg : string) : string :=
  (if decide (buf = "") then buf else buf +:+ "&") +:+ seg.

Definition segOf (p : string * string) : string :=
  neturl.QueryEscape p.1 +:+ ("=" +:+ neturl.QueryEscape p.2).

Definition pairsOf (kvs : list (string * list string))
    : list (string * string) :=
  kvs ≫= λ kv, (λ x, (kv.1, x)) <$> kv.2.

Fixpoint tailOf (segs : list string) : string :=
  match segs with
  | [] => ""
  | seg :: rest => String "&" (seg +:+ tailOf rest)
  end.

Definition add (m : neturl.Values) (p : string * string) : neturl.Values :=
  <[p.1 := (default [] (m !! p.1) ++ [p.2])%list]> m.

Definition valuesOf (k : string) (ps : list (string * string))
    : list string :=
  snd <$> filter (λ p, p.1 = k) ps.

(** The three options of the package by what they set, and the values
    of a query after a row of them. *)
Inductive setting : Type :=
| limitTo (limit : Z)
| nextFrom (next : string)
| pendingOnly.

Definition optionOf {net : NetURL} (s : setting) : option_ :=
  match s with
  | limitTo limit => Limit limit
  | nextFrom next => Next_ next
  | pendingOnly => Pending
  end.

Definition settingKey (s : setting) : string :=
  match s with
  | limitTo _ => "limit"
  | nextFrom _ => "next"
  | pendingOnly => "status"
  end.

Definition settingValue (s : setting) : string :=
  match s with
  | limitTo limit => Itoa limit
  | nextFrom next => next
  | pendingOnly => "pending"
  end.

Definition setAll (ss : list setting) (v : neturl.Values) : neturl.Values :=
  foldl (λ v s, neturl.Set_ v (settingKey s) (settingValue s)) v ss.

(** The JSON object of the service for a transaction without time
    stamp. *)
Definition Transaction_value (tx : Transaction) : value :=
  Object [ ("id", Client.number (ID tx));
           ("type", Str (Type_ tx));
           ("fromAccountID", Client.number (FromAccountID tx));
           ("toAccountID", Client.number (ToAccountID tx));
           ("fromAccountBalance", Client.number (FromAccountBalance tx));
           ("toAccountBalance", Client.number (ToAccountBalance tx));
           ("fromAccountTxID", Client.number (FromAccountTxID tx));
           ("toAccountTxID", Client.number (ToAccountTxID tx));
           ("value", Client.number (Value tx));
           ("txHashes", Array (Str <$> TxHashes tx));
           ("txOutIndex", Client.number (TxOutIndex tx)) ].

(** Two clients that differ at most in how their transports answer
    requests without the credentials [user], [pass]. *)
Definition agreeOnAuthenticated (c c' : client) : Prop :=
  url c = url c' ∧ user c = user c' ∧ pass c = pass c' ∧
  ∀ req, http.BasicAuth req = Some (user c, pass c) →
    http.Do (client_ c) req = http.Do (client_ c') req.

End wire.

(* ===================================================================== *)
(** * Sample data *)
(* ===================================================================== *)

Module sample.

Import json client.

(** A library that takes every URL as written and knows no time stamp:
    enough for payloads without a [created] member. *)
Definition library : Library :=
  {| url_Parse := λ s, Ok s;
     Time_UnmarshalJSON := λ v t,
       match v with
       | Null => Stored t None
       | Str s =>
           Aborted t (otherError "*time.ParseError" ("parsing time " +:+ s))
       | _ =>
           Aborted t
             (errors_New "Time.UnmarshalJSON: input is not a JSON string")
       end |}.

Definition quote (s : string) : string :=
  String "034" (s +:+ String "034" EmptyString).

(** The compact text of a JSON value whose strings need no escaping. *)
Fixpoint encode (v : value) : string :=
  match v with
  | Null => "null"
  | Bool true => "true"
  | Bool false => "false"
  | Number lit => lit
  | Str s => quote s
  | Array elems =>
      let fix list (l : list value) : string :=
        match l with
        | [] => ""
        | [x] => encode x
        | x :: rest => encode x +:+ "," +:+ list rest
        end in
      "[" +:+ list elems +:+ "]"
  | Object ms =>
      let fix list (l : list (string * value)) : string :=
        match l with
        | [] => ""
        | [(k, x)] => quote k +:+ ":" +:+ encode x
        | (k, x) :: rest => quote k +:+ ":" +:+ encode x +:+ "," +:+ list rest
        end in
      "{" +:+ list ms +:+ "}"
  end.

Definition text (v : value) : http.bytes :=
  {| http.raw := encode v; http.scan := Valid v |}.

Definition empty : http.bytes :=
  {| http.raw := ""; http.scan := Malformed "unexpected end of JSON input" |}.

(** A service that answers every request with the same status and body. *)
Definition service (status : Z) (body : http.bytes) : client :=
  {| client_ :=
       {| http.Do := λ _,
            Ok {| http.StatusCode := status; http.ReadAll := Ok body |} |};
     url := MainNetURL; user := "user"; pass := "pass" |}.

Definition errorEnvelope (msgs : list string) : value :=
  Object [ ("type", Str "error");
           ("payload", Array ((λ m, Object [("message", Str m)]) <$> msgs)) ].

Definition envelopeOf (type : string) (payload : value) : value :=
  Object [ ("type", Str type); ("payload", payload) ].

(** An incoming request of a hook. *)
Definition hookRequest (contentType : string) (body : stream)
    : http.Request :=
  {| http.Method := "POST"; http.URL := "/hook";
     http.Header := <["Content-Type" := [contentType]]> ∅;
     http.BasicAuth := None; http.Body := Some body |}.

(** Bodies and requests of the examples. *)
Definition transactionsURL : string := MainNetURL +:+ "/transactions/".

Definition usedBody : http.bytes := text (errorEnvelope ["TxID used"]).

Definition fundsBody : http.bytes :=
  text (errorEnvelope ["insufficient funds"; "try later"]).

Definition hookBody : http.bytes := text (errorEnvelope ["hook exists"]).

Definition noMessageBody : http.bytes := text (errorEnvelope []).

Definition badPayloadBody : http.bytes :=
  text (envelopeOf "error" (Str "oops")).

Definition account (id balance : string) : value :=
  Object [ ("id", Number id); ("balance", Number balance) ].

Definition accountsBody (accs : list value) : http.bytes :=
  text (Object [ ("type", Str "accounts"); ("next", Str "cursor");
                 ("payload", Array accs) ]).

Definition addressesBody (addrs : list string) : http.bytes :=
  text (envelopeOf "addresses"
          (Array ((λ a, Object [("address", Str a)]) <$> addrs))).

Definition stub (id : string) : value := Object [("id", Number id)].

Definition stubsBody (ids : list string) : http.bytes :=
  text (envelopeOf "transactions" (Array (stub <$> ids))).

Definition event (id status : string) : value :=
  Object [ ("id", Number id); ("type", Str "credit");
           ("status", Str status) ].

Definition eventOf (id : Z) (status : string) : TransactionEvent :=
  {| Transaction_ := with_Type "credit" (with_ID id Transaction_zero);
     Status := status |}.

(** A [net/url] with the query functions of the library and a
    [url.Parse] for URLs without query and fragment; [strconv.Quote] for
    texts that need no escaping. *)
Definition netURL : NetURL :=
  {| url_ParseURL := λ s,
       Ok {| neturl.beforeQuery := s; neturl.ForceQuery := false;
             neturl.RawQuery := ""; neturl.afterQuery := "" |};
     url_ParseQuery := neturl.ParseQuery quote;
     Values_Encode := neturl.Encode |}.

(** A [net/url] whose [ParseQuery] rejects every query. *)
Definition strictURL : NetURL :=
  {| url_ParseURL := λ s,
       Ok {| neturl.beforeQuery := s; neturl.ForceQuery := false;
             neturl.RawQuery := ";"; neturl.afterQuery := "" |};
     url_ParseQuery := λ q,
       (∅, Some (errors_New "invalid semicolon separator in query"));
     Values_Encode := λ v, "" |}.

(** A transport that fails, and a service that answers only requests
    with the credentials of [service]. *)
Definition down (e : error) : client :=
  {| client_ := {| http.Do := λ _, Err e |};
     url := MainNetURL; user := "user"; pass := "pass" |}.

Definition guarded (status : Z) (body : http.bytes) : client :=
  {| client_ :=
       {| http.Do := λ req,
            match http.BasicAuth req with
            | Some ("user", "pass") =>
                Ok {| http.StatusCode := status;
                      http.ReadAll := Ok body |}
            | _ => Err (errors_New "401")
            end |};
     url := MainNetURL; user := "user"; pass := "pass" |}.

Definition payloadBody (type : string) (payload : value) : http.bytes :=
  text (envelopeOf type payload).

Definition hooksBody : http.bytes :=
  payloadBody "hooks" (Array [Object [("url", Str "https://a.example/hook")]]).

(** A library whose [url.Parse] misses the scheme of a URL that starts
    with a colon, and a client with such a base URL. *)
Definition schemeLibrary : Library :=
  {| url_Parse := λ s,
       match s with
       | String ":" _ =>
           Err (otherError "*url.Error"
                  ("parse " +:+ quote s +:+ ": missing protocol scheme"))
       | _ => Ok s
       end;
     Time_UnmarshalJSON := Time_UnmarshalJSON (Library := library) |}.

Definition noScheme : client :=
  {| client_ := client_ (service 200 hooksBody);
     url := "://api.rtwire.com"; user := "user"; pass := "pass" |}.

End sample.

(* ===================================================================== *)
(** * Properties *)
(* ===================================================================== *)

Import json client wire.

(** ** The decoder of [encoding/json] on arrays *)

Section array_facts.
Context {E : Type} (elem : into E) (zero : E).

(** Whether the decoder stops or not, the elements stored so far are the
    elements of the array, one for one and in the order of the text. *)
Lemma array_lookup (elems : list value) (l : list E) :
  (∃ e, array elem zero elems = Stored l e)
  ∨ (∃ e, array elem zero elems = Aborted l e) →
  ∀ (i : nat) (x : E), l !! i = Some x →
    ∃ v, elems !! i = Some v ∧ x = element elem zero v.
Proof.
  revert l. induction elems as [|v rest IH]; intros l Hl i x Hx.
  - simpl in Hl. destruct Hl as [[e He]|[e He]]; [|discriminate].
    injection He as <- _. rewrite lookup_nil in Hx. discriminate.
  - simpl in Hl. unfold element.
    destruct (elem v zero) as [t sv|t err] eqn:Hv.
    + destruct (array elem zero rest) as [l' sv'|l' err'] eqn:Hr.
      * destruct Hl as [[e He]|[e He]]; [|discriminate].
        injection He as <- _. destruct i as [|i]; simpl in *.
        -- injection Hx as <-. exists v. rewrite Hv. done.
        -- apply (IH l'); eauto.
      * destruct Hl as [[e He]|[e He]]; [discriminate|].
        injection He as <- _. destruct i as [|i]; simpl in *.
        -- injection Hx as <-. exists v. rewrite Hv. done.
        -- apply (IH l'); eauto.
    + destruct Hl as [[e He]|[e He]]; [discriminate|].
      injection He as <- _. destruct i as [|i]; simpl in *.
      * injection Hx as <-. exists v. rewrite Hv. done.
      * rewrite lookup_nil in Hx. discriminate.
Qed.

(** A decoder that is not stopped stores every element. *)
Lemma array_Stored (elems : list value) (l : list E) (e : option error) :
  array elem zero elems = Stored l e → l = element elem zero <$> elems.
Proof.
  revert l e. induction elems as [|v rest IH]; intros l e Hl; simpl in Hl.
  - by injection Hl as <- _.
  - unfold element at 1. simpl.
    destruct (elem v zero) as [t sv|t err]; [|discriminate].
    destruct (array elem zero rest) as [l' sv'|l' err']; [|discriminate].
    injection Hl as <- _. f_equal. by eapply IH.
Qed.

End array_facts.

(** ** The envelope decoder *)

Lemma do_answers (c : client) (req : http.Request) (status : Z)
    (body : http.bytes) :
  answers c req status body →
  do c req =
    if decide (http.len body = 0 ∧ 200 ≤ status ∧ status < 300)
    then Ok ("", None)
    else
      match envelope body with
      | (_, Some _) =>
          Err (fmt_Errorf (http.URL req +:+ ": " +:+ http.raw body))
      | (obj, None) =>
          if decide (object_Type obj = "error")
          then _ ← doError obj; Ok ("", None)
          else Ok (Next obj, Payload obj)
      end.
Proof. unfold answers, do. intros ->. reflexivity. Qed.

Lemma doError_cases (obj : object) :
  doError obj =
    match messages (Payload obj) with
    | (_, Some err) => Err err
    | (payload, None) =>
        match payload with
        | [] => Panic (IndexOutOfRange 0 0)
        | m :: _ => Err (errors_New (Message m))
        end
    end.
Proof.
  unfold doError, messages.
  destruct (json.Unmarshal _ _ _) as [l [err|]]; [done|by destruct l].
Qed.

(** [doError] never hands back a nil error. *)
Lemma doError_not_nil (obj : object) : doError obj ≠ Ok tt.
Proof.
  rewrite doError_cases.
  destruct (messages _) as [[|m l] [err|]]; discriminate.
Qed.

(** C3.  For a completed exchange, an empty body under a status code of
    the 2xx range is a success with an empty cursor and no payload; for a
    body that is not empty the status code has no part in the result of
    [do], and once the body has decoded as an envelope the call succeeds
    exactly when the type of the envelope is not the text error, with the
    cursor and the payload of the envelope. *)
Theorem do_empty_body_or_envelope_type (c : client) (req : http.Request)
    (status : Z) (body : http.bytes) :
  answers c req status body →
  (http.len body = 0 → 200 ≤ status < 300 → do c req = Ok ("", None))
  ∧ (http.len body ≠ 0 →
       (∀ c' status', answers c' req status' body → do c' req = do c req)
       ∧ (∀ obj, envelope body = (obj, None) →
            (is_Ok (do c req) = true ↔ object_Type obj ≠ "error")
            ∧ (object_Type obj ≠ "error" →
                 do c req = Ok (Next obj, Payload obj)))).
Proof.
  intros Hc. rewrite (do_answers _ _ _ _ Hc). split.
  - intros Hlen Hst. rewrite decide_True; [done|lia].
  - intros Hlen. rewrite decide_False by tauto. split.
    + intros c' status' Hc'. rewrite (do_answers _ _ _ _ Hc').
      rewrite decide_False by tauto. done.
    + intros obj ->. case_decide as Hty.
      * split; [|done]. pose proof (doError_not_nil obj) as Hnil.
        destruct (doError obj) as [[]|e|p]; cbn; split; done.
      * split; [|done]. cbn. split; done.
Qed.

Lemma do_errorEnvelope (c : client) (req : http.Request) (status : Z)
    (body : http.bytes) (msg : string) :
  answers c req status body → errorEnvelope body msg →
  do c req = Err (errors_New msg).
Proof.
  intros Hc [Hlen (obj & m & rest & Henv & Hty & Hmsg & <-)].
  rewrite (do_answers _ _ _ _ Hc), decide_False by tauto.
  rewrite Henv, decide_True by done.
  by rewrite doError_cases, Hmsg.
Qed.

(** The payload of the service's error envelopes, a list of objects with
    one member [message] each, decodes to the list of the messages. *)
Lemma messages_of_objects (msgs : list string) :
  messages (Some (Array ((λ m, Object [("message", Str m)]) <$> msgs)))
  = ((λ m, {| Message := m |}) <$> msgs, None).
Proof.
  assert (array message_json message_zero
            ((λ m, Object [("message", Str m)]) <$> msgs)
          = Stored ((λ m, {| Message := m |}) <$> msgs) None) as Harray.
  { induction msgs as [|m msgs IH]; [done|].
    rewrite !fmap_cons. simpl array. rewrite IH. reflexivity. }
  unfold messages, json.Unmarshal, RawMessage_data, slice.
  by rewrite Harray.
Qed.

Lemma errorEnvelope_of_messages (msg : string) (more : list string) :
  errorEnvelope (sample.text (sample.errorEnvelope (msg :: more))) msg.
Proof.
  split; [done|].
  exists {| object_Type := "error"; Next := "";
            Payload := Some (Array ((λ m, Object [("message", Str m)])
                                      <$> msg :: more)) |},
         {| Message := msg |}, ((λ m, {| Message := m |}) <$> more).
  split; [reflexivity|]. split; [reflexivity|]. split; [|reflexivity].
  exact (messages_of_objects (msg :: more)).
Qed.

(** C4.  When the envelope of a response has the type error, [do] returns
    what [doError] makes of its payload: if the payload decodes as a list
    of messages with a first element, a fresh error whose text is exactly
    the message of that element; if the payload does not decode, the
    error of the decoder itself. *)
Theorem error_envelope_first_message (c : client) (req : http.Request)
    (status : Z) (body : http.bytes) (obj : object) :
  answers c req status body → http.len body ≠ 0 →
  envelope body = (obj, None) → object_Type obj = "error" →
  (∀ m rest, messages (Payload obj) = (m :: rest, None) →
     doError obj = Err (errors_New (Message m))
     ∧ do c req = Err (errors_New (Message m))
     ∧ Error (errors_New (Message m)) = Message m)
  ∧ (∀ l err, messages (Payload obj) = (l, Some err) →
       doError obj = Err err ∧ do c req = Err err).
Proof.
  intros Hc Hlen Henv Hty.
  rewrite (do_answers _ _ _ _ Hc), decide_False by tauto.
  rewrite Henv, decide_True by done. rewrite doError_cases.
  split.
  - intros m rest ->. by repeat split.
  - intros l err ->. by repeat split.
Qed.

(** C9.  An envelope of type error whose payload is the empty array
    decodes without error to an empty list, and [doError] then indexes
    its first element: the call panics, through [do] as well, and returns
    no error value. *)
Theorem doError_empty_array_panics (c : client) (req : http.Request)
    (status : Z) (body : http.bytes) (obj : object) :
  answers c req status body → http.len body ≠ 0 →
  envelope body = (obj, None) → object_Type obj = "error" →
  Payload obj = Some (Array []) →
  messages (Payload obj) = ([], None)
  ∧ doError obj = Panic (IndexOutOfRange 0 0)
  ∧ do c req = Panic (IndexOutOfRange 0 0)
  ∧ ∀ err, doError obj ≠ Err err.
Proof.
  intros Hc Hlen Henv Hty Hp.
  assert (messages (Payload obj) = ([], None)) as Hm by by rewrite Hp.
  assert (doError obj = Panic (IndexOutOfRange 0 0)) as Hd
    by by rewrite doError_cases, Hm.
  repeat split; [done..| |by rewrite Hd].
  rewrite (do_answers _ _ _ _ Hc), decide_False by tauto.
  by rewrite Henv, decide_True, Hd by done.
Qed.

(** ** The methods *)

Section method_facts.
Context {lib : Library}.

Lemma CreateAccount_sends (c : client) (u : string) :
  url_Parse (url c +:+ "/accounts/") = Ok u →
  Client.CreateAccount c =
    '(_, payload) ← do c (CreateAccount_request c u);
    accountFromPayload payload.
Proof.
  intros Hu. unfold Client.CreateAccount, http.NewRequest.
  by rewrite Hu.
Qed.

Lemma Account_sends (c : client) (id : Z) (u : string) :
  url_Parse (url c +:+ "/accounts/" +:+ Itoa id) = Ok u →
  Client.Account c id =
    '(_, payload) ← do c (Account_request c u);
    accountFromPayload payload.
Proof.
  intros Hu. unfold Client.Account, http.NewRequest.
  by rewrite Hu.
Qed.

Lemma CreateAddress_sends (c : client) (accountID : Z) (u : string) :
  url_Parse (url c +:+ "/accounts/" +:+ Itoa accountID +:+ "/addresses/")
  = Ok u →
  Client.CreateAddress c accountID =
    '(_, payload) ← do c (CreateAddress_request c u);
    match addresses payload with
    | (_, Some err) => Err err
    | (addrs, None) =>
        if decide (length addrs ≠ 1%nat)
        then Err (errors_New "expected one address")
        else a ← index addrs 0; Ok (Address a)
    end.
Proof.
  intros Hu. unfold Client.CreateAddress, http.NewRequest.
  by rewrite Hu.
Qed.

Lemma CreateTransactionIDs_sends (c : client) (n : Z) (u : string) :
  url_Parse (url c +:+ "/transactions/") = Ok u →
  Client.CreateTransactionIDs c n =
    '(_, payload) ← do c (CreateTransactionIDs_request c u n);
    _ ← make Transaction_size Transaction_zero 0 n;
    match transactions payload with
    | (_, Some err) => Err err
    | (txns, None) =>
        txIDs ← make int64_size 0 n n;
        Client.rangeTxns txns 0 txIDs
    end.
Proof.
  intros Hu. unfold Client.CreateTransactionIDs, http.NewRequest.
  rewrite Hu. cbn. destruct (do c _) as [[next payload]|e|p]; [|done..].
  cbn. unfold make. repeat case_decide; reflexivity.
Qed.

Lemma Transaction_sends (c : client) (id : Z) (u : string) :
  url_Parse (url c +:+ "/transactions/" +:+ Itoa id) = Ok u →
  Client.Transaction c id =
    '(_, payload) ← do c (Transaction_request c u);
    match transactions payload with
    | (_, Some err) => Err err
    | (txns, None) => index txns 0
    end.
Proof.
  intros Hu. unfold Client.Transaction, http.NewRequest.
  by rewrite Hu.
Qed.

Lemma Transfer_sends (c : client) (txID fromAccountID toAccountID value : Z)
    (u : string) :
  url_Parse (url c +:+ "/transactions/") = Ok u →
  Client.Transfer c txID fromAccountID toAccountID value =
    match
      do c (Transfer_request c u txID fromAccountID toAccountID value)
    with
    | Ok _ => Ok tt
    | Err err =>
        if decide (Error err = "insufficient funds")
        then Err ErrInsufficientFunds
        else Err err
    | Panic p => Panic p
    end.
Proof.
  intros Hu. unfold Client.Transfer, http.NewRequest.
  by rewrite Hu.
Qed.

Lemma Debit_sends (c : client) (txID fromAccountID : Z) (toAddress : string)
    (value : Z) (u : string) :
  url_Parse (url c +:+ "/transactions/") = Ok u →
  Client.Debit c txID fromAccountID toAddress value =
    match do c (Debit_request c u txID fromAccountID toAddress value) with
    | Ok _ => Ok tt
    | Err err => Err err
    | Panic p => Panic p
    end.
Proof.
  intros Hu. unfold Client.Debit, http.NewRequest.
  by rewrite Hu.
Qed.

Lemma CreateHook_sends (c : client) (url_ u : string) :
  url_Parse (url c +:+ "/hooks/") = Ok u →
  Client.CreateHook c url_ =
    match do c (CreateHook_request c u url_) with
    | Ok _ => Ok tt
    | Err err =>
        if decide (Error err = "hook exists")
        then Err ErrHookExists
        else Err err
    | Panic p => Panic p
    end.
Proof.
  intros Hu. unfold Client.CreateHook, http.NewRequest.
  by rewrite Hu.
Qed.

(** *** Transfer, Debit and CreateHook *)

(** C1.  Whatever the text [msg] of a well-formed error envelope, the text
    of a consumed transaction identifier included, Transfer returns the
    variable of the insufficient funds when [msg] is their text and a
    fresh error with the text [msg] otherwise, and Debit returns a fresh
    error with the text [msg]: neither returns the variable [ErrTxIDUsed],
    which differs from [ErrInsufficientFunds] and from every fresh
    error. *)
Theorem Transfer_Debit_never_ErrTxIDUsed (c : client)
    (txID fromAccountID toAccountID value : Z) (toAddress u : string)
    (status : Z) (body : http.bytes) (msg : string) :
  url_Parse (url c +:+ "/transactions/") = Ok u →
  errorEnvelope body msg →
  (answers c (Transfer_request c u txID fromAccountID toAccountID value)
     status body →
   Client.Transfer c txID fromAccountID toAccountID value
   = Err (if decide (msg = "insufficient funds")
          then ErrInsufficientFunds else errors_New msg)
   ∧ Client.Transfer c txID fromAccountID toAccountID value
     ≠ Err ErrTxIDUsed)
  ∧ (answers c (Debit_request c u txID fromAccountID toAddress value)
       status body →
     Client.Debit c txID fromAccountID toAddress value
     = Err (errors_New msg)
     ∧ Client.Debit c txID fromAccountID toAddress value
       ≠ Err ErrTxIDUsed)
  ∧ ErrTxIDUsed ≠ ErrInsufficientFunds
  ∧ ∀ s, ErrTxIDUsed ≠ errors_New s.
Proof.
  intros Hu Henv. split; [|split; [|done]].
  - intros Hc. rewrite (Transfer_sends _ _ _ _ _ _ Hu).
    rewrite (do_errorEnvelope _ _ _ _ _ Hc Henv). cbn.
    case_decide; by split.
  - intros Hc. rewrite (Debit_sends _ _ _ _ _ _ Hu).
    by rewrite (do_errorEnvelope _ _ _ _ _ Hc Henv).
Qed.

(** C2.  On a well-formed error envelope with the message of the
    insufficient funds Transfer returns the variable
    [ErrInsufficientFunds], and on one with the message of the existing
    hook CreateHook returns the variable [ErrHookExists]; Debit, which has
    no such mapping, returns a fresh error that carries the text of the
    insufficient funds and is not the variable. *)
Theorem InsufficientFunds_HookExists_distinguished (c : client)
    (txID fromAccountID toAccountID value : Z) (toAddress url_ u : string)
    (status : Z) (body : http.bytes) :
  (url_Parse (url c +:+ "/transactions/") = Ok u →
   errorEnvelope body "insufficient funds" →
   answers c (Transfer_request c u txID fromAccountID toAccountID value)
     status body →
   Client.Transfer c txID fromAccountID toAccountID value
   = Err ErrInsufficientFunds)
  ∧ (url_Parse (url c +:+ "/hooks/") = Ok u →
     errorEnvelope body "hook exists" →
     answers c (CreateHook_request c u url_) status body →
     Client.CreateHook c url_ = Err ErrHookExists)
  ∧ (url_Parse (url c +:+ "/transactions/") = Ok u →
     errorEnvelope body "insufficient funds" →
     answers c (Debit_request c u txID fromAccountID toAddress value)
       status body →
     Client.Debit c txID fromAccountID toAddress value
     = Err (errors_New "insufficient funds")
     ∧ Client.Debit c txID fromAccountID toAddress value
       ≠ Err ErrInsufficientFunds).
Proof.
  split; [|split].
  - intros Hu Henv Hc. rewrite (Transfer_sends _ _ _ _ _ _ Hu).
    by rewrite (do_errorEnvelope _ _ _ _ _ Hc Henv).
  - intros Hu Henv Hc. rewrite (CreateHook_sends _ _ _ Hu).
    by rewrite (do_errorEnvelope _ _ _ _ _ Hc Henv).
  - intros Hu Henv Hc. rewrite (Debit_sends _ _ _ _ _ _ Hu).
    by rewrite (do_errorEnvelope _ _ _ _ _ Hc Henv).
Qed.

(** *** Accounts and addresses *)

Lemma accountFromPayload_cases (payload : RawMessage) :
  accountFromPayload payload =
    match accounts payload with
    | (_, Some err) => Err err
    | (accs, None) =>
        match accs with
        | [a] => Ok a
        | _ => Err (errors_New "expected one account")
        end
    end.
Proof.
  unfold accountFromPayload, accountsFromPayload, accounts.
  destruct (json.Unmarshal _ _ _) as [accs [err|]]; [done|].
  by destruct accs as [|a [|b l]].
Qed.

(** C5.  When the exchange of CreateAccount, of Account or of
    CreateAddress has succeeded and the payload has decoded as a list, a
    list whose length is not one, empty or longer, makes the method return
    the error of the unexpected number of elements, and a list of exactly
    one element makes it return that element. *)
Theorem exactly_one_element_or_error (c : client) (id accountID : Z)
    (u next : string) (payload : RawMessage) :
  (url_Parse (url c +:+ "/accounts/") = Ok u →
   do c (CreateAccount_request c u) = Ok (next, payload) →
   ∀ accs, accounts payload = (accs, None) →
     (length accs ≠ 1%nat →
      Client.CreateAccount c = Err (errors_New "expected one account"))
     ∧ (∀ a, accs = [a] → Client.CreateAccount c = Ok a))
  ∧ (url_Parse (url c +:+ "/accounts/" +:+ Itoa id) = Ok u →
     do c (Account_request c u) = Ok (next, payload) →
     ∀ accs, accounts payload = (accs, None) →
       (length accs ≠ 1%nat →
        Client.Account c id = Err (errors_New "expected one account"))
       ∧ (∀ a, accs = [a] → Client.Account c id = Ok a))
  ∧ (url_Parse
       (url c +:+ "/accounts/" +:+ Itoa accountID +:+ "/addresses/")
     = Ok u →
     do c (CreateAddress_request c u) = Ok (next, payload) →
     ∀ addrs, addresses payload = (addrs, None) →
       (length addrs ≠ 1%nat →
        Client.CreateAddress c accountID
        = Err (errors_New "expected one address"))
       ∧ (∀ a, addrs = [a] →
          Client.CreateAddress c accountID = Ok (Address a))).
Proof.
  split; [|split].
  - intros Hu Hdo accs Haccs. rewrite (CreateAccount_sends _ _ Hu), Hdo.
    cbn. rewrite accountFromPayload_cases, Haccs. split.
    + intros Hlen. by destruct accs as [|a [|b l]].
    + by intros a ->.
  - intros Hu Hdo accs Haccs. rewrite (Account_sends _ _ _ Hu), Hdo.
    cbn. rewrite accountFromPayload_cases, Haccs. split.
    + intros Hlen. by destruct accs as [|a [|b l]].
    + by intros a ->.
  - intros Hu Hdo addrs Haddrs. rewrite (CreateAddress_sends _ _ _ Hu), Hdo.
    cbn. rewrite Haddrs. split.
    + intros Hlen. by rewrite decide_True.
    + by intros a ->.
Qed.

(** *** Transaction identifiers *)

(** The loop writes the identifiers over the slots from [i] on, as long
    as there are slots. *)
Lemma rangeTxns_fits (txns : list Transaction) (i : nat) (txIDs : list Z) :
  (i + length txns ≤ length txIDs)%nat →
  Client.rangeTxns txns i txIDs
  = Ok (take i txIDs ++ (ID <$> txns)
          ++ drop (i + length txns) txIDs)%list.
Proof.
  revert i txIDs. induction txns as [|tx rest IH]; intros i txIDs Hlen.
  - simpl. by rewrite Nat.add_0_r, take_drop.
  - simpl in *. unfold assign. rewrite decide_True by lia. cbn.
    rewrite IH by (rewrite length_insert; lia).
    rewrite drop_insert_lt by lia.
    rewrite (take_S_r _ _ (ID tx)) by (apply list_lookup_insert_eq; lia).
    rewrite take_insert_ge by lia.
    rewrite <- app_assoc. simpl.
    by replace (i + S (length rest))%nat with (S (i + length rest)) by lia.
Qed.

(** When the slots run out, the assignment panics at the first index past
    the end. *)
Lemma rangeTxns_overflow (txns : list Transaction) (i : nat)
    (txIDs : list Z) :
  (i ≤ length txIDs)%nat → (length txIDs < i + length txns)%nat →
  Client.rangeTxns txns i txIDs
  = Panic (IndexOutOfRange (length txIDs) (length txIDs)).
Proof.
  revert i txIDs. induction txns as [|tx rest IH]; intros i txIDs Hi Hlen.
  - simpl in Hlen. lia.
  - simpl in *. unfold assign. case_decide as Hlt; cbn.
    + rewrite IH; rewrite ?length_insert; [done|lia..].
    + by replace i with (length txIDs) by lia.
Qed.

Lemma make_fits {A} (size : Z) (zero : A) (n : Z) :
  0 ≤ n → size * n ≤ maxAlloc →
  make size zero n n = Ok (replicate (Z.to_nat n) zero).
Proof. intros Hn Hfit. unfold make. by rewrite decide_False by lia. Qed.

Lemma make_capacity_fits {A} (size : Z) (zero : A) (n : Z) :
  0 ≤ n → size * n ≤ maxAlloc → make size zero 0 n = Ok [].
Proof. intros Hn Hfit. unfold make. by rewrite decide_False by lia. Qed.

Lemma make_capacity_out_of_range {A} (size : Z) (zero : A) (n : Z) :
  n < 0 ∨ maxAlloc < size * n →
  make size zero 0 n = Panic MakesliceCapOutOfRange.
Proof.
  intros Hn. unfold make, maxAlloc in *.
  rewrite decide_True by lia. by rewrite decide_False by lia.
Qed.

Lemma CreateTransactionIDs_result (c : client) (n : Z) (u next : string)
    (payload : RawMessage) (txns : list Transaction) :
  0 ≤ n → Transaction_size * n ≤ maxAlloc →
  url_Parse (url c +:+ "/transactions/") = Ok u →
  do c (CreateTransactionIDs_request c u n) = Ok (next, payload) →
  transactions payload = (txns, None) →
  Client.CreateTransactionIDs c n =
    if decide (length txns ≤ Z.to_nat n)%nat
    then Ok ((ID <$> txns) ++ replicate (Z.to_nat n - length txns) 0)%list
    else Panic (IndexOutOfRange (Z.to_nat n) (Z.to_nat n)).
Proof.
  intros Hn Hfit Hu Hdo Htx.
  rewrite (CreateTransactionIDs_sends _ _ _ Hu), Hdo. cbn.
  rewrite make_capacity_fits by done. cbn. rewrite Htx.
  rewrite make_fits by (unfold Transaction_size, int64_size in *; lia). cbn.
  case_decide as Hlen.
  - rewrite rangeTxns_fits by (rewrite length_replicate; lia).
    by rewrite take_0, drop_replicate.
  - rewrite rangeTxns_overflow; rewrite ?length_replicate; [done|lia..].
Qed.

(** C6.  For every [n] from one on that the allocator grants, once the
    exchange has succeeded and the payload has decoded as a list of
    transactions: a payload of exactly [n] transactions makes
    CreateTransactionIDs return exactly their identifiers, in the order
    of the payload, as the specification has it; but the number of
    transactions is never compared with [n], and a payload of fewer makes
    the method succeed all the same, with [n] entries of which those past
    the end of the payload are zeros, identifiers of no transaction of
    the payload, so that the list returned is not the one of the
    specification. *)
Theorem CreateTransactionIDs_does_not_check_length (c : client) (n : Z)
    (u next : string) (payload : RawMessage) (txns : list Transaction) :
  1 ≤ n → Transaction_size * n ≤ maxAlloc →
  url_Parse (url c +:+ "/transactions/") = Ok u →
  do c (CreateTransactionIDs_request c u n) = Ok (next, payload) →
  transactions payload = (txns, None) →
  (length txns = Z.to_nat n →
   Client.CreateTransactionIDs c n = Ok (ID <$> txns)
   ∧ idsInServerOrder n txns (ID <$> txns))
  ∧ ((length txns < Z.to_nat n)%nat →
     ∃ ids, Client.CreateTransactionIDs c n = Ok ids
            ∧ length ids = Z.to_nat n
            ∧ (∀ (i : nat) tx, txns !! i = Some tx →
                 ids !! i = Some (ID tx))
            ∧ (∀ i : nat, (length txns ≤ i < Z.to_nat n)%nat →
                 ids !! i = Some 0 ∧ txns !! i = None)
            ∧ ¬ idsInServerOrder n txns ids).
Proof.
  intros Hn Hfit Hu Hdo Htx. assert (0 ≤ n) as Hn0 by lia.
  rewrite (CreateTransactionIDs_result _ _ _ _ _ _ Hn0 Hfit Hu Hdo Htx).
  split.
  - intros Hlen. rewrite decide_True by lia.
    replace (Z.to_nat n - length txns)%nat with 0%nat by lia.
    rewrite app_nil_r. split; [done|]. split.
    + rewrite length_fmap. lia.
    + intros i Hi. destruct (lookup_lt_is_Some_2 txns i) as [tx Htxi];
        [lia|].
      exists tx. by rewrite list_lookup_fmap, Htxi.
  - intros Hlen. rewrite decide_True by lia. eexists. split; [done|].
    assert (∀ i : nat, (length txns ≤ i < Z.to_nat n)%nat →
              (((ID <$> txns)
                ++ replicate (Z.to_nat n - length txns) 0)%list
                 : list Z) !! i = Some 0 ∧ txns !! i = None) as Hpast.
    { intros i Hi. split; [|apply lookup_ge_None_2; lia].
      rewrite lookup_app_r by (rewrite length_fmap; lia).
      rewrite length_fmap. apply lookup_replicate_2. lia. }
    repeat split.
    + rewrite length_app, length_fmap, length_replicate. lia.
    + intros i tx Hi. rewrite lookup_app_l.
      * by rewrite list_lookup_fmap, Hi.
      * rewrite length_fmap. by eapply lookup_lt_Some.
    + by apply Hpast.
    + by apply Hpast.
    + intros [_ Hids]. destruct (Hids (length txns)) as (tx & Htxi & _);
        [lia|].
      apply lookup_lt_Some in Htxi. lia.
Qed.

(** *** A single transaction *)

(** C10.  Transaction returns the first element of the decoded payload
    whatever the number of elements, and with no element at all it
    indexes an empty list and panics, where Account, on the same payload,
    returns the error of the unexpected number of elements. *)
Theorem Transaction_indexes_without_check (c : client) (id : Z)
    (u u' next : string) (payload : RawMessage) :
  url_Parse (url c +:+ "/transactions/" +:+ Itoa id) = Ok u →
  do c (Transaction_request c u) = Ok (next, payload) →
  (∀ tx rest, transactions payload = (tx :: rest, None) →
     Client.Transaction c id = Ok tx)
  ∧ (payload = Some (Array []) →
     Client.Transaction c id = Panic (IndexOutOfRange 0 0)
     ∧ (url_Parse (url c +:+ "/accounts/" +:+ Itoa id) = Ok u' →
        do c (Account_request c u') = Ok (next, payload) →
        Client.Account c id = Err (errors_New "expected one account"))).
Proof.
  intros Hu Hdo. rewrite (Transaction_sends _ _ _ Hu), Hdo. cbn. split.
  - by intros tx rest ->.
  - intros ->. split; [done|]. intros Hu' Hdo'.
    by rewrite (Account_sends _ _ _ Hu'), Hdo'.
Qed.

(** ** The web hook *)

Lemma events_Array (elems : list value) :
  events (Some (Array elems)) =
    match array TransactionEvent_json TransactionEvent_zero elems with
    | Stored l saved => (l, saved)
    | Aborted l err => (l, Some err)
    end.
Proof. reflexivity. Qed.

(** C7, as the code has it.  A request whose Content-Type is not the
    very text [application/json] gets the error of the content type and
    its body is neither read nor closed; a request whose Content-Type is
    that text has its body read, then closed, and decoded: a body that
    cannot be read or scanned gives the error of the decoder as it is, so
    does a body that the decoder rejects, and from a body that holds an
    envelope the result is the one of its type and of its payload, the
    events of the payload under the type transactions and the error that
    names the type under any other. *)
Theorem Unmarshal_content_type_before_body (r : http.Request) :
  (http.Header_Get (http.Header r) "Content-Type" ≠ "application/json" →
   Unmarshal r
   = ([], Return ([], Some (errors_New "incorrect content type"))))
  ∧ (http.Header_Get (http.Header r) "Content-Type" = "application/json" →
     ∀ body, http.Body r = Some body →
       (Unmarshal r).1 = [Read; Close]
       ∧ (∀ obj err, Decode object_json body object_zero = (obj, Some err) →
            (Unmarshal r).2 = Return ([], Some err))
       ∧ (∀ e, body = Broken e → (Unmarshal r).2 = Return ([], Some e))
       ∧ (∀ v, body = Holds v → v ≠ Null → (∀ m, v ≠ Object m) →
            (Unmarshal r).2
            = Return ([], Some (UnmarshalTypeError (kind v) "client.object")))
       ∧ (∀ ty p, body = Holds (Object [("type", Str ty); ("payload", p)]) →
            (Unmarshal r).2
            = if decide (ty = "transactions")
              then Return (events (Some p))
              else Return ([], Some (fmt_Errorf
                                       ("unknown object type " +:+ ty))))).
Proof.
  unfold Unmarshal. split.
  - intros Hct. by rewrite decide_True.
  - intros Hct body ->. rewrite decide_False by (by intros []).
    repeat match goal with |- _ ∧ _ => split end.
    + destruct (Decode _ _ _) as [obj [err|]]; [done|by case_decide].
    + destruct (Decode _ _ _) as [obj [err|]] eqn:Hd.
      * by intros obj' err' [= _ ->].
      * done.
    + by intros e ->.
    + intros v -> Hnull Hobj.
      destruct v as [|b|lit|s|l|m];
        [by destruct Hnull|done..|by destruct (Hobj m)].
    + intros ty p ->.
      match goal with
      | |- context [Decode ?dec ?d ?z] =>
          let res := eval vm_compute in (Decode dec d z) in
          change (Decode dec d z) with res
      end.
      cbv beta iota. cbn [object_Type Payload].
      by case_decide.
Qed.

(** C8.  Once the body of a request of the JSON media type has decoded as
    an envelope: under the type transactions [Unmarshal] returns what the
    decoder makes of the payload as a list of events, and for a payload
    that is an array the events are the elements of the array decoded one
    for one in the order of the payload, all of them when no error comes
    back; under any other type it returns an error whose text is
    [unknown object type] followed by that type. *)
Theorem Unmarshal_transactions_or_unknown_type (r : http.Request)
    (body : stream) (obj : object) :
  http.Header_Get (http.Header r) "Content-Type" = "application/json" →
  http.Body r = Some body →
  Decode object_json body object_zero = (obj, None) →
  (object_Type obj = "transactions" →
   (Unmarshal r).2 = Return (events (Payload obj))
   ∧ ∀ elems, Payload obj = Some (Array elems) →
       (∀ (i : nat) ev, (events (Payload obj)).1 !! i = Some ev →
          ∃ v, elems !! i = Some v
               ∧ ev = element TransactionEvent_json TransactionEvent_zero v)
       ∧ ((events (Payload obj)).2 = None →
          (events (Payload obj)).1
          = element TransactionEvent_json TransactionEvent_zero <$> elems))
  ∧ (object_Type obj ≠ "transactions" →
     ∃ err, (Unmarshal r).2 = Return ([], Some err)
            ∧ Error err = "unknown object type " +:+ object_Type obj).
Proof.
  intros Hct Hbody Hd. unfold Unmarshal.
  rewrite decide_False by (by intros []). rewrite Hbody, Hd. split.
  - intros Hty. rewrite decide_True by done. split; [done|].
    intros elems ->. rewrite events_Array.
    destruct (array _ _ elems) as [l saved|l err] eqn:Ha; simpl.
    + split.
      * apply (array_lookup _ _ elems l). eauto.
      * intros _. by eapply array_Stored.
    + split; [|done]. apply (array_lookup _ _ elems l). eauto.
  - intros Hty. rewrite decide_False by done. by eexists.
Qed.

End method_facts.

(* ===================================================================== *)
(** * The properties at work on sample exchanges *)
(* ===================================================================== *)

(** A body of the samples is an error envelope: by evaluation. *)
Ltac error_envelope :=
  split; [by vm_compute|];
  eexists _, _, _; repeat split; vm_compute; reflexivity.

(** A service that rejects a transfer and a debit with the message of the
    used identifier: both methods return a fresh error with that text. *)
Lemma Transfer_Debit_never_ErrTxIDUsed_witness :
  Client.Transfer (lib := sample.library)
    (sample.service 400 sample.usedBody) 1 2 3 5
  = Err (errors_New "TxID used")
  ∧ Client.Debit (lib := sample.library)
      (sample.service 400 sample.usedBody) 1 2 "12aXxEWgTYZg" 5
    = Err (errors_New "TxID used").
Proof.
  assert (errorEnvelope sample.usedBody "TxID used") as Henv
    by error_envelope.
  destruct (Transfer_Debit_never_ErrTxIDUsed (lib := sample.library)
              (sample.service 400 sample.usedBody) 1 2 3 5 "12aXxEWgTYZg"
              sample.transactionsURL 400 sample.usedBody "TxID used"
              eq_refl Henv) as (HT & HD & _).
  split.
  - exact (proj1 (HT eq_refl)).
  - exact (proj1 (HD eq_refl)).
Defined.

(** A service out of funds, and one that knows the hook already. *)
Lemma InsufficientFunds_HookExists_distinguished_witness :
  Client.Transfer (lib := sample.library)
    (sample.service 400 sample.fundsBody) 1 2 3 5
  = Err ErrInsufficientFunds
  ∧ Client.CreateHook (lib := sample.library)
      (sample.service 400 sample.hookBody) "https://example.com/hook"
    = Err ErrHookExists
  ∧ Client.Debit (lib := sample.library)
      (sample.service 400 sample.fundsBody) 1 2 "12aXxEWgTYZg" 5
    = Err (errors_New "insufficient funds").
Proof.
  assert (errorEnvelope sample.fundsBody "insufficient funds") as Hfunds
    by error_envelope.
  assert (errorEnvelope sample.hookBody "hook exists") as Hhook
    by error_envelope.
  split; [|split].
  - exact (proj1 (InsufficientFunds_HookExists_distinguished
                    (lib := sample.library)
                    (sample.service 400 sample.fundsBody) 1 2 3 5
                    "12aXxEWgTYZg" "https://example.com/hook"
                    sample.transactionsURL 400 sample.fundsBody)
             eq_refl Hfunds eq_refl).
  - exact (proj1 (proj2 (InsufficientFunds_HookExists_distinguished
                    (lib := sample.library)
                    (sample.service 400 sample.hookBody) 1 2 3 5
                    "12aXxEWgTYZg" "https://example.com/hook"
                    (MainNetURL +:+ "/hooks/") 400 sample.hookBody))
             eq_refl Hhook eq_refl).
  - exact (proj1 (proj2 (proj2 (InsufficientFunds_HookExists_distinguished
                    (lib := sample.library)
                    (sample.service 400 sample.fundsBody) 1 2 3 5
                    "12aXxEWgTYZg" "https://example.com/hook"
                    sample.transactionsURL 400 sample.fundsBody))
             eq_refl Hfunds eq_refl)).
Defined.

(** An empty body under status 204, and an envelope of accounts under
    status 500. *)
Lemma do_empty_body_or_envelope_type_witness :
  do (sample.service 204 sample.empty)
    (CreateAccount_request (sample.service 204 sample.empty) MainNetURL)
  = Ok ("", None)
  ∧ do (sample.service 500 (sample.accountsBody []))
      (CreateAccount_request (sample.service 500 (sample.accountsBody []))
         MainNetURL)
    = Ok ("cursor", Some (Array [])).
Proof.
  split.
  - apply (proj1 (do_empty_body_or_envelope_type
                    (sample.service 204 sample.empty) _ 204 sample.empty
                    eq_refl)); [reflexivity|lia].
  - destruct (do_empty_body_or_envelope_type
                (sample.service 500 (sample.accountsBody []))
                (CreateAccount_request
                   (sample.service 500 (sample.accountsBody [])) MainNetURL)
                500 (sample.accountsBody []) eq_refl) as [_ Hfull].
    destruct Hfull as [_ Henv]; [by vm_compute|].
    edestruct Henv as [_ Hok]; [vm_compute; reflexivity|].
    apply Hok. by vm_compute.
Defined.

(** An error envelope with two messages, and one whose payload is a string
    instead of a list. *)
Lemma error_envelope_first_message_witness :
  do (sample.service 402 sample.fundsBody)
    (CreateAccount_request (sample.service 402 sample.fundsBody) MainNetURL)
  = Err (errors_New "insufficient funds")
  ∧ do (sample.service 200 sample.badPayloadBody)
      (CreateAccount_request (sample.service 200 sample.badPayloadBody)
         MainNetURL)
    = Err (UnmarshalTypeError "string" "[]struct { Message string }").
Proof.
  split.
  - edestruct (error_envelope_first_message
                 (sample.service 402 sample.fundsBody)
                 (CreateAccount_request
                    (sample.service 402 sample.fundsBody) MainNetURL)
                 402 sample.fundsBody) as [Hfirst _];
      [reflexivity|by vm_compute|vm_compute; reflexivity|reflexivity|].
    edestruct Hfirst as (_ & Hdo & _); [vm_compute; reflexivity|].
    exact Hdo.
  - edestruct (error_envelope_first_message
                 (sample.service 200 sample.badPayloadBody)
                 (CreateAccount_request
                    (sample.service 200 sample.badPayloadBody) MainNetURL)
                 200 sample.badPayloadBody) as [_ Hfail];
      [reflexivity|by vm_compute|vm_compute; reflexivity|reflexivity|].
    edestruct Hfail as [_ Hdo]; [vm_compute; reflexivity|].
    exact Hdo.
Defined.

(** An error envelope without any message. *)
Lemma doError_empty_array_panics_witness :
  do (sample.service 400 sample.noMessageBody)
    (CreateAccount_request (sample.service 400 sample.noMessageBody)
       MainNetURL)
  = Panic (IndexOutOfRange 0 0).
Proof.
  edestruct (doError_empty_array_panics
               (sample.service 400 sample.noMessageBody)
               (CreateAccount_request
                  (sample.service 400 sample.noMessageBody) MainNetURL)
               400 sample.noMessageBody) as (_ & _ & Hdo & _);
    [reflexivity|by vm_compute|vm_compute; reflexivity|reflexivity
    |reflexivity|].
  exact Hdo.
Defined.

(** One account, two accounts, and no address. *)
Lemma exactly_one_element_or_error_witness :
  Client.CreateAccount (lib := sample.library)
    (sample.service 200 (sample.accountsBody [sample.account "7" "0"]))
  = Ok {| Account_ID := 7; Account_Balance := 0 |}
  ∧ Client.Account (lib := sample.library)
      (sample.service 200
         (sample.accountsBody
            [sample.account "7" "0"; sample.account "8" "5"])) 7
    = Err (errors_New "expected one account")
  ∧ Client.CreateAddress (lib := sample.library)
      (sample.service 200 (sample.addressesBody [])) 7
    = Err (errors_New "expected one address").
Proof.
  split; [|split].
  - edestruct (exactly_one_element_or_error (lib := sample.library)
                 (sample.service 200
                    (sample.accountsBody [sample.account "7" "0"])) 7 7)
      as [Hcreate _].
    edestruct Hcreate as [_ Hone];
      [reflexivity|vm_compute; reflexivity|vm_compute; reflexivity|].
    apply Hone. reflexivity.
  - edestruct (exactly_one_element_or_error (lib := sample.library)
                 (sample.service 200
                    (sample.accountsBody
                       [sample.account "7" "0"; sample.account "8" "5"]))
                 7 7)
      as (_ & Hget & _).
    edestruct Hget as [Hmany _];
      [reflexivity|vm_compute; reflexivity|vm_compute; reflexivity|].
    apply Hmany. by vm_compute.
  - edestruct (exactly_one_element_or_error (lib := sample.library)
                 (sample.service 200 (sample.addressesBody [])) 7 7)
      as (_ & _ & Haddr).
    edestruct Haddr as [Hnone _];
      [reflexivity|vm_compute; reflexivity|vm_compute; reflexivity|].
    apply Hnone. by vm_compute.
Defined.

(** Two identifiers asked for and one transaction in the payload: the
    method succeeds with the identifier of that transaction followed by a
    zero. *)
Lemma CreateTransactionIDs_does_not_check_length_witness :
  Client.CreateTransactionIDs (lib := sample.library)
    (sample.service 200 (sample.stubsBody ["7"])) 2
  = Ok [7; 0]
  ∧ ¬ idsInServerOrder 2 [with_ID 7 Transaction_zero] [7; 0].
Proof.
  destruct (CreateTransactionIDs_does_not_check_length
              (lib := sample.library)
              (sample.service 200 (sample.stubsBody ["7"])) 2
              sample.transactionsURL ""
              (Some (Array [sample.stub "7"]))
              [with_ID 7 Transaction_zero])
    as [_ Hshort];
    [lia|vm_compute; discriminate|reflexivity|vm_compute; reflexivity
    |vm_compute; reflexivity|].
  destruct Hshort as (ids & Hids & _ & _ & _ & Hnot); [simpl; lia|].
  assert (Client.CreateTransactionIDs (lib := sample.library)
            (sample.service 200 (sample.stubsBody ["7"])) 2
          = Ok [7; 0]) as Hrun by (vm_compute; reflexivity).
  split; [exact Hrun|].
  rewrite Hrun in Hids. injection Hids as <-. exact Hnot.
Defined.

(** No transaction in the payload, for Transaction and for Account, and
    two transactions. *)
Lemma Transaction_indexes_without_check_witness :
  Client.Transaction (lib := sample.library)
    (sample.service 200 (sample.stubsBody [])) 7
  = Panic (IndexOutOfRange 0 0)
  ∧ Client.Account (lib := sample.library)
      (sample.service 200 (sample.stubsBody [])) 7
    = Err (errors_New "expected one account")
  ∧ Client.Transaction (lib := sample.library)
      (sample.service 200 (sample.stubsBody ["7"; "8"])) 7
    = Ok (with_ID 7 Transaction_zero).
Proof.
  split; [|split].
  - edestruct (Transaction_indexes_without_check (lib := sample.library)
                 (sample.service 200 (sample.stubsBody [])) 7
                 (MainNetURL +:+ "/transactions/7")
                 (MainNetURL +:+ "/accounts/7") "" (Some (Array [])))
      as [_ Hempty]; [reflexivity|vm_compute; reflexivity|].
    exact (proj1 (Hempty eq_refl)).
  - edestruct (Transaction_indexes_without_check (lib := sample.library)
                 (sample.service 200 (sample.stubsBody [])) 7
                 (MainNetURL +:+ "/transactions/7")
                 (MainNetURL +:+ "/accounts/7") "" (Some (Array [])))
      as [_ Hempty]; [reflexivity|vm_compute; reflexivity|].
    apply (proj2 (Hempty eq_refl)); [reflexivity|vm_compute; reflexivity].
  - edestruct (Transaction_indexes_without_check (lib := sample.library)
                 (sample.service 200 (sample.stubsBody ["7"; "8"])) 7
                 (MainNetURL +:+ "/transactions/7")
                 (MainNetURL +:+ "/accounts/7") ""
                 (Some (Array [sample.stub "7"; sample.stub "8"])))
      as [Hfirst _]; [reflexivity|vm_compute; reflexivity|].
    eapply Hfirst. vm_compute. reflexivity.
Defined.

(** A request of plain text, a request of the JSON media type without
    body bytes, and one with an envelope of accounts. *)
Lemma Unmarshal_content_type_before_body_witness :
  Unmarshal (lib := sample.library)
    (sample.hookRequest "text/plain"
       (Holds (sample.envelopeOf "transactions" (Array []))))
  = ([], Return ([], Some (errors_New "incorrect content type")))
  ∧ Unmarshal (lib := sample.library)
      (sample.hookRequest "application/json" (Broken io_EOF))
    = ([Read; Close], Return ([], Some io_EOF))
  ∧ Unmarshal (lib := sample.library)
      (sample.hookRequest "application/json"
         (Holds (sample.envelopeOf "accounts" (Array []))))
    = ([Read; Close],
       Return ([], Some (errors_New "unknown object type accounts"))).
Proof.
  split; [|split].
  - apply (proj1 (Unmarshal_content_type_before_body (lib := sample.library)
                    (sample.hookRequest "text/plain"
                       (Holds (sample.envelopeOf "transactions"
                                 (Array []))))));
      by vm_compute.
  - edestruct (proj2 (Unmarshal_content_type_before_body
                        (lib := sample.library)
                        (sample.hookRequest "application/json"
                           (Broken io_EOF))))
      as (Htrace & _ & Herr & _); [by vm_compute|reflexivity|].
    specialize (Herr io_EOF eq_refl).
    destruct (Unmarshal _) as [trace res]. simpl in *.
    by rewrite Htrace, Herr.
  - edestruct (proj2 (Unmarshal_content_type_before_body
                        (lib := sample.library)
                        (sample.hookRequest "application/json"
                           (Holds (sample.envelopeOf "accounts"
                                     (Array []))))))
      as (Htrace & _ & _ & _ & Henv); [by vm_compute|reflexivity|].
    specialize (Henv "accounts" (Array []) eq_refl).
    destruct (Unmarshal _) as [trace res]. simpl in *.
    by rewrite Htrace, Henv.
Defined.

(** C7, as the claim has it, fails on a Content-Type with a parameter:
    the request declares the JSON media type in the character set UTF-8
    and carries an envelope of transactions, and [Unmarshal] returns the
    error of the content type without reading its body. *)
Lemma Unmarshal_rejects_json_with_charset :
  declaresJSONMediaType
    (sample.hookRequest "application/json; charset=utf-8"
       (Holds (sample.envelopeOf "transactions" (Array []))))
  ∧ Unmarshal (lib := sample.library)
      (sample.hookRequest "application/json; charset=utf-8"
         (Holds (sample.envelopeOf "transactions" (Array []))))
    = ([], Return ([], Some (errors_New "incorrect content type")))
  ∧ declaresJSONMediaType
      (sample.hookRequest "Application/JSON"
         (Holds (sample.envelopeOf "transactions" (Array []))))
  ∧ Unmarshal (lib := sample.library)
      (sample.hookRequest "Application/JSON"
         (Holds (sample.envelopeOf "transactions" (Array []))))
    = ([], Return ([], Some (errors_New "incorrect content type"))).
Proof. repeat split; vm_compute; reflexivity. Qed.

(** Two events, the second one pending, and an envelope of accounts. *)
Lemma Unmarshal_transactions_or_unknown_type_witness :
  (Unmarshal (lib := sample.library)
     (sample.hookRequest "application/json"
        (Holds (sample.envelopeOf "transactions"
                  (Array [sample.event "7" ""; sample.event "8" "pending"])))
     )).2
  = Return ([sample.eventOf 7 ""; sample.eventOf 8 "pending"], None)
  ∧ ∃ err,
      (Unmarshal (lib := sample.library)
         (sample.hookRequest "application/json"
            (Holds (sample.envelopeOf "accounts" (Array []))))).2
      = Return ([], Some err)
      ∧ Error err = "unknown object type accounts".
Proof.
  split.
  - edestruct (Unmarshal_transactions_or_unknown_type (lib := sample.library)
                 (sample.hookRequest "application/json"
                    (Holds (sample.envelopeOf "transactions"
                              (Array [sample.event "7" "";
                                      sample.event "8" "pending"])))))
      as [Htx _]; [by vm_compute|reflexivity|vm_compute; reflexivity|].
    exact (proj1 (Htx eq_refl)).
  - edestruct (Unmarshal_transactions_or_unknown_type (lib := sample.library)
                 (sample.hookRequest "application/json"
                    (Holds (sample.envelopeOf "accounts" (Array [])))))
      as [_ Hother]; [by vm_compute|reflexivity|vm_compute; reflexivity|].
    apply Hother. by vm_compute.
Defined.

(* ===================================================================== *)
(** * Further properties of the package *)
(* ===================================================================== *)

(** ** The envelope decoder at its edges *)

(** A value that is neither [null] nor an object is a type error for the
    envelope. *)
Lemma envelope_not_object (body : http.bytes) (v : value) :
  http.scan body = Valid v → v ≠ Null → (∀ m, v ≠ Object m) →
  ∃ obj err, envelope body = (obj, Some err).
Proof.
  intros Hscan Hnull Hobj. unfold envelope. rewrite Hscan.
  destruct v as [|b|lit|s|l|m];
    [by destruct Hnull|by eexists _, _..|by destruct (Hobj m)].
Qed.

(** X1.  A body that the scanner rejects, or that is the text of a JSON
    value other than an object and [null], makes [do] return an error
    whose text is the URL of the request, a colon and a blank, and the
    body as it was read; the status code plays no part, except that an
    empty body under a 2xx code never gets that far. *)
Theorem do_protocol_error_names_url_and_body (c : client)
    (req : http.Request) (status : Z) (body : http.bytes) :
  answers c req status body →
  http.len body ≠ 0 ∨ ¬ (200 ≤ status < 300) →
  (∃ msg, http.scan body = Malformed msg)
  ∨ (∃ v, http.scan body = Valid v ∧ v ≠ Null ∧ ∀ m, v ≠ Object m) →
  ∃ err, do c req = Err err
         ∧ Error err = http.URL req +:+ ": " +:+ http.raw body
         ∧ err ≠ ErrInsufficientFunds ∧ err ≠ ErrHookExists.
Proof.
  intros Hc Hgate Hbody. rewrite (do_answers _ _ _ _ Hc).
  rewrite decide_False by lia.
  assert (∃ obj err, envelope body = (obj, Some err)) as (obj & err & ->).
  { destruct Hbody as [[msg Hm]|(v & Hv & Hnull & Hobj)].
    - unfold envelope. rewrite Hm. by eexists _, _.
    - by eapply envelope_not_object. }
  by eexists.
Qed.

(** An empty body under status 404, and the text of an array under
    status 200. *)
Lemma do_protocol_error_names_url_and_body_witness :
  do (sample.service 404 sample.empty)
    (CreateAccount_request (sample.service 404 sample.empty) "/accounts/")
  = Err (errors_New "/accounts/: ")
  ∧ do (sample.service 200 (sample.text (Array [])))
      (CreateAccount_request (sample.service 200 (sample.text (Array [])))
         "/accounts/")
    = Err (errors_New "/accounts/: []").
Proof.
  split.
  - destruct (do_protocol_error_names_url_and_body
                (sample.service 404 sample.empty)
                (CreateAccount_request (sample.service 404 sample.empty)
                   "/accounts/")
                404 sample.empty eq_refl) as (err & Hdo & _);
      [right; lia|left; by eexists|].
    rewrite Hdo. vm_compute in Hdo. by injection Hdo as <-.
  - destruct (do_protocol_error_names_url_and_body
                (sample.service 200 (sample.text (Array [])))
                (CreateAccount_request
                   (sample.service 200 (sample.text (Array [])))
                   "/accounts/")
                200 (sample.text (Array [])) eq_refl) as (err & Hdo & _);
      [left; by vm_compute|right; by eexists (Array [])|].
    rewrite Hdo. vm_compute in Hdo. by injection Hdo as <-.
Defined.

(** X2.  From an object that is not an error, [do] hands on the member
    [next] as the cursor and the member [payload] as it stands, [null]
    included; a missing [next] is the empty cursor, a missing [payload]
    the nil payload; and the body [null] counts as an object without
    members. *)
Theorem do_hands_on_cursor_and_payload (c : client) (req : http.Request)
    (status : Z) (body : http.bytes) (type next : string) (p : value) :
  answers c req status body → http.len body ≠ 0 → type ≠ "error" →
  (http.scan body
   = Valid (Object [("type", Str type); ("next", Str next); ("payload", p)])
   → do c req = Ok (next, Some p))
  ∧ (http.scan body = Valid (Object [("type", Str type); ("payload", p)]) →
     do c req = Ok ("", Some p))
  ∧ (http.scan body = Valid (Object [("type", Str type)]) →
     do c req = Ok ("", None))
  ∧ (http.scan body = Valid Null → do c req = Ok ("", None)).
Proof.
  intros Hc Hlen Hty. rewrite (do_answers _ _ _ _ Hc).
  rewrite decide_False by tauto. unfold envelope.
  repeat split; intros ->;
    match goal with
    | |- context [json.Unmarshal ?dec ?d ?z] =>
        let r := eval vm_compute in (json.Unmarshal dec d z) in
        change (json.Unmarshal dec d z) with r
    end; cbv beta iota; cbn [object_Type Next Payload];
    by rewrite ?decide_False.
Qed.

(** An envelope of accounts with a cursor under status 201. *)
Lemma do_hands_on_cursor_and_payload_witness :
  do (sample.service 201 (sample.accountsBody [sample.account "7" "0"]))
    (Account_request
       (sample.service 201 (sample.accountsBody [sample.account "7" "0"]))
       "/accounts/7")
  = Ok ("cursor", Some (Array [sample.account "7" "0"])).
Proof.
  apply (proj1 (do_hands_on_cursor_and_payload
                  (sample.service 201
                     (sample.accountsBody [sample.account "7" "0"]))
                  _ 201 _ "accounts" "cursor"
                  (Array [sample.account "7" "0"])
                  eq_refl ltac:(by vm_compute) ltac:(done))).
  reflexivity.
Defined.

(** X3.  An error envelope whose payload is [null] decodes to a nil list
    and [doError] panics on its first element; one without the member
    [payload] returns the syntax error of the empty text; one whose
    payload is neither a list nor [null] returns the type error of the
    decoder. *)
Theorem doError_null_missing_or_wrong_payload (obj : object) :
  (Payload obj = Some Null → doError obj = Panic (IndexOutOfRange 0 0))
  ∧ (Payload obj = None →
     doError obj = Err (SyntaxError "unexpected end of JSON input"))
  ∧ (∀ v, Payload obj = Some v → v ≠ Null → (∀ l, v ≠ Array l) →
       doError obj
       = Err (UnmarshalTypeError (kind v) "[]struct { Message string }")).
Proof.
  rewrite doError_cases. unfold messages. repeat split.
  - by intros ->.
  - by intros ->.
  - intros v -> Hnull Harr. destruct v as [|b|lit|s|l|m]; try done.
    by destruct (Harr l).
Qed.

Lemma doError_null_missing_or_wrong_payload_witness :
  doError {| object_Type := "error"; Next := ""; Payload := Some Null |}
  = Panic (IndexOutOfRange 0 0)
  ∧ doError {| object_Type := "error"; Next := "";
               Payload := Some (Str "insufficient funds") |}
    = Err (UnmarshalTypeError "string" "[]struct { Message string }").
Proof.
  split.
  - exact (proj1 (doError_null_missing_or_wrong_payload
                    {| object_Type := "error"; Next := "";
                       Payload := Some Null |}) eq_refl).
  - apply (proj2 (proj2 (doError_null_missing_or_wrong_payload
                    {| object_Type := "error"; Next := "";
                       Payload := Some (Str "insufficient funds") |}))
             (Str "insufficient funds") eq_refl); done.
Defined.

(** ** The remaining methods, and all of them at the edges *)

Section more_method_facts.
Context {lib : Library}.

Lemma Fees_sends (c : client) (u : string) :
  url_Parse (url c +:+ "/fees/") = Ok u →
  Client.Fees c =
    match do c (Fees_request c u) with
    | Ok (_, payload) => Return (fees payload)
    | Err err => Return ([], Some err)
    | Panic p => Panics p
    end.
Proof.
  intros Hu. unfold Client.Fees, http.NewRequest. rewrite Hu. cbn.
  by destruct (do c _) as [[next payload]|e|p].
Qed.

Lemma Hooks_sends (c : client) (u : string) :
  url_Parse (url c +:+ "/hooks/") = Ok u →
  Client.Hooks c =
    match do c (Hooks_request c u) with
    | Ok (_, payload) => Return (hooks payload)
    | Err err => Return ([], Some err)
    | Panic p => Panics p
    end.
Proof.
  intros Hu. unfold Client.Hooks, http.NewRequest. rewrite Hu. cbn.
  by destruct (do c _) as [[next payload]|e|p].
Qed.

Lemma DeleteHook_sends (c : client) (url_ u : string) :
  url_Parse (url c +:+ "/hooks/" +:+ base64.EncodeToString url_) = Ok u →
  Client.DeleteHook c url_ =
    match do c (DeleteHook_request c u) with
    | Ok _ => Ok tt
    | Err err => Err err
    | Panic p => Panic p
    end.
Proof.
  intros Hu. unfold Client.DeleteHook, http.NewRequest.
  by rewrite Hu.
Qed.

(** X4.  When the exchange succeeds without payload, as it does on an
    empty body under a 2xx code and on an envelope without the member
    [payload], the methods that expect a payload return the syntax error
    of the empty text: CreateAccount, Account, CreateAddress, Transaction,
    CreateTransactionIDs for a number of identifiers that the allocator
    grants, and, beside an empty list, Fees and Hooks. *)
Theorem nil_payload_is_syntax_error (c : client) (id accountID n : Z)
    (u next : string) :
  (url_Parse (url c +:+ "/accounts/") = Ok u →
   do c (CreateAccount_request c u) = Ok (next, None) →
   Client.CreateAccount c
   = Err (SyntaxError "unexpected end of JSON input"))
  ∧ (url_Parse (url c +:+ "/accounts/" +:+ Itoa id) = Ok u →
     do c (Account_request c u) = Ok (next, None) →
     Client.Account c id
     = Err (SyntaxError "unexpected end of JSON input"))
  ∧ (url_Parse
       (url c +:+ "/accounts/" +:+ Itoa accountID +:+ "/addresses/")
     = Ok u →
     do c (CreateAddress_request c u) = Ok (next, None) →
     Client.CreateAddress c accountID
     = Err (SyntaxError "unexpected end of JSON input"))
  ∧ (url_Parse (url c +:+ "/transactions/" +:+ Itoa id) = Ok u →
     do c (Transaction_request c u) = Ok (next, None) →
     Client.Transaction c id
     = Err (SyntaxError "unexpected end of JSON input"))
  ∧ (0 ≤ n → Transaction_size * n ≤ maxAlloc →
     url_Parse (url c +:+ "/transactions/") = Ok u →
     do c (CreateTransactionIDs_request c u n) = Ok (next, None) →
     Client.CreateTransactionIDs c n
     = Err (SyntaxError "unexpected end of JSON input"))
  ∧ (url_Parse (url c +:+ "/fees/") = Ok u →
     do c (Fees_request c u) = Ok (next, None) →
     Client.Fees c
     = Return ([], Some (SyntaxError "unexpected end of JSON input")))
  ∧ (url_Parse (url c +:+ "/hooks/") = Ok u →
     do c (Hooks_request c u) = Ok (next, None) →
     Client.Hooks c
     = Return ([], Some (SyntaxError "unexpected end of JSON input"))).
Proof.
  repeat split.
  - intros Hu Hdo. by rewrite (CreateAccount_sends _ _ Hu), Hdo.
  - intros Hu Hdo. by rewrite (Account_sends _ _ _ Hu), Hdo.
  - intros Hu Hdo. by rewrite (CreateAddress_sends _ _ _ Hu), Hdo.
  - intros Hu Hdo. by rewrite (Transaction_sends _ _ _ Hu), Hdo.
  - intros Hn Hfit Hu Hdo.
    rewrite (CreateTransactionIDs_sends _ _ _ Hu), Hdo.
    cbn. by rewrite make_capacity_fits.
  - intros Hu Hdo. by rewrite (Fees_sends _ _ Hu), Hdo.
  - intros Hu Hdo. by rewrite (Hooks_sends _ _ Hu), Hdo.
Qed.

(** X5.  When the transport fails, every method hands the error of the
    transport to its caller as it is, Fees and Hooks beside an empty
    list; only Transfer and CreateHook look at its text and put their
    variable in its place when the text is the one they know. *)
Theorem transport_error_comes_back (c : client) (e : error)
    (id accountID n txID fromAccountID toAccountID value : Z)
    (toAddress url_ u : string) :
  (∀ req, http.Do (client_ c) req = Err e) →
  (url_Parse (url c +:+ "/accounts/") = Ok u →
   Client.CreateAccount c = Err e)
  ∧ (url_Parse (url c +:+ "/accounts/" +:+ Itoa id) = Ok u →
     Client.Account c id = Err e)
  ∧ (url_Parse
       (url c +:+ "/accounts/" +:+ Itoa accountID +:+ "/addresses/")
     = Ok u →
     Client.CreateAddress c accountID = Err e)
  ∧ (url_Parse (url c +:+ "/transactions/" +:+ Itoa id) = Ok u →
     Client.Transaction c id = Err e)
  ∧ (url_Parse (url c +:+ "/transactions/") = Ok u →
     Client.CreateTransactionIDs c n = Err e
     ∧ Client.Debit c txID fromAccountID toAddress value = Err e
     ∧ Client.Transfer c txID fromAccountID toAccountID value
       = Err (if decide (Error e = "insufficient funds")
              then ErrInsufficientFunds else e))
  ∧ (url_Parse (url c +:+ "/hooks/") = Ok u →
     Client.CreateHook c url_
     = Err (if decide (Error e = "hook exists") then ErrHookExists else e)
     ∧ Client.Hooks c = Return ([], Some e))
  ∧ (url_Parse (url c +:+ "/hooks/" +:+ base64.EncodeToString url_) = Ok u →
     Client.DeleteHook c url_ = Err e)
  ∧ (url_Parse (url c +:+ "/fees/") = Ok u →
     Client.Fees c = Return ([], Some e)).
Proof.
  intros Hdown.
  assert (∀ req, do c req = Err e) as Hdo.
  { intros req. unfold do. by rewrite Hdown. }
  repeat match goal with |- _ ∧ _ => split end; intros Hu;
    repeat match goal with |- _ ∧ _ => split end.
  - by rewrite (CreateAccount_sends _ _ Hu), Hdo.
  - by rewrite (Account_sends _ _ _ Hu), Hdo.
  - by rewrite (CreateAddress_sends _ _ _ Hu), Hdo.
  - by rewrite (Transaction_sends _ _ _ Hu), Hdo.
  - by rewrite (CreateTransactionIDs_sends _ _ _ Hu), Hdo.
  - by rewrite (Debit_sends _ _ _ _ _ _ Hu), Hdo.
  - rewrite (Transfer_sends _ _ _ _ _ _ Hu), Hdo. by case_decide.
  - rewrite (CreateHook_sends _ _ _ Hu), Hdo. by case_decide.
  - by rewrite (Hooks_sends _ _ Hu), Hdo.
  - by rewrite (DeleteHook_sends _ _ _ Hu), Hdo.
  - by rewrite (Fees_sends _ _ Hu), Hdo.
Qed.

(** X6.  When the payload holds more transactions than the [n] asked for,
    CreateTransactionIDs runs past the end of its list of [n] entries and
    panics at index [n].  The transactions of the payload are as many as
    a slice can hold. *)
Theorem CreateTransactionIDs_panics_on_longer_payload (c : client) (n : Z)
    (u next : string) (payload : RawMessage) (txns : list Transaction) :
  0 ≤ n →
  url_Parse (url c +:+ "/transactions/") = Ok u →
  do c (CreateTransactionIDs_request c u n) = Ok (next, payload) →
  transactions payload = (txns, None) →
  Transaction_size * Z.of_nat (length txns) ≤ maxAlloc →
  (Z.to_nat n < length txns)%nat →
  Client.CreateTransactionIDs c n
  = Panic (IndexOutOfRange (Z.to_nat n) (Z.to_nat n)).
Proof.
  intros Hn Hu Hdo Htx Hheld Hlen.
  assert (Transaction_size * n ≤ maxAlloc) as Hfit
    by (unfold Transaction_size in *; lia).
  rewrite (CreateTransactionIDs_result _ _ _ _ _ _ Hn Hfit Hu Hdo Htx).
  by rewrite decide_False by lia.
Qed.

(** X7.  When the payload holds fewer transactions than the [n] asked
    for, and the allocator grants a list of [n] transactions,
    CreateTransactionIDs succeeds and fills the entries that are left
    with zeros, which are no identifiers of the service. *)
Theorem CreateTransactionIDs_pads_with_zeros (c : client) (n : Z)
    (u next : string) (payload : RawMessage) (txns : list Transaction) :
  0 ≤ n → Transaction_size * n ≤ maxAlloc →
  url_Parse (url c +:+ "/transactions/") = Ok u →
  do c (CreateTransactionIDs_request c u n) = Ok (next, payload) →
  transactions payload = (txns, None) →
  (length txns ≤ Z.to_nat n)%nat →
  Client.CreateTransactionIDs c n
  = Ok ((ID <$> txns) ++ replicate (Z.to_nat n - length txns) 0)%list.
Proof.
  intros Hn Hfit Hu Hdo Htx Hlen.
  rewrite (CreateTransactionIDs_result _ _ _ _ _ _ Hn Hfit Hu Hdo Htx).
  by rewrite decide_True.
Qed.

(** X8.  A negative [n] is sent to the service all the same, and it is
    only after a successful exchange that CreateTransactionIDs panics,
    on the allocation of its list of transactions, whose capacity is out
    of range; a failed exchange returns its error first. *)
Theorem CreateTransactionIDs_negative_count (c : client) (n : Z)
    (u : string) :
  n < 0 →
  url_Parse (url c +:+ "/transactions/") = Ok u →
  (∀ next payload,
     do c (CreateTransactionIDs_request c u n) = Ok (next, payload) →
     Client.CreateTransactionIDs c n = Panic MakesliceCapOutOfRange)
  ∧ (∀ err,
       do c (CreateTransactionIDs_request c u n) = Err err →
       Client.CreateTransactionIDs c n = Err err).
Proof.
  intros Hn Hu. rewrite (CreateTransactionIDs_sends _ _ _ Hu). split.
  - intros next payload ->. cbn.
    by rewrite make_capacity_out_of_range by (by left).
  - by intros err ->.
Qed.

(** X26.  A number of identifiers whose transactions would take more
    memory than the runtime allocates at once is sent to the service all
    the same: after a successful exchange CreateTransactionIDs panics on
    the capacity of its list of transactions, before it looks at the
    payload; a failed exchange returns its error first. *)
Theorem CreateTransactionIDs_beyond_allocator (c : client) (n : Z)
    (u : string) :
  maxAlloc < Transaction_size * n →
  url_Parse (url c +:+ "/transactions/") = Ok u →
  (∀ next payload,
     do c (CreateTransactionIDs_request c u n) = Ok (next, payload) →
     Client.CreateTransactionIDs c n = Panic MakesliceCapOutOfRange)
  ∧ (∀ err,
       do c (CreateTransactionIDs_request c u n) = Err err →
       Client.CreateTransactionIDs c n = Err err).
Proof.
  intros Hn Hu. rewrite (CreateTransactionIDs_sends _ _ _ Hu). split.
  - intros next payload ->. cbn.
    by rewrite make_capacity_out_of_range by (by right).
  - by intros err ->.
Qed.

End more_method_facts.

(** An empty body under status 204. *)
Lemma nil_payload_is_syntax_error_witness :
  Client.CreateAccount (lib := sample.library)
    (sample.service 204 sample.empty)
  = Err (SyntaxError "unexpected end of JSON input")
  ∧ Client.Fees (lib := sample.library) (sample.service 204 sample.empty)
    = Return ([], Some (SyntaxError "unexpected end of JSON input")).
Proof.
  destruct (nil_payload_is_syntax_error (lib := sample.library)
              (sample.service 204 sample.empty) 7 7 1
              (MainNetURL +:+ "/accounts/") "")
    as (Hcreate & _).
  destruct (nil_payload_is_syntax_error (lib := sample.library)
              (sample.service 204 sample.empty) 7 7 1
              (MainNetURL +:+ "/fees/") "")
    as (_ & _ & _ & _ & _ & Hfees & _).
  split; [apply Hcreate|apply Hfees]; reflexivity.
Defined.

(** A transport that fails with the text of the insufficient funds. *)
Lemma transport_error_comes_back_witness :
  Client.CreateAccount (lib := sample.library)
    (sample.down (otherError "*url.Error" "insufficient funds"))
  = Err (otherError "*url.Error" "insufficient funds")
  ∧ Client.Transfer (lib := sample.library)
      (sample.down (otherError "*url.Error" "insufficient funds")) 1 2 3 5
    = Err ErrInsufficientFunds.
Proof.
  destruct (transport_error_comes_back (lib := sample.library)
              (sample.down (otherError "*url.Error" "insufficient funds"))
              (otherError "*url.Error" "insufficient funds")
              7 7 1 1 2 3 5 "" "" (MainNetURL +:+ "/accounts/")
              (λ _, eq_refl)) as (Hcreate & _).
  destruct (transport_error_comes_back (lib := sample.library)
              (sample.down (otherError "*url.Error" "insufficient funds"))
              (otherError "*url.Error" "insufficient funds")
              7 7 1 1 2 3 5 "" "" sample.transactionsURL
              (λ _, eq_refl)) as (_ & _ & _ & _ & Htx & _).
  split; [exact (Hcreate eq_refl)|].
  exact (proj2 (proj2 (Htx eq_refl))).
Defined.

(** One identifier asked for, two transactions in the payload. *)
Lemma CreateTransactionIDs_panics_on_longer_payload_witness :
  Client.CreateTransactionIDs (lib := sample.library)
    (sample.service 200 (sample.stubsBody ["7"; "8"])) 1
  = Panic (IndexOutOfRange 1 1).
Proof.
  eapply (CreateTransactionIDs_panics_on_longer_payload
            (lib := sample.library)
            (sample.service 200 (sample.stubsBody ["7"; "8"])) 1);
    [lia|reflexivity|vm_compute; reflexivity|vm_compute; reflexivity
    |vm_compute; discriminate|simpl; lia].
Defined.

(** Three identifiers asked for, one transaction in the payload. *)
Lemma CreateTransactionIDs_pads_with_zeros_witness :
  Client.CreateTransactionIDs (lib := sample.library)
    (sample.service 200 (sample.stubsBody ["7"])) 3
  = Ok [7; 0; 0].
Proof.
  rewrite (CreateTransactionIDs_pads_with_zeros (lib := sample.library)
             (sample.service 200 (sample.stubsBody ["7"])) 3
             sample.transactionsURL ""
             (Some (Array [sample.stub "7"]))
             [with_ID 7 Transaction_zero]);
    [reflexivity|lia|vm_compute; discriminate|reflexivity
    |vm_compute; reflexivity|vm_compute; reflexivity|simpl; lia].
Defined.

(** Minus one identifier asked for. *)
Lemma CreateTransactionIDs_negative_count_witness :
  Client.CreateTransactionIDs (lib := sample.library)
    (sample.service 200 (sample.stubsBody [])) (-1)
  = Panic MakesliceCapOutOfRange.
Proof.
  destruct (CreateTransactionIDs_negative_count (lib := sample.library)
              (sample.service 200 (sample.stubsBody [])) (-1)
              sample.transactionsURL) as [Hpanic _];
    [lia|reflexivity|].
  eapply Hpanic. vm_compute. reflexivity.
Defined.

(** Two to the power of 62 identifiers asked for. *)
Lemma CreateTransactionIDs_beyond_allocator_witness :
  Client.CreateTransactionIDs (lib := sample.library)
    (sample.service 200 (sample.stubsBody [])) (2 ^ 62)
  = Panic MakesliceCapOutOfRange.
Proof.
  destruct (CreateTransactionIDs_beyond_allocator (lib := sample.library)
              (sample.service 200 (sample.stubsBody [])) (2 ^ 62)
              sample.transactionsURL) as [Hpanic _];
    [vm_compute; reflexivity|reflexivity|].
  eapply Hpanic. vm_compute. reflexivity.
Defined.

(** ** Integers on the wire *)

Lemma digit_of_N (d : N) :
  (d < 10)%N → digit (ascii_of_N (48 + d)) = Some (Z.of_N d).
Proof.
  intros Hd. unfold digit.
  assert (nat_of_ascii (ascii_of_N (48 + d)) = N.to_nat (48 + d)) as ->.
  { unfold nat_of_ascii. rewrite N_ascii_embedding; [done|lia]. }
  rewrite decide_True by lia. f_equal. lia.
Qed.

(** Read back, the digits written in front of [acc] stand for [n]. *)
Lemma digits_value_digits_fuel (fuel : nat) (n : N) (acc : string) :
  (n < 2 ^ N.of_nat fuel)%N →
  digits_value (digits_fuel fuel n acc) 0 = digits_value acc (Z.of_N n).
Proof.
  revert n acc. induction fuel as [|fuel IH]; intros n acc Hn.
  - simpl in *. by replace n with 0%N by lia.
  - cbn [digits_fuel].
    assert (n mod 10 < 10)%N as Hd by (apply N.mod_lt; lia).
    assert (Z.of_N n = 10 * Z.of_N (n / 10) + Z.of_N (n mod 10)) as Hsplit.
    { rewrite (N.div_mod n 10) at 1 by lia. lia. }
    destruct (n / 10 =? 0)%N eqn:Hq.
    + apply N.eqb_eq in Hq. cbn [digits_value].
      rewrite digit_of_N by done. cbn. by rewrite Hsplit, Hq.
    + rewrite IH.
      * cbn [digits_value]. rewrite digit_of_N by done. cbn.
        by rewrite Hsplit.
      * rewrite Nat2N.inj_succ, N.pow_succ_r' in Hn.
        apply N.Div0.div_lt_upper_bound. lia.
Qed.

Lemma digits_fuel_head (fuel : nat) (n : N) (acc : string) :
  ∃ d rest, (d < 10)%N
    ∧ digits_fuel (S fuel) n acc = String (ascii_of_N (48 + d)) rest.
Proof.
  revert n acc. induction fuel as [|fuel IH]; intros n acc.
  - exists (n mod 10)%N, acc. split; [apply N.mod_lt; lia|].
    cbn. by destruct (n / 10 =? 0)%N.
  - cbn [digits_fuel]. destruct (n / 10 =? 0)%N.
    + eexists _, _. split; [|done]. apply N.mod_lt. lia.
    + apply IH.
Qed.

(** A text that starts with a digit has no sign. *)
Lemma ParseInt64_unsigned (d : N) (rest : string) :
  (d < 10)%N →
  ParseInt64 (String (ascii_of_N (48 + d)) rest) =
    n ← digits_value (String (ascii_of_N (48 + d)) rest) 0;
    if decide (- 2 ^ 63 ≤ n < 2 ^ 63) then Some n else None.
Proof.
  intros Hd.
  assert (d ∈ [0; 1; 2; 3; 4; 5; 6; 7; 8; 9]%N) as Hin.
  { rewrite !elem_of_cons. lia. }
  rewrite !elem_of_cons, elem_of_nil in Hin.
  destruct Hin as [->|[->|[->|[->|[->|[->|[->|[->|[->|[->|[]]]]]]]]]]];
    reflexivity.
Qed.

Lemma log2_fuel (n : N) : (n < 2 ^ N.of_nat (S (N.to_nat (N.log2 n))))%N.
Proof.
  rewrite Nat2N.inj_succ, N2Nat.id.
  destruct (decide (n = 0%N)) as [->|Hn]; [done|].
  apply N.log2_spec. lia.
Qed.

Lemma ParseInt64_negative (c : ascii) (rest : string) :
  ParseInt64 (String "-" (String c rest)) =
    n ← digits_value (String c rest) 0;
    if decide (- 2 ^ 63 ≤ - n < 2 ^ 63) then Some (- n) else None.
Proof. reflexivity. Qed.

(** What [strconv.ParseInt] reads in what [%d] has written. *)
Lemma ParseInt64_Itoa (z : Z) :
  ParseInt64 (Itoa z) =
    if decide (int64_range z) then Some z else None.
Proof.
  unfold Itoa. set (n := Z.to_N (Z.abs z)).
  pose proof (digits_value_digits_fuel _ n "" (log2_fuel n)) as Hval.
  cbn [digits_value] in Hval.
  destruct (digits_fuel_head (N.to_nat (N.log2 n)) n "")
    as (d & rest & Hd & Hhead).
  rewrite Hhead in *. case_decide as Hneg.
  - rewrite ParseInt64_negative, Hval. cbn.
    replace (- Z.of_N n) with z by lia. unfold int64_range.
    by repeat case_decide.
  - rewrite (ParseInt64_unsigned d rest Hd), Hval. cbn.
    replace (Z.of_N n) with z by lia. unfold int64_range.
    by repeat case_decide.
Qed.

Lemma int64_number (z t : Z) :
  int64 (Client.number z) t =
    if decide (int64_range z) then Stored z None
    else Stored t (Some (UnmarshalTypeError ("number " +:+ Itoa z) "int64")).
Proof.
  unfold int64, Client.number. rewrite ParseInt64_Itoa. by case_decide.
Qed.

(** ** What the decoder reads in what the service writes *)

Lemma array_round_trip {E : Type} (elem : into E) (zero : E) (f : E → value)
    (l : list E) :
  Forall (λ x, elem (f x) zero = Stored x None) l →
  array elem zero (f <$> l) = Stored l None.
Proof.
  induction 1 as [|x l Hx _ IH]; [done|].
  rewrite fmap_cons. cbn [array]. by rewrite Hx, IH.
Qed.

Lemma Account_json_value (a t : Account) :
  int64_range (Account_ID a) → int64_range (Account_Balance a) →
  Account_json (Account_value a) t = Stored a None.
Proof.
  intros Hid Hbal. unfold Account_json, Account_value, struct.
  cbn -[int64 Client.number].
  repeat (rewrite int64_number, decide_True by done;
          cbn -[int64 Client.number]).
  by destruct a.
Qed.

(** X9.  A payload that lists accounts as objects with the members [id]
    and [balance], every number within [int64], decodes to exactly these
    accounts in the order of the payload; with a single account
    [accountFromPayload] returns it. *)
Theorem accountsFromPayload_round_trip (accs : list Account) :
  Forall (λ a, int64_range (Account_ID a)
              ∧ int64_range (Account_Balance a)) accs →
  accountsFromPayload (Some (Array (Account_value <$> accs))) = Ok accs
  ∧ ∀ a, accs = [a] →
      accountFromPayload (Some (Array (Account_value <$> accs))) = Ok a.
Proof.
  intros Hrange.
  assert (accountsFromPayload (Some (Array (Account_value <$> accs)))
          = Ok accs) as Hall.
  { unfold accountsFromPayload, json.Unmarshal, RawMessage_data, slice.
    rewrite (array_round_trip Account_json Account_zero Account_value);
      [done|].
    eapply Forall_impl; [exact Hrange|].
    intros a [Hid Hbal]. by apply Account_json_value. }
  split; [done|]. intros a ->. unfold accountFromPayload.
  by rewrite Hall.
Qed.

Lemma accountsFromPayload_round_trip_witness :
  accountsFromPayload
    (Some (Array (Account_value
                    <$> [ {| Account_ID := 7; Account_Balance := 5 |};
                          {| Account_ID := -1;
                             Account_Balance := 2 ^ 63 - 1 |} ])))
  = Ok [ {| Account_ID := 7; Account_Balance := 5 |};
         {| Account_ID := -1; Account_Balance := 2 ^ 63 - 1 |} ].
Proof.
  apply accountsFromPayload_round_trip.
  repeat constructor; unfold int64_range; simpl; lia.
Defined.

(** X10.  An account whose [id] does not fit [int64] is not truncated:
    the decoder reports the number as it was written, and
    [accountFromPayload] returns that error. *)
Theorem accountFromPayload_rejects_overflow (a : Account) :
  ¬ int64_range (Account_ID a) → int64_range (Account_Balance a) →
  accountFromPayload (Some (Array [Account_value a]))
  = Err (UnmarshalTypeError ("number " +:+ Itoa (Account_ID a)) "int64").
Proof.
  intros Hid Hbal.
  unfold accountFromPayload, accountsFromPayload, json.Unmarshal,
    RawMessage_data, slice.
  cbn [array]. unfold Account_json, Account_value, struct.
  cbn -[int64 Client.number].
  rewrite int64_number, decide_False by done. cbn -[int64 Client.number].
  by rewrite int64_number, decide_True by done.
Qed.

Lemma accountFromPayload_rejects_overflow_witness :
  accountFromPayload
    (Some (Array [sample.account "9223372036854775808" "0"]))
  = Err (UnmarshalTypeError "number 9223372036854775808" "int64").
Proof.
  exact (accountFromPayload_rejects_overflow
           {| Account_ID := 2 ^ 63; Account_Balance := 0 |}
           ltac:(unfold int64_range; simpl; lia)
           ltac:(unfold int64_range; simpl; lia)).
Defined.

Section hook_facts.
Context {lib : Library}.

Lemma strings_round_trip (l t : list string) :
  slice string_ "" "[]string" (Array (Str <$> l)) t = Stored l None.
Proof.
  unfold slice. apply array_round_trip.
  by apply Forall_forall.
Qed.

Lemma TransactionEvent_json_value (ev : TransactionEvent) :
  Transaction_int64 (Transaction_ ev) →
  Created (Transaction_ ev) = zeroTime →
  TransactionEvent_json (TransactionEvent_value ev) TransactionEvent_zero
  = Stored ev None.
Proof.
  intros (H1 & H2 & H3 & H4 & H5 & H6 & H7 & H8 & H9) Htime.
  unfold TransactionEvent_json, TransactionEvent_value, struct.
  cbn -[int64 Client.number slice].
  repeat (first [ rewrite int64_number, decide_True by done
                | rewrite strings_round_trip ];
          cbn -[int64 Client.number slice]).
  destruct ev as [[] status]. cbn in *. by subst.
Qed.

(** X11.  A push of the JSON media type whose envelope has the type
    transactions and lists events as objects, members named as the struct
    tags name them, without time stamp and with every number within
    [int64], comes out of [Unmarshal] as exactly these events, in order,
    the status of each one kept as it was sent, and without error. *)
Theorem Unmarshal_round_trip (r : http.Request)
    (evs : list TransactionEvent) :
  http.Header_Get (http.Header r) "Content-Type" = "application/json" →
  http.Body r
  = Some (Holds (Object [ ("type", Str "transactions");
                          ("payload",
                           Array (TransactionEvent_value <$> evs)) ])) →
  Forall (λ ev, Transaction_int64 (Transaction_ ev)
               ∧ Created (Transaction_ ev) = zeroTime) evs →
  Unmarshal r = ([Read; Close], Return (evs, None)).
Proof.
  intros Hct Hbody Hevs. unfold Unmarshal.
  rewrite decide_False by (by intros []). rewrite Hbody.
  match goal with
  | |- context [Decode ?dec ?d ?z] =>
      let res := eval vm_compute in (Decode dec d z) in
      change (Decode dec d z) with res
  end.
  cbv beta iota. cbn [object_Type Payload]. rewrite decide_True by done.
  unfold json.Unmarshal, RawMessage_data, slice.
  rewrite (array_round_trip TransactionEvent_json TransactionEvent_zero
             TransactionEvent_value); [done|].
  eapply Forall_impl; [exact Hevs|].
  intros ev [Hint Htime]. by apply TransactionEvent_json_value.
Qed.

(** X12.  A request without body makes [Unmarshal] panic, but only once
    the Content-Type has passed: with another Content-Type the error of
    the content type comes back and the missing body goes unnoticed. *)
Theorem Unmarshal_nil_body (r : http.Request) :
  http.Body r = None →
  (http.Header_Get (http.Header r) "Content-Type" = "application/json" →
   Unmarshal r = ([], Panics NilDereference))
  ∧ (http.Header_Get (http.Header r) "Content-Type" ≠ "application/json" →
     Unmarshal r
     = ([], Return ([], Some (errors_New "incorrect content type")))).
Proof.
  intros Hbody. unfold Unmarshal. rewrite Hbody. split; intros Hct.
  - by rewrite decide_False by (by intros []).
  - by rewrite decide_True.
Qed.

End hook_facts.

(** Two events, a settled credit and a pending one with two hashes. *)
Lemma Unmarshal_round_trip_witness :
  Unmarshal (lib := sample.library)
    (sample.hookRequest "application/json"
       (Holds (sample.envelopeOf "transactions"
                 (Array (TransactionEvent_value
                           <$> [ sample.eventOf 7 "";
                                 {| Transaction_ :=
                                      with_TxHashes ["ab"; "cd"]
                                        (with_Value 10
                                           (with_ID 8 Transaction_zero));
                                    Status := "pending" |} ])))))
  = ([Read; Close],
     Return ([ sample.eventOf 7 "";
               {| Transaction_ :=
                    with_TxHashes ["ab"; "cd"]
                      (with_Value 10 (with_ID 8 Transaction_zero));
                  Status := "pending" |} ], None)).
Proof.
  apply (Unmarshal_round_trip (lib := sample.library));
    [by vm_compute|reflexivity|].
  repeat constructor; unfold int64_range; simpl; lia.
Defined.

Lemma Unmarshal_nil_body_witness :
  Unmarshal (lib := sample.library)
    {| http.Method := "POST"; http.URL := "/hook";
       http.Header := <["Content-Type" := ["application/json"]]> ∅;
       http.BasicAuth := None; http.Body := None |}
  = ([], Panics NilDereference).
Proof.
  apply (proj1 (Unmarshal_nil_body (lib := sample.library)
                  {| http.Method := "POST"; http.URL := "/hook";
                     http.Header :=
                       <["Content-Type" := ["application/json"]]> ∅;
                     http.BasicAuth := None; http.Body := None |}
                  eq_refl)).
  by vm_compute.
Defined.

(** ** Fees and hooks *)

Lemma lookupField_elem {T : Type} (fields : list (field T)) (key : string)
    (f : field T) :
  lookupField fields key = Some f → f ∈ fields.
Proof.
  unfold lookupField. intros Hf. apply list_elem_of_In.
  destruct (find _ fields) as [g|] eqn:Hg.
  - injection Hf as <-. by apply find_some in Hg as [? _].
  - by apply find_some in Hf as [? _].
Qed.

(** A struct none of whose fields stops the decoder never stops it. *)
Lemma members_Stored {T : Type} (fields : list (field T)) :
  (∀ f v t, f ∈ fields → ∃ t' e, store f v t = Stored t' e) →
  ∀ m t saved, ∃ t' e, members fields m t saved = Stored t' e.
Proof.
  intros Hfields m. induction m as [|[key v] m IH]; intros t saved.
  - by eexists _, _.
  - cbn [members]. destruct (lookupField fields key) as [f|] eqn:Hf.
    + apply lookupField_elem in Hf.
      destruct (Hfields f v t Hf) as (t' & e & ->). apply IH.
    + apply IH.
Qed.

Lemma int64_Stored (v : value) (t : Z) : ∃ t' e, int64 v t = Stored t' e.
Proof.
  destruct v as [|b|lit|s|l|m]; cbn; try by eexists _, _.
  destruct (ParseInt64 lit); by eexists _, _.
Qed.

Lemma string_Stored (v : value) (t : string) :
  ∃ t' e, string_ v t = Stored t' e.
Proof. destruct v; cbn; by eexists _, _. Qed.

Lemma fieldOf_Stored {T F : Type} (name : string) (get : T → F)
    (set : F → T → T) (dec : into F) :
  (∀ v x, ∃ x' e, dec v x = Stored x' e) →
  ∀ v t, ∃ t' e, store (fieldOf name get set dec) v t = Stored t' e.
Proof.
  intros Hdec v t. cbn. destruct (Hdec v (get t)) as (x' & e & ->).
  by eexists _, _.
Qed.

Lemma Fee_json_Stored (v : value) (t : Fee) :
  ∃ t' e, Fee_json v t = Stored t' e.
Proof.
  unfold Fee_json, struct. destruct v as [|b|lit|s|l|m];
    try by eexists _, _.
  apply members_Stored. intros f v t' Hf.
  rewrite !elem_of_cons, elem_of_nil in Hf.
  destruct Hf as [->|[->|[]]]; apply fieldOf_Stored, int64_Stored.
Qed.

Lemma Hook_json_Stored (v : value) (t : Hook) :
  ∃ t' e, Hook_json v t = Stored t' e.
Proof.
  unfold Hook_json, struct. destruct v as [|b|lit|s|l|m];
    try by eexists _, _.
  apply members_Stored. intros f v t' Hf.
  rewrite !elem_of_cons, elem_of_nil in Hf.
  destruct Hf as [->|[]]; apply fieldOf_Stored, string_Stored.
Qed.

(** An array whose elements never stop the decoder is decoded to its
    end. *)
Lemma array_never_Aborted {E : Type} (elem : into E) (zero : E)
    (elems : list value) :
  (∀ v t, ∃ t' e, elem v t = Stored t' e) →
  ∃ e, array elem zero elems = Stored (element elem zero <$> elems) e.
Proof.
  intros Helem. induction elems as [|v rest [e IH]]; [by eexists|].
  cbn [array]. rewrite fmap_cons. unfold element at 1.
  destruct (Helem v zero) as (t' & e' & ->). rewrite IH. by eexists.
Qed.

Section fee_hook_facts.
Context {lib : Library}.

(** X13.  Fees and Hooks hand back one entry for every element of a
    payload that is an array, in the order of the payload, whether the
    decoder reports an error or not: an element of the wrong kind leaves
    its entry, or the field concerned, at zero, and the error of the
    decoder comes back beside the full list. *)
Theorem Fees_Hooks_keep_every_element (c : client) (u next : string)
    (elems : list value) :
  (url_Parse (url c +:+ "/fees/") = Ok u →
   do c (Fees_request c u) = Ok (next, Some (Array elems)) →
   ∃ err, Client.Fees c
          = Return (element Fee_json Fee_zero <$> elems, err))
  ∧ (url_Parse (url c +:+ "/hooks/") = Ok u →
     do c (Hooks_request c u) = Ok (next, Some (Array elems)) →
     ∃ err, Client.Hooks c
            = Return (element Hook_json Hook_zero <$> elems, err)).
Proof.
  split; intros Hu Hdo.
  - rewrite (Fees_sends _ _ Hu), Hdo.
    unfold fees, json.Unmarshal, RawMessage_data, slice.
    destruct (array_never_Aborted Fee_json Fee_zero elems Fee_json_Stored)
      as [e ->].
    by eexists.
  - rewrite (Hooks_sends _ _ Hu), Hdo.
    unfold hooks, json.Unmarshal, RawMessage_data, slice.
    destruct (array_never_Aborted Hook_json Hook_zero elems
                Hook_json_Stored) as [e ->].
    by eexists.
Qed.

Lemma Hook_json_value (h t : Hook) :
  Hook_json (Hook_value h) t = Stored h None.
Proof. by destruct h. Qed.

Lemma Fee_json_value (f t : Fee) :
  int64_range (FeePerByte f) → int64_range (BlockHeight f) →
  Fee_json (Fee_value f) t = Stored f None.
Proof.
  intros Hfee Hheight. unfold Fee_json, Fee_value, struct.
  cbn -[int64 Client.number].
  repeat (rewrite int64_number, decide_True by done;
          cbn -[int64 Client.number]).
  by destruct f.
Qed.

(** X14.  A payload that lists hooks as objects with the member [url],
    or fees as objects with the members [feePerByte] and [blockHeight]
    within [int64], comes back from Hooks, or from Fees, as exactly that
    list, in order and without error. *)
Theorem Hooks_Fees_round_trip (c : client) (u next : string)
    (hs : list Hook) (fs : list Fee) :
  (url_Parse (url c +:+ "/hooks/") = Ok u →
   do c (Hooks_request c u) = Ok (next, Some (Array (Hook_value <$> hs))) →
   Client.Hooks c = Return (hs, None))
  ∧ (url_Parse (url c +:+ "/fees/") = Ok u →
     do c (Fees_request c u) = Ok (next, Some (Array (Fee_value <$> fs))) →
     Forall (λ f, int64_range (FeePerByte f)
                 ∧ int64_range (BlockHeight f)) fs →
     Client.Fees c = Return (fs, None)).
Proof.
  split.
  - intros Hu Hdo. rewrite (Hooks_sends _ _ Hu), Hdo.
    unfold hooks, json.Unmarshal, RawMessage_data, slice.
    rewrite (array_round_trip Hook_json Hook_zero Hook_value); [done|].
    apply Forall_forall. intros h _. apply Hook_json_value.
  - intros Hu Hdo Hfs. rewrite (Fees_sends _ _ Hu), Hdo.
    unfold fees, json.Unmarshal, RawMessage_data, slice.
    rewrite (array_round_trip Fee_json Fee_zero Fee_value); [done|].
    eapply Forall_impl; [exact Hfs|].
    intros f [Hfee Hheight]. by apply Fee_json_value.
Qed.

(** X15.  DeleteHook returns nil on an empty body under a 2xx code, and
    hands on an error of the service as it is: on a well-formed error
    envelope a fresh error with the first message, never the variable
    [ErrHookExists], even for its text. *)
Theorem DeleteHook_maps_nothing (c : client) (url_ u : string)
    (status : Z) (body : http.bytes) :
  url_Parse (url c +:+ "/hooks/" +:+ base64.EncodeToString url_) = Ok u →
  answers c (DeleteHook_request c u) status body →
  (http.len body = 0 → 200 ≤ status < 300 →
   Client.DeleteHook c url_ = Ok tt)
  ∧ (∀ msg, errorEnvelope body msg →
       Client.DeleteHook c url_ = Err (errors_New msg)
       ∧ Client.DeleteHook c url_ ≠ Err ErrHookExists).
Proof.
  intros Hu Hc. rewrite (DeleteHook_sends _ _ _ Hu). split.
  - intros Hlen Hst.
    by rewrite (do_answers _ _ _ _ Hc), decide_True by lia.
  - intros msg Henv. by rewrite (do_errorEnvelope _ _ _ _ _ Hc Henv).
Qed.

End fee_hook_facts.

(** Three elements, the second one a string instead of an object. *)
Lemma Fees_Hooks_keep_every_element_witness :
  Client.Hooks (lib := sample.library)
    (sample.service 200
       (sample.payloadBody "hooks"
          (Array [ Hook_value {| Hook_URL := "https://a.example/hook" |};
                   Str "https://b.example/hook";
                   Hook_value {| Hook_URL := "https://c.example/hook" |} ])))
  = Return ([ {| Hook_URL := "https://a.example/hook" |};
              {| Hook_URL := "" |};
              {| Hook_URL := "https://c.example/hook" |} ],
            Some (UnmarshalTypeError "string" "client.Hook")).
Proof.
  edestruct (Fees_Hooks_keep_every_element (lib := sample.library)
               (sample.service 200
                  (sample.payloadBody "hooks"
                     (Array [ Hook_value
                                {| Hook_URL := "https://a.example/hook" |};
                              Str "https://b.example/hook";
                              Hook_value
                                {| Hook_URL :=
                                     "https://c.example/hook" |} ]))))
    as [_ Hhooks].
  edestruct Hhooks as [err Herr]; [reflexivity|vm_compute; reflexivity|].
  rewrite Herr. vm_compute in Herr. by injection Herr as <-.
Defined.

(** Two hooks. *)
Lemma Hooks_Fees_round_trip_witness :
  Client.Hooks (lib := sample.library)
    (sample.service 200
       (sample.payloadBody "hooks"
          (Array (Hook_value
                    <$> [ {| Hook_URL := "https://a.example/hook" |};
                          {| Hook_URL := "https://b.example/hook" |} ]))))
  = Return ([ {| Hook_URL := "https://a.example/hook" |};
              {| Hook_URL := "https://b.example/hook" |} ], None).
Proof.
  eapply (proj1 (Hooks_Fees_round_trip (lib := sample.library)
                   (sample.service 200
                      (sample.payloadBody "hooks"
                         (Array (Hook_value
                                   <$> [ {| Hook_URL :=
                                              "https://a.example/hook" |};
                                         {| Hook_URL :=
                                              "https://b.example/hook" |}
                                       ]))))
                   _ "" _ []));
    [reflexivity|vm_compute; reflexivity].
Defined.

(** A service that answers the deletion with the message of the existing
    hook. *)
Lemma DeleteHook_maps_nothing_witness :
  Client.DeleteHook (lib := sample.library)
    (sample.service 400 sample.hookBody) "https://a.example/hook"
  = Err (errors_New "hook exists").
Proof.
  edestruct (DeleteHook_maps_nothing (lib := sample.library)
               (sample.service 400 sample.hookBody)
               "https://a.example/hook"
               (MainNetURL +:+ "/hooks/"
                +:+ base64.EncodeToString "https://a.example/hook")
               400 sample.hookBody eq_refl eq_refl) as [_ Herr].
  apply Herr. error_envelope.
Defined.

(** ** The base64 text of a hook *)

Lemma string_ind3 (P : string → Prop) :
  P EmptyString →
  (∀ a, P (String a EmptyString)) →
  (∀ a b, P (String a (String b EmptyString))) →
  (∀ a b c rest, P rest → P (String a (String b (String c rest)))) →
  ∀ s, P s.
Proof.
  intros H0 H1 H2 H3 s.
  assert (P s ∧ (∀ a, P (String a s)) ∧ ∀ a b, P (String a (String b s)))
    as [Hs _]; [|done].
  induction s as [|c s (IH0 & IH1 & IH2)]; [done|].
  split; [apply IH1|]. split; [intros a; apply IH2|].
  intros a b. by apply H3.
Qed.

(** The encoder and the table of the decoder agree on the 64 places. *)
Lemma decodeMap_encode (i : N) :
  (i < 64)%N → base64.decodeMap (base64.encode i) = Some i.
Proof.
  intros Hi.
  assert (Forall (λ i, base64.decodeMap (base64.encode i) = Some i)
            (N.of_nat <$> seq 0 64)) as Hall.
  { vm_compute. repeat constructor. }
  rewrite Forall_forall in Hall. apply Hall.
  apply list_elem_of_fmap. exists (N.to_nat i).
  split; [lia|]. apply elem_of_seq. lia.
Qed.

Lemma encode_inj (i j : N) :
  (i < 64)%N → (j < 64)%N → base64.encode i = base64.encode j → i = j.
Proof.
  intros Hi Hj Heq.
  pose proof (decodeMap_encode i Hi) as Hdi.
  rewrite Heq, (decodeMap_encode j Hj) in Hdi. by injection Hdi.
Qed.

Lemma encode_not_padding (i : N) :
  (i < 64)%N → base64.encode i ≠ base64.StdPadding.
Proof.
  intros Hi Heq. pose proof (decodeMap_encode i Hi) as Hdi.
  rewrite Heq in Hdi. discriminate Hdi.
Qed.

Lemma sextet_div_mod (v k : N) :
  N.land (N.shiftr v k) 63 = ((v / 2 ^ k) mod 64)%N.
Proof.
  rewrite N.shiftr_div_pow2. change 63%N with (N.ones 6).
  by rewrite N.land_ones.
Qed.

Lemma sextet_lt (x : N) : (N.land x 63 < 64)%N.
Proof.
  change 63%N with (N.ones 6). rewrite N.land_ones.
  apply N.mod_lt. done.
Qed.

Lemma land_shiftl_small (x y k : N) :
  (y < 2 ^ k)%N → N.land (N.shiftl x k) y = 0%N.
Proof.
  intros Hy. apply N.bits_inj. intros n.
  rewrite N.land_spec, N.bits_0.
  destruct (decide (n < k)%N) as [Hn|Hn].
  - by rewrite N.shiftl_spec_low.
  - rewrite <- (N.mod_small y (2 ^ k)) by done.
    rewrite N.mod_pow2_bits_high by lia. apply andb_false_r.
Qed.

Lemma lor_shiftl_small (x y k : N) :
  (y < 2 ^ k)%N → N.lor (N.shiftl x k) y = (x * 2 ^ k + y)%N.
Proof.
  intros Hy. pose proof (land_shiftl_small x y k Hy) as Hland.
  rewrite <- N.lxor_lor, <- N.add_nocarry_lxor by done.
  by rewrite N.shiftl_mul_pow2.
Qed.

Lemma N_of_ascii_lt (a : ascii) : (N_of_ascii a < 256)%N.
Proof. apply N_ascii_bounded. Qed.

(** The 24 bits of a block as a number. *)
Lemma block_value (a b c : N) :
  (b < 256)%N → (c < 256)%N →
  N.lor (N.lor (N.shiftl a 16) (N.shiftl b 8)) c
  = (a * 65536 + b * 256 + c)%N.
Proof.
  intros Hb Hc.
  assert (N.lor (N.shiftl a 16) (N.shiftl b 8)
          = N.shiftl (a * 256 + b) 8) as ->.
  { rewrite (N.shiftl_mul_pow2 b), lor_shiftl_small by (simpl; lia).
    rewrite N.shiftl_mul_pow2. simpl. lia. }
  rewrite lor_shiftl_small by (simpl; lia). simpl. lia.
Qed.

Lemma block_value2 (a b : N) :
  (b < 256)%N →
  N.lor (N.shiftl a 16) (N.shiftl b 8) = (a * 65536 + b * 256)%N.
Proof.
  intros Hb. rewrite (N.shiftl_mul_pow2 b), lor_shiftl_small
    by (simpl; lia).
  simpl. lia.
Qed.

(** A number of 24 bits is made of its four groups of six bits. *)
Lemma sextet_decomposition (v : N) :
  (v < 16777216)%N →
  v = (((v / 262144) mod 64) * 262144 + ((v / 4096) mod 64) * 4096
       + ((v / 64) mod 64) * 64 + v mod 64)%N.
Proof.
  intros Hv.
  replace (v / 4096)%N with (v / 64 / 64)%N
    by (by rewrite N.Div0.div_div).
  replace (v / 262144)%N with (v / 64 / 64 / 64)%N
    by (by rewrite !N.Div0.div_div).
  pose proof (N.div_mod v 64 ltac:(done)) as H1.
  pose proof (N.div_mod (v / 64) 64 ltac:(done)) as H2.
  pose proof (N.div_mod (v / 64 / 64) 64 ltac:(done)) as H3.
  pose proof (N.mod_lt v 64 ltac:(done)) as B1.
  pose proof (N.mod_lt (v / 64) 64 ltac:(done)) as B2.
  pose proof (N.mod_lt (v / 64 / 64) 64 ltac:(done)) as B3.
  assert (v / 64 / 64 / 64 < 64)%N as B4.
  { rewrite !N.Div0.div_div. apply N.Div0.div_lt_upper_bound. simpl. lia. }
  rewrite (N.mod_small _ _ B4). lia.
Qed.

Lemma sextets_inj (v v' : N) :
  (v < 16777216)%N → (v' < 16777216)%N →
  N.land (N.shiftr v 18) 63 = N.land (N.shiftr v' 18) 63 →
  N.land (N.shiftr v 12) 63 = N.land (N.shiftr v' 12) 63 →
  N.land (N.shiftr v 6) 63 = N.land (N.shiftr v' 6) 63 →
  (v mod 64 = v' mod 64)%N →
  v = v'.
Proof.
  intros Hv Hv' H0 H1 H2 H3. rewrite !sextet_div_mod in H0, H1, H2.
  change (2 ^ 18)%N with 262144%N in H0.
  change (2 ^ 12)%N with 4096%N in H1.
  change (2 ^ 6)%N with 64%N in H2.
  rewrite (sextet_decomposition v Hv), (sextet_decomposition v' Hv').
  by rewrite H0, H1, H2, H3.
Qed.

Lemma N_of_ascii_inj (a b : ascii) : N_of_ascii a = N_of_ascii b → a = b.
Proof.
  intros Heq. rewrite <- (ascii_N_embedding a), <- (ascii_N_embedding b).
  by rewrite Heq.
Qed.

Lemma land_63_mod (v : N) : N.land v 63 = (v mod 64)%N.
Proof. change 63%N with (N.ones 6). by rewrite N.land_ones. Qed.

(** Four letters stand for one block only. *)
Lemma letters_inj (v v' : N) :
  (v < 16777216)%N → (v' < 16777216)%N →
  base64.encode (N.land (N.shiftr v 18) 63)
  = base64.encode (N.land (N.shiftr v' 18) 63) →
  base64.encode (N.land (N.shiftr v 12) 63)
  = base64.encode (N.land (N.shiftr v' 12) 63) →
  N.land (N.shiftr v 6) 63 = N.land (N.shiftr v' 6) 63 →
  N.land v 63 = N.land v' 63 →
  v = v'.
Proof.
  intros Hv Hv' H0 H1 H2 H3.
  apply encode_inj in H0; [|apply sextet_lt..].
  apply encode_inj in H1; [|apply sextet_lt..].
  rewrite !land_63_mod in H3. by apply sextets_inj.
Qed.

Lemma low_bits_16 (x : N) :
  N.land (N.shiftr (x * 65536) 6) 63 = 0%N ∧ N.land (x * 65536) 63 = 0%N.
Proof.
  rewrite sextet_div_mod, land_63_mod. change (2 ^ 6)%N with 64%N.
  replace (x * 65536)%N with (x * 1024 * 64)%N by lia.
  rewrite N.div_mul by done. rewrite N.Div0.mod_mul.
  replace (x * 1024)%N with (x * 16 * 64)%N by lia.
  by rewrite N.Div0.mod_mul.
Qed.

Lemma low_bits_8 (x : N) : N.land (x * 256) 63 = 0%N.
Proof.
  rewrite land_63_mod. replace (x * 256)%N with (x * 4 * 64)%N by lia.
  by rewrite N.Div0.mod_mul.
Qed.

Lemma block1_inj (a a' : ascii) :
  base64.encode (N.land (N.shiftr (N.shiftl (N_of_ascii a) 16) 18) 63)
  = base64.encode (N.land (N.shiftr (N.shiftl (N_of_ascii a') 16) 18) 63) →
  base64.encode (N.land (N.shiftr (N.shiftl (N_of_ascii a) 16) 12) 63)
  = base64.encode (N.land (N.shiftr (N.shiftl (N_of_ascii a') 16) 12) 63) →
  a = a'.
Proof.
  rewrite !N.shiftl_mul_pow2. change (2 ^ 16)%N with 65536%N.
  intros H0 H1. pose proof (N_of_ascii_lt a) as Ba. pose proof (N_of_ascii_lt a') as Ba_.
  apply N_of_ascii_inj.
  assert (N_of_ascii a * 65536 = N_of_ascii a' * 65536)%N; [|lia].
  apply letters_inj; [lia|lia|done|done|..].
  - by rewrite (proj1 (low_bits_16 _)), (proj1 (low_bits_16 _)).
  - by rewrite (proj2 (low_bits_16 _)), (proj2 (low_bits_16 _)).
Qed.

Lemma block2_inj (a b a' b' : ascii) :
  let v := N.lor (N.shiftl (N_of_ascii a) 16) (N.shiftl (N_of_ascii b) 8) in
  let v' :=
    N.lor (N.shiftl (N_of_ascii a') 16) (N.shiftl (N_of_ascii b') 8) in
  base64.encode (N.land (N.shiftr v 18) 63)
  = base64.encode (N.land (N.shiftr v' 18) 63) →
  base64.encode (N.land (N.shiftr v 12) 63)
  = base64.encode (N.land (N.shiftr v' 12) 63) →
  base64.encode (N.land (N.shiftr v 6) 63)
  = base64.encode (N.land (N.shiftr v' 6) 63) →
  a = a' ∧ b = b'.
Proof.
  intros v v'. subst v v'.
  pose proof (N_of_ascii_lt a) as Ba. pose proof (N_of_ascii_lt a') as Ba_.
  pose proof (N_of_ascii_lt b) as Bb. pose proof (N_of_ascii_lt b') as Bb_.
  rewrite !block_value2 by done. intros H0 H1 H2.
  apply encode_inj in H2; [|apply sextet_lt..].
  assert (N_of_ascii a * 65536 + N_of_ascii b * 256
          = N_of_ascii a' * 65536 + N_of_ascii b' * 256)%N as Heq.
  { apply letters_inj; [lia|lia|done|done|done|].
    replace (N_of_ascii a * 65536 + N_of_ascii b * 256)%N
      with ((N_of_ascii a * 256 + N_of_ascii b) * 256)%N by lia.
    replace (N_of_ascii a' * 65536 + N_of_ascii b' * 256)%N
      with ((N_of_ascii a' * 256 + N_of_ascii b') * 256)%N by lia.
    by rewrite !low_bits_8. }
  split; apply N_of_ascii_inj; lia.
Qed.

Lemma block3_inj (a b c a' b' c' : ascii) :
  let v :=
    N.lor (N.lor (N.shiftl (N_of_ascii a) 16) (N.shiftl (N_of_ascii b) 8))
      (N_of_ascii c) in
  let v' :=
    N.lor (N.lor (N.shiftl (N_of_ascii a') 16) (N.shiftl (N_of_ascii b') 8))
      (N_of_ascii c') in
  base64.encode (N.land (N.shiftr v 18) 63)
  = base64.encode (N.land (N.shiftr v' 18) 63) →
  base64.encode (N.land (N.shiftr v 12) 63)
  = base64.encode (N.land (N.shiftr v' 12) 63) →
  base64.encode (N.land (N.shiftr v 6) 63)
  = base64.encode (N.land (N.shiftr v' 6) 63) →
  base64.encode (N.land v 63) = base64.encode (N.land v' 63) →
  a = a' ∧ b = b' ∧ c = c'.
Proof.
  intros v v'. subst v v'.
  pose proof (N_of_ascii_lt a) as Ba. pose proof (N_of_ascii_lt a') as Ba_.
  pose proof (N_of_ascii_lt b) as Bb. pose proof (N_of_ascii_lt b') as Bb_.
  pose proof (N_of_ascii_lt c) as Bc. pose proof (N_of_ascii_lt c') as Bc_.
  rewrite !block_value by done. intros H0 H1 H2 H3.
  apply encode_inj in H2; [|apply sextet_lt..].
  apply encode_inj in H3; [|apply sextet_lt..].
  assert (N_of_ascii a * 65536 + N_of_ascii b * 256 + N_of_ascii c
          = N_of_ascii a' * 65536 + N_of_ascii b' * 256 + N_of_ascii c')%N
    as Heq by (apply letters_inj; [lia|lia|done..]).
  repeat split; apply N_of_ascii_inj; lia.
Qed.

(** X16.  The text that DeleteHook puts into the path keeps its padding:
    its length is four letters for every three bytes of the URL, the
    last block rounded up. *)
Theorem EncodeToString_length (src : string) :
  String.length (base64.EncodeToString src)
  = (4 * ((String.length src + 2) / 3))%nat.
Proof.
  induction src as [| | |a b c rest IH] using string_ind3; try done.
  cbn [base64.EncodeToString String.length]. rewrite IH.
  replace (S (S (S (String.length rest))) + 2)%nat
    with (String.length rest + 2 + 1 * 3)%nat by lia.
  rewrite Nat.div_add by done. lia.
Qed.

Lemma letter_or_padding_cons (c : ascii) (l : list ascii) :
  (c = base64.StdPadding ∨ is_Some (base64.decodeMap c)) →
  Forall (λ c, c = base64.StdPadding ∨ is_Some (base64.decodeMap c)) l →
  Forall (λ c, c = base64.StdPadding ∨ is_Some (base64.decodeMap c))
    (c :: l).
Proof. by constructor. Qed.

Lemma letter_encode (x : N) :
  base64.encode (N.land x 63) = base64.StdPadding
  ∨ is_Some (base64.decodeMap (base64.encode (N.land x 63))).
Proof. right. rewrite decodeMap_encode by apply sextet_lt. by eexists. Qed.

(** X17.  That text is made of the 64 letters of the URL alphabet and
    the padding sign only; it holds no slash, plus, question mark, hash
    or percent sign, so that it stays one segment of the path. *)
Theorem EncodeToString_alphabet (src : string) :
  Forall (λ c, (c = base64.StdPadding ∨ is_Some (base64.decodeMap c))
              ∧ c ≠ "/"%char ∧ c ≠ "+"%char ∧ c ≠ "?"%char
              ∧ c ≠ "#"%char ∧ c ≠ "%"%char)
    (list_ascii_of_string (base64.EncodeToString src)).
Proof.
  assert (Forall (λ c, c = base64.StdPadding
                       ∨ is_Some (base64.decodeMap c))
            (list_ascii_of_string (base64.EncodeToString src))) as Hall.
  { induction src as [|a|a b|a b c rest IH] using string_ind3;
      cbn [base64.EncodeToString list_ascii_of_string];
      repeat (apply letter_or_padding_cons;
              [first [apply letter_encode | by left]|]);
      by try constructor. }
  eapply Forall_impl; [exact Hall|]. intros c Hc. split; [done|].
  repeat split; intros ->; destruct Hc as [Hc|[i Hc]]; discriminate Hc.
Qed.

(** X18.  Two URLs with the same text are the same URL: DeleteHook never
    asks for the deletion of two different hooks under one path. *)
Theorem EncodeToString_inj (src src' : string) :
  base64.EncodeToString src = base64.EncodeToString src' → src = src'.
Proof.
  revert src'.
  induction src as [|a|a b|a b c rest IH] using string_ind3;
    intros [|a' [|b' [|c' rest']]]; cbn [base64.EncodeToString];
    intros Heq; try done; injection Heq; intros;
    try match goal with
        | H : base64.encode (N.land _ 63) = base64.StdPadding |- _ =>
            by destruct (encode_not_padding _ (sextet_lt _) H)
        | H : base64.StdPadding = base64.encode (N.land _ 63) |- _ =>
            by destruct (encode_not_padding _ (sextet_lt _) (eq_sym H))
        end.
  - f_equal. by eapply block1_inj.
  - assert (a = a' ∧ b = b') as [-> ->]; [|done].
    by eapply block2_inj.
  - assert (a = a' ∧ b = b' ∧ c = c') as (-> & -> & ->).
    { by eapply block3_inj. }
    f_equal. f_equal. f_equal. by apply IH.
Qed.

(** One URL, taken twice. *)
Lemma EncodeToString_inj_witness :
  "https://a.example/hook" = "https://a.example/hook".
Proof.
  exact (EncodeToString_inj "https://a.example/hook"
           "https://a.example/hook" eq_refl).
Defined.

(** ** Credentials *)

Lemma do_agree (c c' : client) (req : http.Request) :
  agreeOnAuthenticated c c' →
  http.BasicAuth req = Some (user c, pass c) →
  do c req = do c' req.
Proof.
  intros (_ & _ & _ & Hdo) Hauth. unfold do. by rewrite (Hdo req Hauth).
Qed.

Section credentials.
Context {lib : Library} {net : NetURL}.

Lemma methods_agree (c c' : client)
    (id accountID n txID fromAccountID toAccountID value : Z)
    (toAddress url_ : string) (options : list option_) :
  agreeOnAuthenticated c c' →
  Client.CreateAccount c = Client.CreateAccount c'
  ∧ Client.Account c id = Client.Account c' id
  ∧ Client.Accounts c options = Client.Accounts c' options
  ∧ Client.CreateAddress c accountID = Client.CreateAddress c' accountID
  ∧ Client.CreateTransactionIDs c n = Client.CreateTransactionIDs c' n
  ∧ Client.Transaction c id = Client.Transaction c' id
  ∧ Client.AccountTransactions c accountID options
    = Client.AccountTransactions c' accountID options
  ∧ Client.Transfer c txID fromAccountID toAccountID value
    = Client.Transfer c' txID fromAccountID toAccountID value
  ∧ Client.Debit c txID fromAccountID toAddress value
    = Client.Debit c' txID fromAccountID toAddress value
  ∧ Client.Fees c = Client.Fees c'
  ∧ Client.CreateHook c url_ = Client.CreateHook c' url_
  ∧ Client.Hooks c = Client.Hooks c'
  ∧ Client.DeleteHook c url_ = Client.DeleteHook c' url_.
Proof.
  intros Hagree. pose proof Hagree as (Hurl & Huser & Hpass & _).
  unfold Client.CreateAccount, Client.Account, Client.Accounts,
    Client.CreateAddress, Client.CreateTransactionIDs, Client.Transaction,
    Client.AccountTransactions, Client.Transfer, Client.Debit, Client.Fees,
    Client.CreateHook, Client.Hooks, Client.DeleteHook, http.NewRequest.
  rewrite <- Hurl, <- Huser, <- Hpass.
  repeat split;
    repeat match goal with
           | |- context [url_Parse ?s] => destruct (url_Parse s); [|done..]
           | |- context [url_ParseURL ?s] =>
               destruct (url_ParseURL s); [|done..]
           | |- context [rangeOptions ?o ?u] =>
               destruct (rangeOptions o u); [|done..]
           | |- _ => progress cbn [mbind result_bind mret result_ret]
           end;
    by rewrite (do_agree c c' _ Hagree).
Qed.

(** X19.  A client made by [New] with a user and a password depends on
    its transport only through the requests that carry this user and
    this password: two transports that answer those alike give every
    method the same result. *)
Theorem New_sends_credentials_always (t t' : http.Client)
    (url_ user_ pass_ : string)
    (id accountID n txID fromAccountID toAccountID value : Z)
    (toAddress hook : string) (options : list option_) :
  (∀ req, http.BasicAuth req = Some (user_, pass_) →
     http.Do t req = http.Do t' req) →
  Client.CreateAccount (New t url_ user_ pass_)
  = Client.CreateAccount (New t' url_ user_ pass_)
  ∧ Client.Account (New t url_ user_ pass_) id
    = Client.Account (New t' url_ user_ pass_) id
  ∧ Client.Accounts (New t url_ user_ pass_) options
    = Client.Accounts (New t' url_ user_ pass_) options
  ∧ Client.CreateAddress (New t url_ user_ pass_) accountID
    = Client.CreateAddress (New t' url_ user_ pass_) accountID
  ∧ Client.CreateTransactionIDs (New t url_ user_ pass_) n
    = Client.CreateTransactionIDs (New t' url_ user_ pass_) n
  ∧ Client.Transaction (New t url_ user_ pass_) id
    = Client.Transaction (New t' url_ user_ pass_) id
  ∧ Client.AccountTransactions (New t url_ user_ pass_) accountID options
    = Client.AccountTransactions (New t' url_ user_ pass_) accountID options
  ∧ Client.Transfer (New t url_ user_ pass_) txID fromAccountID
      toAccountID value
    = Client.Transfer (New t' url_ user_ pass_) txID fromAccountID
        toAccountID value
  ∧ Client.Debit (New t url_ user_ pass_) txID fromAccountID toAddress value
    = Client.Debit (New t' url_ user_ pass_) txID fromAccountID toAddress
        value
  ∧ Client.Fees (New t url_ user_ pass_)
    = Client.Fees (New t' url_ user_ pass_)
  ∧ Client.CreateHook (New t url_ user_ pass_) hook
    = Client.CreateHook (New t' url_ user_ pass_) hook
  ∧ Client.Hooks (New t url_ user_ pass_)
    = Client.Hooks (New t' url_ user_ pass_)
  ∧ Client.DeleteHook (New t url_ user_ pass_) hook
    = Client.DeleteHook (New t' url_ user_ pass_) hook.
Proof.
  intros Hdo. by apply methods_agree.
Qed.

End credentials.

(** A service that answers everybody and one that answers only the user
    give the client of this user the same hooks. *)
Lemma New_sends_credentials_always_witness :
  Client.Hooks (lib := sample.library)
    (New (client_ (sample.service 200 sample.hooksBody))
       MainNetURL "user" "pass")
  = Client.Hooks (lib := sample.library)
      (New (client_ (sample.guarded 200 sample.hooksBody))
         MainNetURL "user" "pass").
Proof.
  refine (proj1 (proj2 (proj2 (proj2 (proj2 (proj2 (proj2 (proj2 (proj2
            (proj2 (proj2 (proj2
    (New_sends_credentials_always (lib := sample.library)
       (net := sample.netURL)
       (client_ (sample.service 200 sample.hooksBody))
       (client_ (sample.guarded 200 sample.hooksBody))
       MainNetURL "user" "pass" 1 1 1 1 1 2 1
       "address" "https://a.example/hook" [] _))))))))))))).
  intros req Hauth. cbn. by rewrite Hauth.
Defined.

(** ** The text of a query *)

Section query_facts.
Import neturl.

Lemma string_app_assoc (a b c : string) : (a +:+ b) +:+ c = a +:+ (b +:+ c).
Proof.
  induction a as [|x a IH]; [reflexivity|].
  change (String x (a +:+ b) +:+ c = String x (a +:+ (b +:+ c))).
  change (String x ((a +:+ b) +:+ c) = String x (a +:+ (b +:+ c))).
  by rewrite IH.
Qed.

Lemma string_app_nil_r (a : string) : a +:+ "" = a.
Proof.
  induction a as [|x a IH]; [reflexivity|].
  change (String x (a +:+ "") = String x a). by rewrite IH.
Qed.

Lemma Contains_app (a b : string) (c : ascii) :
  Contains (a +:+ b) c = Contains a c || Contains b c.
Proof.
  induction a as [|x a IH]; [done|].
  change (Contains (String x (a +:+ b)) c
          = Contains (String x a) c || Contains b c).
  simpl. rewrite IH. by rewrite orb_assoc.
Qed.

Lemma Cut_app (a b : string) (sep : ascii) :
  Contains a sep = false → Cut (a +:+ String sep b) sep = (a, b).
Proof.
  induction a as [|x a IH]; intros Ha.
  - change (Cut (String sep b) sep = ("", b)). simpl. by rewrite decide_True.
  - change (Cut (String x (a +:+ String sep b)) sep = (String x a, b)).
    simpl in *.
    apply orb_false_elim in Ha as [Hx Ha].
    apply bool_decide_eq_false in Hx.
    rewrite decide_False by done. by rewrite IH.
Qed.

Lemma segments_cons (seg rest : string) :
  Contains seg "&" = false →
  segments (seg +:+ String "&" rest) = seg :: segments rest.
Proof.
  induction seg as [|x seg IH]; intros Hseg.
  - done.
  - change (segments (String x (seg +:+ String "&" rest))
            = String x seg :: segments rest).
    simpl in *. apply orb_false_elim in Hseg as [Hx Hseg].
    apply bool_decide_eq_false in Hx.
    rewrite decide_False by done. by rewrite IH.
Qed.

Lemma segments_one (seg : string) :
  Contains seg "&" = false → seg ≠ "" → segments seg = [seg].
Proof.
  induction seg as [|x seg IH]; simpl; intros Hseg Hne; [done|].
  apply orb_false_elim in Hseg as [Hx Hseg].
  apply bool_decide_eq_false in Hx.
  rewrite decide_False by done.
  destruct seg as [|y seg]; [done|]. by rewrite IH.
Qed.

(** Byte by byte: what [QueryEscape] writes holds none of the three
    separators, and [QueryUnescape] reads it back. *)
Lemma QueryEscape_cons_plain (c : ascii) (s : string) (x : ascii) :
  x = "&"%char ∨ x = "="%char ∨ x = ";"%char →
  Contains (QueryEscape (String c s)) x = Contains (QueryEscape s) x.
Proof.
  intros [->|[->| ->]];
    destruct c as [[] [] [] [] [] [] [] []]; reflexivity.
Qed.

Lemma QueryEscape_plain (s : string) (x : ascii) :
  x = "&"%char ∨ x = "="%char ∨ x = ";"%char →
  Contains (QueryEscape s) x = false.
Proof.
  intros Hx. induction s as [|c s IH]; [done|].
  by rewrite QueryEscape_cons_plain.
Qed.

Section escape_facts.
Variable Quote : string → string.

Lemma QueryUnescape_cons (c : ascii) (s : string) :
  QueryUnescape Quote (QueryEscape (String c s))
  = match QueryUnescape Quote (QueryEscape s) with
    | (t, None) => (String c t, None)
    | (_, Some err) => (EmptyString, Some err)
    end.
Proof. destruct c as [[] [] [] [] [] [] [] []]; reflexivity. Qed.

Lemma QueryUnescape_QueryEscape (s : string) :
  QueryUnescape Quote (QueryEscape s) = (s, None).
Proof.
  induction s as [|c s IH]; [done|]. by rewrite QueryUnescape_cons, IH.
Qed.
End escape_facts.

Lemma append_not_nil (a b : string) : a ≠ "" → a +:+ b ≠ "".
Proof. by destruct a. Qed.

Lemma Encode_values (k : string) (vs : list string) (buf : string) :
  foldl (λ buf x,
           (if decide (buf = "") then buf else buf +:+ "&")
           +:+ (QueryEscape k +:+ ("=" +:+ QueryEscape x)))
    buf vs
  = foldl write buf (segOf <$> ((λ x, (k, x)) <$> vs)).
Proof.
  revert buf. induction vs as [|x vs IH]; intros buf; [done|].
  simpl. by rewrite IH.
Qed.

Lemma Encode_keys (kvs : list (string * list string)) (buf : string) :
  foldl (λ buf (kvs : string * list string),
           let keyEscaped := QueryEscape kvs.1 in
           foldl (λ buf x,
                    (if decide (buf = "") then buf else buf +:+ "&")
                    +:+ (keyEscaped +:+ ("=" +:+ QueryEscape x)))
             buf kvs.2)
    buf kvs
  = foldl write buf (segOf <$> pairsOf kvs).
Proof.
  revert buf. induction kvs as [|[k vs] kvs IH]; intros buf; [done|].
  unfold pairsOf. rewrite bind_cons, fmap_app, foldl_app.
  fold (pairsOf kvs). rewrite <- IH. simpl. by rewrite Encode_values.
Qed.

Lemma Encode_pairs (v : Values) :
  Encode v
  = foldl write "" (segOf <$> pairsOf (merge_sort keyLe (map_to_list v))).
Proof. apply Encode_keys. Qed.

Lemma foldl_write (buf : string) (segs : list string) :
  buf ≠ "" → foldl write buf segs = buf +:+ tailOf segs.
Proof.
  revert buf. induction segs as [|seg segs IH]; intros buf Hbuf.
  - simpl. by rewrite string_app_nil_r.
  - simpl. unfold write at 2. rewrite decide_False by done.
    rewrite IH by (by do 2 apply append_not_nil).
    rewrite !string_app_assoc. reflexivity.
Qed.

Lemma segments_tail (seg : string) (segs : list string) :
  Forall (λ s, Contains s "&" = false ∧ s ≠ "") (seg :: segs) →
  segments (seg +:+ tailOf segs) = seg :: segs.
Proof.
  revert seg. induction segs as [|seg' segs IH]; intros seg Hall.
  - simpl. rewrite string_app_nil_r.
    apply Forall_cons in Hall as [[Hamp Hne] _]. by apply segments_one.
  - apply Forall_cons in Hall as [[Hamp Hne] Hall].
    simpl. rewrite segments_cons by done. by rewrite IH.
Qed.

Lemma segments_written (segs : list string) :
  Forall (λ s, Contains s "&" = false ∧ s ≠ "") segs →
  segments (foldl write "" segs) = segs.
Proof.
  destruct segs as [|seg segs]; [done|]. intros Hall.
  pose proof Hall as [[_ Hne] _]%Forall_cons.
  simpl. unfold write at 2. rewrite decide_True by done.
  change ("" +:+ seg) with seg.
  rewrite foldl_write by done. by apply segments_tail.
Qed.

Lemma segOf_plain (p : string * string) :
  Contains (segOf p) "&" = false ∧ segOf p ≠ "".
Proof.
  unfold segOf. split.
  - rewrite Contains_app. change ("=" +:+ ?s) with (String "=" s). simpl.
    rewrite !QueryEscape_plain by tauto. done.
  - intros Heq. destruct (QueryEscape p.1); discriminate Heq.
Qed.

Section parse_facts.
Variable Quote : string → string.

Lemma parseSegment_segOf (m : Values) (err : option error)
    (p : string * string) :
  parseSegment Quote (m, err) (segOf p) = (add m p, err).
Proof.
  unfold parseSegment.
  assert (Contains (segOf p) ";" = false) as ->.
  { unfold segOf. rewrite Contains_app.
    change ("=" +:+ ?s) with (String "=" s). simpl.
    by rewrite !QueryEscape_plain by tauto. }
  rewrite decide_False by apply segOf_plain.
  unfold segOf. change ("=" +:+ ?s) with (String "=" s).
  rewrite Cut_app by (apply QueryEscape_plain; tauto).
  by rewrite !QueryUnescape_QueryEscape.
Qed.

Lemma foldl_parseSegment (m : Values) (err : option error)
    (ps : list (string * string)) :
  foldl (parseSegment Quote) (m, err) (segOf <$> ps) = (foldl add m ps, err).
Proof.
  revert m. induction ps as [|p ps IH]; intros m; [done|].
  rewrite fmap_cons. cbn [foldl]. by rewrite parseSegment_segOf, IH.
Qed.

Lemma parseSegment_nonEmpty (st : Values * option error) (key : string) :
  nonEmptyValues st.1 → nonEmptyValues (parseSegment Quote st key).1.
Proof.
  destruct st as [m err]. simpl. intros Hm. unfold parseSegment.
  destruct (Contains key ";"); [done|].
  case_decide; [done|].
  destruct (Cut key "=") as [k x].
  destruct (QueryUnescape Quote k) as [k' [e|]]; [done|].
  destruct (QueryUnescape Quote x) as [x' [e|]]; [done|].
  simpl. intros i l. destruct (decide (i = k')) as [->|Hne].
  - rewrite lookup_insert_eq. intros [= <-]. by destruct (default [] _).
  - rewrite lookup_insert_ne by done. apply Hm.
Qed.

Lemma ParseQuery_nonEmpty (query : string) :
  nonEmptyValues (ParseQuery Quote query).1.
Proof.
  unfold ParseQuery.
  assert (nonEmptyValues ((∅, None) : Values * option error).1) as Hst
    by (intros k l; simpl; by rewrite lookup_empty).
  revert Hst. generalize ((∅, None) : Values * option error).
  induction (segments query) as [|seg segs IH]; intros st Hst; [done|].
  cbn [foldl]. apply IH. by apply parseSegment_nonEmpty.
Qed.
End parse_facts.

Lemma valuesOf_cons (k k' x : string) (ps : list (string * string)) :
  valuesOf k ((k', x) :: ps)
  = if decide (k' = k) then x :: valuesOf k ps else valuesOf k ps.
Proof.
  unfold valuesOf. case_decide.
  - by rewrite filter_cons_True.
  - by rewrite filter_cons_False.
Qed.

Lemma lookup_foldl_add (ps : list (string * string)) (m : Values)
    (k : string) :
  foldl add m ps !! k
  = if decide (valuesOf k ps = []) then m !! k
    else Some (default [] (m !! k) ++ valuesOf k ps)%list.
Proof.
  revert m. induction ps as [|[k' x] ps IH]; intros m.
  - reflexivity.
  - cbn [foldl]. rewrite IH, valuesOf_cons. unfold add. cbn [fst snd].
    destruct (decide (k' = k)) as [->|Hne].
    + rewrite lookup_insert_eq. cbn [default].
      rewrite (decide_False (P := _ :: _ = [])) by done.
      case_decide as Hnil.
      * by rewrite Hnil.
      * unfold id. by rewrite <- app_assoc.
    + by rewrite lookup_insert_ne.
Qed.
Lemma valuesOf_app (k : string) (ps qs : list (string * string)) :
  valuesOf k (ps ++ qs) = (valuesOf k ps ++ valuesOf k qs)%list.
Proof. unfold valuesOf. by rewrite filter_app, fmap_app. Qed.

Lemma valuesOf_key (k k' : string) (vs : list string) :
  valuesOf k ((λ x, (k', x)) <$> vs) = if decide (k' = k) then vs else [].
Proof.
  induction vs as [|x vs IH].
  - by case_decide.
  - rewrite fmap_cons, valuesOf_cons, IH. by case_decide.
Qed.

Lemma valuesOf_pairsOf (kvs : list (string * list string)) (k : string) :
  NoDup kvs.*1 →
  (∀ vs, (k, vs) ∈ kvs → valuesOf k (pairsOf kvs) = vs)
  ∧ (k ∉ kvs.*1 → valuesOf k (pairsOf kvs) = []).
Proof.
  induction kvs as [|[k' vs'] kvs IH]; intros Hnd.
  - split; [by intros vs ?%elem_of_nil|done].
  - apply NoDup_cons in Hnd as [Hk' Hnd]. destruct (IH Hnd) as [IHin IHout].
    unfold pairsOf. rewrite bind_cons. fold (pairsOf kvs).
    rewrite valuesOf_app, valuesOf_key. simpl in *. split.
    + intros vs [[= <- <-]|Hin]%elem_of_cons.
      * rewrite decide_True by done. rewrite IHout by done.
        by rewrite app_nil_r.
      * rewrite decide_False.
        -- by rewrite (IHin vs Hin).
        -- intros ->. apply Hk'. apply list_elem_of_fmap.
           by exists (k, vs).
    + intros Hout. apply not_elem_of_cons in Hout as [Hne Hout].
      rewrite decide_False by done. by rewrite IHout.
Qed.

Lemma ParseQuery_Encode (Quote : string → string) (v : Values) :
  nonEmptyValues v → ParseQuery Quote (Encode v) = (v, None).
Proof.
  intros Hv. unfold ParseQuery. rewrite Encode_pairs.
  rewrite segments_written
    by (apply Forall_fmap, Forall_forall; intros p _; apply segOf_plain).
  rewrite foldl_parseSegment. f_equal.
  pose proof (merge_sort_Permutation keyLe (map_to_list v)) as Hperm.
  assert (NoDup (merge_sort keyLe (map_to_list v)).*1) as Hnd.
  { rewrite Hperm. apply NoDup_fst_map_to_list. }
  apply map_eq. intros k. rewrite lookup_foldl_add, lookup_empty.
  destruct (valuesOf_pairsOf _ k Hnd) as [Hin Hout].
  destruct (v !! k) as [vs|] eqn:Hk.
  - rewrite (Hin vs) by (rewrite Hperm; by apply elem_of_map_to_list).
    rewrite decide_False by (by eapply Hv). done.
  - rewrite Hout; [done|].
    intros ([k' vs] & -> & Hel)%list_elem_of_fmap.
    rewrite Hperm in Hel. apply elem_of_map_to_list in Hel. simpl in *.
    congruence.
Qed.

End query_facts.

(** ** Options and listings *)

Lemma withRawQuery_twice (q q' : string) (u : neturl.URL) :
  neturl.withRawQuery q' (neturl.withRawQuery q u) = neturl.withRawQuery q' u.
Proof. done. Qed.

Lemma do_envelope (c : client) (req : http.Request) (status : Z)
    (body : http.bytes) (type next : string) (p : value) :
  answers c req status body → http.len body ≠ 0 → type ≠ "error" →
  http.scan body
  = Valid (Object [("type", Str type); ("next", Str next); ("payload", p)]) →
  do c req = Ok (next, Some p).
Proof.
  intros Hc Hlen Hty Hscan. rewrite (do_answers _ _ _ _ Hc).
  rewrite decide_False by tauto. unfold envelope. rewrite Hscan.
  match goal with
  | |- context [json.Unmarshal ?dec ?d ?z] =>
      let r := eval vm_compute in (json.Unmarshal dec d z) in
      change (json.Unmarshal dec d z) with r
  end; cbv beta iota; cbn [object_Type Next Payload].
  by rewrite decide_False.
Qed.

Section listing_facts.
Context {lib : Library} {net : NetURL}.

Lemma optionOf_setQueryValue (s : setting) (u : neturl.URL) :
  optionOf s u = setQueryValue u (settingKey s) (settingValue s).
Proof. by destruct s. Qed.

Lemma Set_nonEmpty (v : neturl.Values) (key value : string) :
  nonEmptyValues v → nonEmptyValues (neturl.Set_ v key value).
Proof.
  intros Hv k l. unfold neturl.Set_.
  destruct (decide (k = key)) as [->|Hne].
  - rewrite lookup_insert_eq. by intros [= <-].
  - rewrite lookup_insert_ne by done. apply Hv.
Qed.

Lemma rangeOptions_settings (ss : list setting) (u : neturl.URL)
    (v : neturl.Values) :
  queryRoundTrip →
  url_ParseQuery (neturl.RawQuery u) = (v, None) →
  rangeOptions (optionOf <$> ss) u
  = Ok match ss with
       | [] => u
       | _ => neturl.withRawQuery (Values_Encode (setAll ss v)) u
       end.
Proof.
  intros [Hne Hrt] Hv.
  assert (nonEmptyValues v) as Hnev.
  { specialize (Hne (neturl.RawQuery u)). by rewrite Hv in Hne. }
  revert u v Hv Hnev.
  induction ss as [|s rest IH]; intros u v Hv Hnev; [done|].
  rewrite fmap_cons. cbn [rangeOptions].
  rewrite optionOf_setQueryValue. unfold setQueryValue at 1. rewrite Hv.
  cbn [mbind result_bind].
  rewrite (IH _ (neturl.Set_ v (settingKey s) (settingValue s)));
    [by destruct rest|by apply Hrt, Set_nonEmpty|by apply Set_nonEmpty].
Qed.

Lemma rangeOptions_unparseable (s : setting) (rest : list option_)
    (u : neturl.URL) (v : neturl.Values) (err : error) :
  url_ParseQuery (neturl.RawQuery u) = (v, Some err) →
  rangeOptions (optionOf s :: rest) u = Err err.
Proof.
  intros Hv. cbn [rangeOptions].
  rewrite optionOf_setQueryValue. unfold setQueryValue. by rewrite Hv.
Qed.

Lemma Accounts_sends (c : client) (options : list option_)
    (u u' : neturl.URL) (s : string) :
  url_ParseURL (url c +:+ "/accounts/") = Ok u →
  rangeOptions options u = Ok u' →
  url_Parse (neturl.String_ u') = Ok s →
  Client.Accounts c options =
    '(next, payload) ← do c (Accounts_request c s);
    accs ← accountsFromPayload payload;
    Ok (next, accs).
Proof.
  intros Hu Hu' Hs. unfold Client.Accounts, http.NewRequest.
  rewrite Hu. cbn. rewrite Hu'. cbn. by rewrite Hs.
Qed.

Lemma AccountTransactions_sends (c : client) (accountID : Z)
    (options : list option_) (u u' : neturl.URL) (s : string) :
  url_ParseURL
    (url c +:+ "/accounts/" +:+ Itoa accountID +:+ "/transactions/")
  = Ok u →
  rangeOptions options u = Ok u' →
  url_Parse (neturl.String_ u') = Ok s →
  Client.AccountTransactions c accountID options =
    '(next, payload) ← do c (AccountTransactions_request c s);
    match transactions payload with
    | (_, Some err) => Err err
    | (txns, None) => Ok (next, txns)
    end.
Proof.
  intros Hu Hu' Hs. unfold Client.AccountTransactions, http.NewRequest.
  rewrite Hu. cbn. rewrite Hu'. cbn. by rewrite Hs.
Qed.

Lemma Transaction_json_value (tx : Transaction) :
  Transaction_int64 tx → Created tx = zeroTime →
  Transaction_json (Transaction_value tx) Transaction_zero = Stored tx None.
Proof.
  intros (H1 & H2 & H3 & H4 & H5 & H6 & H7 & H8 & H9) Htime.
  unfold Transaction_json, Transaction_value, struct.
  cbn -[int64 Client.number slice].
  repeat (first [ rewrite int64_number, decide_True by done
                | rewrite strings_round_trip ];
          cbn -[int64 Client.number slice]).
  destruct tx. cbn in *. by subst.
Qed.

(** X20.  A row of options, one at least, rewrites the query of the URL
    as the encoding of its values with every option's key set to the
    single value of the option, in the order of the row, and leaves the
    rest of the URL alone, for query functions that return no key
    without a value and read back what they write of such values, as
    those of [net/url] do; when the query of the URL cannot be parsed the
    first option returns the error of [url.ParseQuery] and no later one
    runs. *)
Theorem options_write_the_query (ss : list setting) (u : neturl.URL)
    (v : neturl.Values) :
  ss ≠ [] →
  (queryRoundTrip → url_ParseQuery (neturl.RawQuery u) = (v, None) →
   rangeOptions (optionOf <$> ss) u
   = Ok (neturl.withRawQuery (Values_Encode (setAll ss v)) u))
  ∧ (∀ err, url_ParseQuery (neturl.RawQuery u) = (v, Some err) →
       rangeOptions (optionOf <$> ss) u = Err err).
Proof.
  intros Hss. split.
  - intros Hrt Hv. rewrite (rangeOptions_settings ss u v Hrt Hv).
    by destruct ss.
  - intros err Hv. destruct ss as [|s rest]; [done|].
    rewrite fmap_cons. by eapply rangeOptions_unparseable.
Qed.

(** X21.  Accounts and AccountTransactions depend on their options only
    through the values these leave in the query, for query functions
    that return no key without a value and read back what they write of
    such values, as those of [net/url] do: two rows of options, one at
    least in each, that set the same keys to the same final values give
    the same result, so options on different keys commute and the later
    of two options on one key wins. *)
Theorem listings_depend_on_final_values (c : client) (accountID : Z)
    (ss ss' : list setting) :
  queryRoundTrip → ss ≠ [] → ss' ≠ [] →
  (∀ v, setAll ss v = setAll ss' v) →
  Client.Accounts c (optionOf <$> ss) = Client.Accounts c (optionOf <$> ss')
  ∧ Client.AccountTransactions c accountID (optionOf <$> ss)
    = Client.AccountTransactions c accountID (optionOf <$> ss').
Proof.
  intros Hrt Hss Hss' Hall.
  assert (∀ u, rangeOptions (optionOf <$> ss) u
               = rangeOptions (optionOf <$> ss') u) as Hsame.
  { intros u.
    destruct (url_ParseQuery (neturl.RawQuery u)) as [v [err|]] eqn:Hv.
    - destruct ss as [|s rest], ss' as [|s' rest']; try done.
      rewrite !fmap_cons.
      by rewrite (rangeOptions_unparseable s _ u v err Hv),
        (rangeOptions_unparseable s' _ u v err Hv).
    - rewrite (rangeOptions_settings ss u v Hrt Hv),
        (rangeOptions_settings ss' u v Hrt Hv), Hall.
      by destruct ss, ss'. }
  unfold Client.Accounts, Client.AccountTransactions.
  split.
  - destruct (url_ParseURL _) as [u|e|p]; [|done..].
    cbn [mbind result_bind]. by rewrite Hsame.
  - destruct (url_ParseURL _) as [u|e|p]; [|done..].
    cbn [mbind result_bind]. by rewrite Hsame.
Qed.

(** X22.  When the base URL of the client carries a query that
    [url.ParseQuery] rejects, Accounts and AccountTransactions with an
    option of the package in the first place return the error of
    [url.ParseQuery], whatever the transport would answer; without
    options the query is not looked at and the request goes out to the
    URL as it was parsed. *)
Theorem listings_unparseable_query (c : client) (accountID : Z)
    (s : setting) (rest : list option_) (u : neturl.URL)
    (v : neturl.Values) (err : error) (target : string) :
  url_ParseQuery (neturl.RawQuery u) = (v, Some err) →
  (url_ParseURL (url c +:+ "/accounts/") = Ok u →
   Client.Accounts c (optionOf s :: rest) = Err err
   ∧ (url_Parse (neturl.String_ u) = Ok target →
      Client.Accounts c []
      = ('(next, payload) ← do c (Accounts_request c target);
         accs ← accountsFromPayload payload;
         Ok (next, accs))))
  ∧ (url_ParseURL
       (url c +:+ "/accounts/" +:+ Itoa accountID +:+ "/transactions/")
     = Ok u →
     Client.AccountTransactions c accountID (optionOf s :: rest) = Err err
     ∧ (url_Parse (neturl.String_ u) = Ok target →
        Client.AccountTransactions c accountID []
        = ('(next, payload) ← do c (AccountTransactions_request c target);
           match transactions payload with
           | (_, Some err) => Err err
           | (txns, None) => Ok (next, txns)
           end))).
Proof.
  intros Hv. split; intros Hu; split.
  - unfold Client.Accounts. rewrite Hu. cbn [mbind result_bind].
    by rewrite (rangeOptions_unparseable s rest u v err Hv).
  - intros Ht. by apply (Accounts_sends c [] u u target).
  - unfold Client.AccountTransactions. rewrite Hu. cbn [mbind result_bind].
    by rewrite (rangeOptions_unparseable s rest u v err Hv).
  - intros Ht. by apply (AccountTransactions_sends c accountID [] u u target).
Qed.

(** X23.  From an envelope with the members [type], [next] and [payload]
    whose type is anything but error, Accounts returns the cursor [next]
    and the accounts of the payload in its order, AccountTransactions the
    cursor and the transactions: the type of the envelope is not compared
    with accounts or transactions.  Numbers lie within [int64] and the
    transactions carry no time stamp. *)
Theorem listings_return_cursor_and_list (c : client) (accountID : Z)
    (options : list option_) (u u' : neturl.URL) (target : string)
    (status : Z) (body : http.bytes) (type next : string)
    (accs : list Account) (txns : list Transaction) :
  rangeOptions options u = Ok u' →
  url_Parse (neturl.String_ u') = Ok target →
  http.len body ≠ 0 → type ≠ "error" →
  (url_ParseURL (url c +:+ "/accounts/") = Ok u →
   answers c (Accounts_request c target) status body →
   http.scan body
   = Valid (Object [ ("type", Str type); ("next", Str next);
                     ("payload", Array (Account_value <$> accs)) ]) →
   Forall (λ a, int64_range (Account_ID a)
               ∧ int64_range (Account_Balance a)) accs →
   Client.Accounts c options = Ok (next, accs))
  ∧ (url_ParseURL
       (url c +:+ "/accounts/" +:+ Itoa accountID +:+ "/transactions/")
     = Ok u →
     answers c (AccountTransactions_request c target) status body →
     http.scan body
     = Valid (Object [ ("type", Str type); ("next", Str next);
                       ("payload", Array (Transaction_value <$> txns)) ]) →
     Forall (λ tx, Transaction_int64 tx ∧ Created tx = zeroTime) txns →
     Client.AccountTransactions c accountID options = Ok (next, txns)).
Proof.
  intros Hu' Ht Hlen Hty. split; intros Hu Hc Hscan Hall.
  - rewrite (Accounts_sends c options u u' target Hu Hu' Ht).
    rewrite (do_envelope _ _ _ _ _ _ _ Hc Hlen Hty Hscan).
    cbn [mbind result_bind].
    unfold accountsFromPayload, json.Unmarshal, RawMessage_data, slice.
    rewrite (array_round_trip Account_json Account_zero Account_value);
      [done|].
    eapply Forall_impl; [exact Hall|].
    intros a [Hid Hbal]. by apply Account_json_value.
  - rewrite (AccountTransactions_sends c accountID options u u' target
               Hu Hu' Ht).
    rewrite (do_envelope _ _ _ _ _ _ _ Hc Hlen Hty Hscan).
    cbn [mbind result_bind].
    unfold transactions, json.Unmarshal, RawMessage_data, slice.
    rewrite (array_round_trip Transaction_json Transaction_zero
               Transaction_value); [done|].
    eapply Forall_impl; [exact Hall|].
    intros tx [Hint Htime]. by apply Transaction_json_value.
Qed.

(** X24.  When the exchange succeeds without payload, on an empty body
    under a 2xx code, both listings return the syntax error of the empty
    text and neither cursor nor list. *)
Theorem listings_without_payload (c : client) (accountID : Z)
    (options : list option_) (u u' : neturl.URL) (target : string)
    (status : Z) (body : http.bytes) :
  rangeOptions options u = Ok u' →
  url_Parse (neturl.String_ u') = Ok target →
  http.len body = 0 → 200 ≤ status < 300 →
  (url_ParseURL (url c +:+ "/accounts/") = Ok u →
   answers c (Accounts_request c target) status body →
   Client.Accounts c options
   = Err (SyntaxError "unexpected end of JSON input"))
  ∧ (url_ParseURL
       (url c +:+ "/accounts/" +:+ Itoa accountID +:+ "/transactions/")
     = Ok u →
     answers c (AccountTransactions_request c target) status body →
     Client.AccountTransactions c accountID options
     = Err (SyntaxError "unexpected end of JSON input")).
Proof.
  intros Hu' Ht Hlen Hst. split; intros Hu Hc.
  - rewrite (Accounts_sends c options u u' target Hu Hu' Ht).
    by rewrite (do_answers _ _ _ _ Hc), decide_True by lia.
  - rewrite (AccountTransactions_sends c accountID options u u' target
               Hu Hu' Ht).
    by rewrite (do_answers _ _ _ _ Hc), decide_True by lia.
Qed.

End listing_facts.

(** The query functions of the library read back what they write, for
    every [strconv.Quote]. *)
Lemma netURL_round_trip : queryRoundTrip (net := sample.netURL).
Proof.
  split.
  - intros q. apply ParseQuery_nonEmpty.
  - intros v Hv. by apply ParseQuery_Encode.
Qed.

(** A limit, the pending transactions, and a second limit on a URL
    without query. *)
Lemma options_write_the_query_witness :
  rangeOptions
    (optionOf (net := sample.netURL)
       <$> [limitTo 5; pendingOnly; limitTo 10])
    {| neturl.beforeQuery := MainNetURL +:+ "/accounts/";
       neturl.ForceQuery := false; neturl.RawQuery := "";
       neturl.afterQuery := "" |}
  = Ok {| neturl.beforeQuery := MainNetURL +:+ "/accounts/";
          neturl.ForceQuery := false;
          neturl.RawQuery := "limit=10&status=pending";
          neturl.afterQuery := "" |}.
Proof.
  rewrite (proj1 (options_write_the_query (net := sample.netURL)
                    [limitTo 5; pendingOnly; limitTo 10]
                    {| neturl.beforeQuery := MainNetURL +:+ "/accounts/";
                       neturl.ForceQuery := false; neturl.RawQuery := "";
                       neturl.afterQuery := "" |}
                    ∅ ltac:(done)) netURL_round_trip eq_refl).
  vm_compute. reflexivity.
Defined.

(** The first of two limits makes no difference. *)
Lemma listings_depend_on_final_values_witness :
  Client.Accounts (lib := sample.library) (net := sample.netURL)
    (sample.service 200 (sample.accountsBody [sample.account "7" "0"]))
    (optionOf (net := sample.netURL)
       <$> [limitTo 5; pendingOnly; limitTo 10])
  = Client.Accounts (lib := sample.library) (net := sample.netURL)
      (sample.service 200 (sample.accountsBody [sample.account "7" "0"]))
      (optionOf (net := sample.netURL) <$> [pendingOnly; limitTo 10]).
Proof.
  refine (proj1 (listings_depend_on_final_values (lib := sample.library)
                   (net := sample.netURL)
                   (sample.service 200
                      (sample.accountsBody [sample.account "7" "0"]))
                   7 [limitTo 5; pendingOnly; limitTo 10]
                   [pendingOnly; limitTo 10] netURL_round_trip _ _ _));
    [done|done|].
  intros v. cbn. unfold neturl.Set_.
  rewrite (insert_insert_ne _ "status" "limit") by done.
  by rewrite insert_insert_eq.
Defined.

(** A base URL whose query holds a semicolon. *)
Lemma listings_unparseable_query_witness :
  Client.Accounts (lib := sample.library) (net := sample.strictURL)
    (sample.service 200 (sample.accountsBody [sample.account "7" "0"]))
    [Limit (net := sample.strictURL) 10]
  = Err (errors_New "invalid semicolon separator in query").
Proof.
  refine (proj1 (proj1 (listings_unparseable_query (lib := sample.library)
                          (net := sample.strictURL)
                          (sample.service 200
                             (sample.accountsBody [sample.account "7" "0"]))
                          7 (limitTo 10) []
                          {| neturl.beforeQuery := MainNetURL +:+ "/accounts/";
                             neturl.ForceQuery := false;
                             neturl.RawQuery := ";";
                             neturl.afterQuery := "" |}
                          ∅ (errors_New "invalid semicolon separator in query")
                          "" eq_refl) eq_refl)).
Defined.

(** Two accounts under the type of a list of hooks. *)
Lemma listings_return_cursor_and_list_witness :
  Client.Accounts (lib := sample.library) (net := sample.netURL)
    (sample.service 200
       (sample.text
          (Object [ ("type", Str "hooks"); ("next", Str "cursor");
                    ("payload",
                     Array (Account_value
                              <$> [ {| Account_ID := 7;
                                       Account_Balance := 0 |};
                                    {| Account_ID := 8;
                                       Account_Balance := 12 |} ])) ])))
    []
  = Ok ("cursor", [ {| Account_ID := 7; Account_Balance := 0 |};
                    {| Account_ID := 8; Account_Balance := 12 |} ]).
Proof.
  refine (proj1 (listings_return_cursor_and_list (lib := sample.library)
                   (net := sample.netURL)
                   (sample.service 200
                      (sample.text
                         (Object [ ("type", Str "hooks");
                                   ("next", Str "cursor");
                                   ("payload",
                                    Array (Account_value
                                             <$> [ {| Account_ID := 7;
                                                      Account_Balance := 0 |};
                                                   {| Account_ID := 8;
                                                      Account_Balance := 12
                                                   |} ])) ])))
                   7 []
                   {| neturl.beforeQuery := MainNetURL +:+ "/accounts/";
                      neturl.ForceQuery := false; neturl.RawQuery := "";
                      neturl.afterQuery := "" |}
                   {| neturl.beforeQuery := MainNetURL +:+ "/accounts/";
                      neturl.ForceQuery := false; neturl.RawQuery := "";
                      neturl.afterQuery := "" |}
                   (MainNetURL +:+ "/accounts/") 200 _ "hooks" "cursor"
                   [ {| Account_ID := 7; Account_Balance := 0 |};
                     {| Account_ID := 8; Account_Balance := 12 |} ] []
                   eq_refl eq_refl _ _) eq_refl eq_refl eq_refl _).
  - vm_compute. discriminate.
  - discriminate.
  - repeat constructor; vm_compute; discriminate.
Defined.

(** An empty body under the status 204. *)
Lemma listings_without_payload_witness :
  Client.AccountTransactions (lib := sample.library) (net := sample.netURL)
    (sample.service 204 sample.empty) 7 []
  = Err (SyntaxError "unexpected end of JSON input").
Proof.
  refine (proj2 (listings_without_payload (lib := sample.library)
                   (net := sample.netURL)
                   (sample.service 204 sample.empty) 7 []
                   {| neturl.beforeQuery :=
                        MainNetURL +:+ "/accounts/7/transactions/";
                      neturl.ForceQuery := false; neturl.RawQuery := "";
                      neturl.afterQuery := "" |}
                   {| neturl.beforeQuery :=
                        MainNetURL +:+ "/accounts/7/transactions/";
                      neturl.ForceQuery := false; neturl.RawQuery := "";
                      neturl.afterQuery := "" |}
                   (MainNetURL +:+ "/accounts/7/transactions/") 204
                   sample.empty eq_refl eq_refl eq_refl _) eq_refl eq_refl).
  lia.
Defined.

(** ** URLs that do not parse *)

Section rejected_urls.
Context {lib : Library} {net : NetURL}.

(** X25.  When the URL of a request does not parse, every method returns
    the error of the parser as it is, Fees and Hooks beside an empty
    list, and nothing is sent; Transfer and CreateHook do not look at the
    text of this error.  The listings parse twice, their URL before the
    options and its text after them, and return the error of either. *)
Theorem rejected_url_comes_back (c : client) (e : error)
    (id accountID n txID fromAccountID toAccountID value : Z)
    (toAddress url_ : string) (options : list option_)
    (u u' : neturl.URL) :
  (url_Parse (url c +:+ "/accounts/") = Err e →
   Client.CreateAccount c = Err e)
  ∧ (url_Parse (url c +:+ "/accounts/" +:+ Itoa id) = Err e →
     Client.Account c id = Err e)
  ∧ (url_Parse
       (url c +:+ "/accounts/" +:+ Itoa accountID +:+ "/addresses/")
     = Err e →
     Client.CreateAddress c accountID = Err e)
  ∧ (url_Parse (url c +:+ "/transactions/" +:+ Itoa id) = Err e →
     Client.Transaction c id = Err e)
  ∧ (url_Parse (url c +:+ "/transactions/") = Err e →
     Client.CreateTransactionIDs c n = Err e
     ∧ Client.Debit c txID fromAccountID toAddress value = Err e
     ∧ Client.Transfer c txID fromAccountID toAccountID value = Err e)
  ∧ (url_Parse (url c +:+ "/hooks/") = Err e →
     Client.CreateHook c url_ = Err e
     ∧ Client.Hooks c = Return ([], Some e))
  ∧ (url_Parse (url c +:+ "/hooks/" +:+ base64.EncodeToString url_) = Err e →
     Client.DeleteHook c url_ = Err e)
  ∧ (url_Parse (url c +:+ "/fees/") = Err e →
     Client.Fees c = Return ([], Some e))
  ∧ (url_ParseURL (url c +:+ "/accounts/") = Err e →
     Client.Accounts c options = Err e)
  ∧ (url_ParseURL (url c +:+ "/accounts/") = Ok u →
     rangeOptions options u = Ok u' →
     url_Parse (neturl.String_ u') = Err e →
     Client.Accounts c options = Err e)
  ∧ (url_ParseURL
       (url c +:+ "/accounts/" +:+ Itoa accountID +:+ "/transactions/")
     = Err e →
     Client.AccountTransactions c accountID options = Err e)
  ∧ (url_ParseURL
       (url c +:+ "/accounts/" +:+ Itoa accountID +:+ "/transactions/")
     = Ok u →
     rangeOptions options u = Ok u' →
     url_Parse (neturl.String_ u') = Err e →
     Client.AccountTransactions c accountID options = Err e).
Proof.
  unfold Client.CreateAccount, Client.Account, Client.Accounts,
    Client.CreateAddress, Client.CreateTransactionIDs, Client.Transaction,
    Client.AccountTransactions, Client.Transfer, Client.Debit, Client.Fees,
    Client.CreateHook, Client.Hooks, Client.DeleteHook, http.NewRequest.
  repeat match goal with |- _ ∧ _ => split end;
    try (intros Hu; repeat match goal with |- _ ∧ _ => split end;
         by rewrite Hu).
  - intros Hu Hu' Hs. rewrite Hu. cbn. rewrite Hu'. cbn. by rewrite Hs.
  - intros Hu Hu' Hs. rewrite Hu. cbn. rewrite Hu'. cbn. by rewrite Hs.
Qed.

End rejected_urls.

(** A base URL without scheme, and an error of the parser whose text is
    not looked at. *)
Lemma rejected_url_comes_back_witness :
  Client.Transfer (lib := sample.schemeLibrary) sample.noScheme 1 2 3 5
  = Err (otherError "*url.Error"
           ("parse " +:+ sample.quote "://api.rtwire.com/transactions/"
            +:+ ": missing protocol scheme")).
Proof.
  refine (proj2 (proj2 (proj1 (proj2 (proj2 (proj2 (proj2
    (rejected_url_comes_back (lib := sample.schemeLibrary)
       (net := sample.netURL) sample.noScheme
       (otherError "*url.Error"
          ("parse " +:+ sample.quote "://api.rtwire.com/transactions/"
           +:+ ": missing protocol scheme"))
       1 1 1 1 2 3 5 "address" "https://a.example/hook" []
       {| neturl.beforeQuery := ""; neturl.ForceQuery := false;
          neturl.RawQuery := ""; neturl.afterQuery := "" |}
       {| neturl.beforeQuery := ""; neturl.ForceQuery := false;
          neturl.RawQuery := ""; neturl.afterQuery := "" |}))))) eq_refl))).
Defined.
